(** * Paynexus MCP: the gateway service and the client package

    A shallow embedding of the gateway service (the mode-dispatching HTTP
    routes with their in-memory sandbox sessions and the production
    credential slot), of the single-mode service it grew from, and of the
    client package (configuration, logger, client, key rotation, webhook
    registration and [WebhookManager.verifySignature]), with the properties
    the design document states about them and further properties of the
    code.

    Conventions.
    - A JavaScript string is a Rocq [string]; the texts the gateway works on
      (bearer tokens, UUIDs, keys, hex digests, currency codes) are ASCII, and
      the string primitives below are their ASCII versions.
    - A [Buffer] is a [list byte].
    - A JSON value is a [json]; a JSON number is an integer.
    - [randomUUID], [randomBytes], the clock, the console, the backend and
      [fetch] are the environment: the k-th value each of them yields is
      given by a function of k, and the machine counts how many it has
      consumed.
    - A request is handled to its end before the next one starts: the
      handlers are not interleaved at their [await]s. *)

From Stdlib Require Import ZArith Bool List Ascii String DecimalString Lia.
From Stdlib.Strings Require Import Byte.
Import ListNotations.

Local Open Scope string_scope.
Local Open Scope Z_scope.

(** ** JavaScript string primitives *)

Module Js.

(** [s.slice(0, n)] for n >= 0. *)
Fixpoint slice0 (n : nat) (s : string) : string :=
  match n, s with
  | S k, String c r => String c (slice0 k r)
  | _, _ => EmptyString
  end.

(** [s.slice(n)] for n >= 0. *)
Fixpoint slice_from (n : nat) (s : string) : string :=
  match n, s with
  | S k, String _ r => slice_from k r
  | _, _ => s
  end.

(** [s.startsWith(p)]. *)
Fixpoint startsWith (p s : string) : bool :=
  match p, s with
  | EmptyString, _ => true
  | String a p', String b s' => if Ascii.eqb a b then startsWith p' s' else false
  | String _ _, EmptyString => false
  end.

Definition lower_ascii (c : ascii) : ascii :=
  let n := nat_of_ascii c in
  if ((65 <=? n) && (n <=? 90))%nat then ascii_of_nat (n + 32) else c.


(** [s.toLowerCase()] on a text of ASCII characters: the letters A-Z are
    lowered. (On other text JavaScript also lowers the letters outside
    ASCII; what is stated of the result of [toLowerCase] is stated for
    ASCII text.) *)
Fixpoint toLowerCase (s : string) : string :=
  match s with
  | EmptyString => EmptyString
  | String c r => String (lower_ascii c) (toLowerCase r)
  end.

(** [s.replace(/-/g, '')]. *)
Fixpoint strip_dashes (s : string) : string :=
  match s with
  | EmptyString => EmptyString
  | String c r => if Ascii.eqb c "-" then strip_dashes r else String c (strip_dashes r)
  end.

(** A string is truthy when it is not empty. *)
Definition nonempty (s : string) : bool :=
  match s with EmptyString => false | _ => true end.

(** The number of positions at which two texts differ, over their common length. *)
Fixpoint differing (a b : string) : nat :=
  match a, b with
  | String x a', String y b' => ((if Ascii.eqb x y then 0 else 1) + differing a' b')%nat
  | _, _ => 0%nat
  end.

(** [b] is [a] with one character replaced by another. *)
Definition one_byte_changed (a b : string) : bool :=
  Nat.eqb (String.length a) (String.length b) && Nat.eqb (differing a b) 1.

End Js.

(** ** The text of a UUID, as [crypto.randomUUID] writes it *)

Module Uuid.

Definition is_lower_hex (c : ascii) : bool :=
  let n := nat_of_ascii c in
  ((48 <=? n) && (n <=? 57) || (97 <=? n) && (n <=? 102))%nat.

Fixpoint all_lower_hex (s : string) : bool :=
  match s with
  | EmptyString => true
  | String c r => is_lower_hex c && all_lower_hex r
  end.

(** [s] has the shape of [pat]: a dash where [pat] has one, a lower-case
    hexadecimal digit elsewhere. *)
Fixpoint shaped (pat s : string) : bool :=
  match pat, s with
  | EmptyString, EmptyString => true
  | String p pat', String c s' =>
      (if Ascii.eqb p "-" then Ascii.eqb c "-" else is_lower_hex c) && shaped pat' s'
  | _, _ => false
  end.

(** The number of digits a shape asks for. *)
Fixpoint digits_of (pat : string) : nat :=
  match pat with
  | EmptyString => 0
  | String p r => ((if Ascii.eqb p "-" then 0 else 1) + digits_of r)%nat
  end.

Definition is_uuid (s : string) : bool := shaped "xxxxxxxx-xxxx-xxxx-xxxx-xxxxxxxxxxxx" s.

End Uuid.

(** ** Hexadecimal text and buffers *)

Module Hex.

Definition byte_of_Z (z : Z) : byte :=
  match Byte.of_N (Z.to_N (z mod 256)) with
  | Some b => b
  | None => x00
  end.

Definition Z_of_byte (b : byte) : Z := Z.of_N (Byte.to_N b).

(** The value of a hexadecimal digit; both cases are digits. *)
Definition unhex (c : ascii) : option Z :=
  let n := Z.of_nat (nat_of_ascii c) in
  if (48 <=? n) && (n <=? 57) then Some (n - 48)
  else if (97 <=? n) && (n <=? 102) then Some (n - 87)
  else if (65 <=? n) && (n <=? 70) then Some (n - 55)
  else None.

Definition is_hex_digit (c : ascii) : bool :=
  match unhex c with Some _ => true | None => false end.

(** The digit [digest('hex')] and [toString('hex')] write: lower case. *)
Definition hexdigit (v : Z) : ascii :=
  ascii_of_nat (Z.to_nat (if v <? 10 then 48 + v else 87 + v)).

(** [buf.toString('hex')]. *)
Fixpoint toString_hex (buf : list byte) : string :=
  match buf with
  | [] => EmptyString
  | b :: r =>
      let v := Z_of_byte b in
      String (hexdigit (v / 16)) (String (hexdigit (v mod 16)) (toString_hex r))
  end.

(** [Buffer.from(s, 'hex')]: Node decodes pairs of hexadecimal digits from
    the left and stops, without an exception, at the first pair that is not
    two hexadecimal digits; a trailing single digit is dropped. *)
Fixpoint Buffer_from_hex (s : string) : list byte :=
  match s with
  | String c1 (String c2 r) =>
      match unhex c1, unhex c2 with
      | Some hi, Some lo => byte_of_Z (16 * hi + lo) :: Buffer_from_hex r
      | _, _ => []
      end
  | _ => []
  end.

(** Text that consists of an even number of hexadecimal digits. *)
Fixpoint well_formed_hex (s : string) : bool :=
  match s with
  | EmptyString => true
  | String c1 (String c2 r) => is_hex_digit c1 && is_hex_digit c2 && well_formed_hex r
  | String _ EmptyString => false
  end.

Definition malformed_hex (s : string) : bool := negb (well_formed_hex s).

End Hex.

(** ** SHA-256 (FIPS 180-4) and HMAC (RFC 2104), as Node's [createHmac] computes them *)

Module Sha256.

Definition w32 (x : Z) : Z := x mod 2 ^ 32.
Definition add32 (x y : Z) : Z := w32 (x + y).
Definition rotr (n x : Z) : Z := w32 (Z.lor (Z.shiftr x n) (Z.shiftl x (32 - n))).
Definition not32 (x : Z) : Z := 2 ^ 32 - 1 - x.

Definition Ch (x y z : Z) : Z := Z.lxor (Z.land x y) (Z.land (not32 x) z).
Definition Maj (x y z : Z) : Z :=
  Z.lxor (Z.lxor (Z.land x y) (Z.land x z)) (Z.land y z).
Definition bsig0 (x : Z) : Z := Z.lxor (Z.lxor (rotr 2 x) (rotr 13 x)) (rotr 22 x).
Definition bsig1 (x : Z) : Z := Z.lxor (Z.lxor (rotr 6 x) (rotr 11 x)) (rotr 25 x).
Definition ssig0 (x : Z) : Z := Z.lxor (Z.lxor (rotr 7 x) (rotr 18 x)) (Z.shiftr x 3).
Definition ssig1 (x : Z) : Z := Z.lxor (Z.lxor (rotr 17 x) (rotr 19 x)) (Z.shiftr x 10).

(** The constants are defined the way the standard defines them: the first
    32 bits of the fractional parts of the square roots (initial hash
    value) and cube roots (round constants) of the first primes. *)
Definition is_prime (n : nat) : bool :=
  forallb (fun d => negb (Nat.eqb (n mod d) 0)) (seq 2 (n - 2)).

Definition primes64 : list Z :=
  Eval vm_compute in map Z.of_nat (filter is_prime (seq 2 310)).

Fixpoint cbrt_bits (n : nat) (x acc : Z) : Z :=
  match n with
  | O => acc
  | S k =>
      let c := acc + 2 ^ Z.of_nat k in
      if c * c * c <=? x then cbrt_bits k x c else cbrt_bits k x acc
  end.

Definition frac_sqrt (p : Z) : Z := w32 (Z.sqrt (p * 2 ^ 64)).
Definition frac_cbrt (p : Z) : Z := w32 (cbrt_bits 40 (p * 2 ^ 96) 0).

Definition K : list Z := Eval vm_compute in map frac_cbrt primes64.

Record hash := Hash { ha : Z; hb : Z; hc : Z; hd : Z; he : Z; hf : Z; hg : Z; hh : Z }.

Definition H0 : hash :=
  Eval vm_compute in
    match map frac_sqrt (firstn 8 primes64) with
    | [a; b; c; d; e; f; g; h] => Hash a b c d e f g h
    | _ => Hash 0 0 0 0 0 0 0 0
    end.

(** Big-endian words of a block of bytes. *)
Fixpoint words_of (bs : list Z) : list Z :=
  match bs with
  | b0 :: b1 :: b2 :: b3 :: r => (((b0 * 256 + b1) * 256 + b2) * 256 + b3) :: words_of r
  | _ => []
  end.

(** Padding: the bit 1, zeros up to 56 mod 64 bytes, the bit count on 8 bytes. *)
Definition be_bytes (n : nat) (x : Z) : list Z :=
  map (fun i => (x / 256 ^ Z.of_nat i) mod 256) (rev (seq 0 n)).

Definition pad (msg : list Z) : list Z :=
  let l := Z.of_nat (List.length msg) in
  let zeros := Z.to_nat ((55 - l) mod 64) in
  msg ++ 128 :: repeat 0 zeros ++ be_bytes 8 (8 * l).

(** The message schedule: given the words so far, newest first, add one. *)
Definition next_w (ws : list Z) : Z :=
  add32 (add32 (ssig1 (nth 1 ws 0)) (nth 6 ws 0))
        (add32 (ssig0 (nth 14 ws 0)) (nth 15 ws 0)).

Fixpoint extend (n : nat) (ws : list Z) : list Z :=
  match n with
  | O => ws
  | S k => extend k (next_w ws :: ws)
  end.

Definition schedule (block : list Z) : list Z := rev (extend 48 (rev block)).

Definition round (s : hash) (kw : Z * Z) : hash :=
  let '(k, w) := kw in
  let t1 := add32 (add32 (add32 (hh s) (bsig1 (he s))) (add32 (Ch (he s) (hf s) (hg s)) k)) w in
  let t2 := add32 (bsig0 (ha s)) (Maj (ha s) (hb s) (hc s)) in
  Hash (add32 t1 t2) (ha s) (hb s) (hc s) (add32 (hd s) t1) (he s) (hf s) (hg s).

Definition compress (h : hash) (block : list Z) : hash :=
  let s := fold_left round (combine K (schedule block)) h in
  Hash (add32 (ha h) (ha s)) (add32 (hb h) (hb s)) (add32 (hc h) (hc s))
       (add32 (hd h) (hd s)) (add32 (he h) (he s)) (add32 (hf h) (hf s))
       (add32 (hg h) (hg s)) (add32 (hh h) (hh s)).

Fixpoint blocks (n : nat) (ws : list Z) (h : hash) : hash :=
  match n with
  | O => h
  | S k => blocks k (skipn 16 ws) (compress h (firstn 16 ws))
  end.

Definition digest_bytes (h : hash) : list Z :=
  flat_map (be_bytes 4) [ha h; hb h; hc h; hd h; he h; hf h; hg h; hh h].

Definition sha256 (msg : list Z) : list Z :=
  let ws := words_of (pad msg) in
  digest_bytes (blocks (List.length ws / 16) ws H0).

(** HMAC with a 64-byte block: a longer key is hashed first, a shorter one
    is padded with zeros. *)
Definition hmac_key (key : list Z) : list Z :=
  let k := if (64 <? Z.of_nat (List.length key)) then sha256 key else key in
  k ++ repeat 0 (64 - List.length k).

Definition hmac (key msg : list Z) : list Z :=
  let k := hmac_key key in
  sha256 (map (Z.lxor 92) k ++ sha256 (map (Z.lxor 54) k ++ msg)).

End Sha256.

(** ** WebhookManager *)

Module WebhookManager.
Import Hex.

Definition utf8 (s : string) : list Z := map Z_of_byte (list_byte_of_string s).

(** [createHmac('sha256', secret).update(payload).digest()]. *)
Definition hmac_sha256 (secret payload : string) : list byte :=
  map byte_of_Z (Sha256.hmac (utf8 secret) (utf8 payload)).

(** The signature the sender computes: the digest in hexadecimal. *)
Definition sign (payload secret : string) : string :=
  toString_hex (hmac_sha256 secret payload).

(** The comparison of [crypto.timingSafeEqual]: every byte pair is
    visited and the differences are accumulated. *)
Definition xor_acc (a b : list byte) : Z :=
  fold_left (fun acc xy => Z.lor acc (Z.lxor (Z_of_byte (fst xy)) (Z_of_byte (snd xy))))
            (combine a b) 0.

(** [crypto.timingSafeEqual(a, b)]; [None] is the RangeError it throws
    for buffers of different byte length. *)
Definition timingSafeEqual (a b : list byte) : option bool :=
  if Nat.eqb (List.length a) (List.length b) then Some (xor_acc a b =? 0) else None.

(** The body of the [try] block of [verifySignature]; [None] stands for
    an exception raised inside it. *)
Definition verifySignature_try (payload signature secret : string) : option bool :=
  let expectedSignature := toString_hex (hmac_sha256 secret payload) in
  let expectedBuffer := Buffer_from_hex expectedSignature in
  let signatureBuffer := Buffer_from_hex signature in
  if negb (Nat.eqb (List.length expectedBuffer) (List.length signatureBuffer)) then Some false
  else timingSafeEqual expectedBuffer signatureBuffer.

(** [verifySignature(payload, signature, secret)]: the [catch] turns any
    exception into [false]. *)
Definition verifySignature (payload signature secret : string) : bool :=
  match verifySignature_try payload signature secret with
  | Some b => b
  | None => false
  end.

End WebhookManager.

(** ** JSON values and the JavaScript operators applied to them *)

Module Json.

#[local] Unset Elimination Schemes.
Inductive json : Type :=
| JNull
| JBool (b : bool)
| JNum (n : Z)
| JStr (s : string)
| JArr (items : list json)
| JObj (fields : list (string * json)).
#[local] Set Elimination Schemes.

(** A property read; [None] is [undefined]. The keys of an object are
    distinct, as [JSON.parse] and object literals produce them. *)
Fixpoint assoc (k : string) (fs : list (string * json)) : option json :=
  match fs with
  | [] => None
  | (k', v) :: r => if String.eqb k k' then Some v else assoc k r
  end.

Definition get (o : json) (k : string) : option json :=
  match o with
  | JObj fs => assoc k fs
  | _ => None
  end.

(** [o?.k]: no read at all on [null]. *)
Definition opt_get (o : json) (k : string) : option json :=
  match o with
  | JNull => None
  | _ => get o k
  end.

(** [v ?? d]. *)
Definition coalesce (v : option json) (d : json) : json :=
  match v with
  | None | Some JNull => d
  | Some x => x
  end.

(** The truth value of [v] in a condition. *)
Definition truthy (v : option json) : bool :=
  match v with
  | None | Some JNull => false
  | Some (JBool b) => b
  | Some (JNum n) => negb (n =? 0)
  | Some (JStr s) => Js.nonempty s
  | Some (JArr _) | Some (JObj _) => true
  end.

(** An object literal; a property whose value is [undefined] is left out
    when the object is serialised. *)
Fixpoint literal (fs : list (string * option json)) : list (string * json) :=
  match fs with
  | [] => []
  | (k, Some v) :: r => (k, v) :: literal r
  | (_, None) :: r => literal r
  end.

(** [o[k] = v] on the property list: in place when [k] is there, at the
    end otherwise. *)
Fixpoint set_field (k : string) (v : json) (fs : list (string * json)) : list (string * json) :=
  match fs with
  | [] => [(k, v)]
  | (k', v') :: r => if String.eqb k k' then (k, v) :: r else (k', v') :: set_field k v r
  end.

Definition index_key (i : nat) : string := NilZero.string_of_uint (Nat.to_uint i).

(** The own enumerable properties of a value: those of an object, the
    indices of an array, none for a primitive of a JSON body. *)
Definition own_properties (o : json) : list (string * json) :=
  match o with
  | JObj fs => fs
  | JArr items => combine (map index_key (seq 0 (List.length items))) items
  | _ => []
  end.

(** [{ ...base, ...o }]; the properties are kept in the order they were
    first written. *)
Definition spread (base : list (string * json)) (o : json) : json :=
  JObj (fold_left (fun acc kv => set_field (fst kv) (snd kv) acc) (own_properties o) base).

(** The value of a read that is known to have found one. *)
Definition json_of (v : option json) : json :=
  match v with
  | Some x => x
  | None => JNull
  end.

Definition null_or_str (o : option string) : json :=
  match o with
  | Some s => JStr s
  | None => JNull
  end.

End Json.

(** ** A JavaScript [Map]: insertion-ordered, one entry per key *)

Module JsMap.
Section WithValue.
Context {V : Type}.

Definition t := list (string * V).

Fixpoint get (k : string) (m : t) : option V :=
  match m with
  | [] => None
  | (k', v) :: r => if String.eqb k k' then Some v else get k r
  end.

(** [m.set(k, v)]: an existing key keeps its place. *)
Fixpoint set (k : string) (v : V) (m : t) : t :=
  match m with
  | [] => [(k, v)]
  | (k', v') :: r => if String.eqb k k' then (k, v) :: r else (k', v') :: set k v r
  end.

Definition values (m : t) : list V := map snd m.
Definition size (m : t) : nat := List.length m.
End WithValue.
Arguments t : clear implicits.
End JsMap.

(** ** The gateway service *)

Module Server.
Import Json.

(** *** Configuration, read once from the process environment *)

Record ProcessEnv := {
  PAYNEXUS_API_URL : option string;
  PAYNEXUS_ENV : option string;
  env_MCP_ENV : option string
}.

(** [url.replace(/\/$/, '')]. *)
Fixpoint drop_final_slash (s : string) : string :=
  match s with
  | EmptyString => EmptyString
  | String c EmptyString => if Ascii.eqb c "/" then EmptyString else s
  | String c r => String c (drop_final_slash r)
  end.

Definition or_default (v : option string) (d : string) : string :=
  match v with
  | Some s => s
  | None => d
  end.

Definition BACKEND (e : ProcessEnv) : string :=
  drop_final_slash (or_default (PAYNEXUS_API_URL e) "http://localhost:3001").

Definition MCP_ENV (e : ProcessEnv) : string := or_default (env_MCP_ENV e) "demo".

Definition IS_SANDBOX (e : ProcessEnv) : bool :=
  match PAYNEXUS_ENV e with
  | Some v => String.eqb v "sandbox"
  | None => false
  end || String.eqb (MCP_ENV e) "demo".

(** *** In-memory state *)

Module DemoCheckout.
Record t := { id : string; amount : json; currency : string; status : string; createdAt : string }.
End DemoCheckout.

Module DemoWebhook.
Record t := { id : string; url : json; events : json; createdAt : string }.
End DemoWebhook.

(** [email] holds the truthy value the login request carried (a string for
    a request of the declared type). *)
Module DemoSession.
Record t := {
  token : string;
  email : json;
  apiKey : option string;
  checkouts : list DemoCheckout.t;
  webhooks : list DemoWebhook.t;
  createdAt : string
}.
End DemoSession.

(** The production credential slot. Its fields are declared
    [string | null]; the production handlers store properties of the
    backend's untyped reply in it, so it holds a JSON value, [JNull] for
    [null]. *)
Module ProdState.
Record t := { jwt : json; apiKey : json }.
End ProdState.

(** *** Requests, responses, backend calls *)

(** [authorization] is [req.headers.authorization]; [body] is [req.body] as
    [express.json()] leaves it: the parsed object or array, the empty object
    when the request has no JSON body. *)
Record Request := { authorization : option string; body : json }.

Record Response := { status : Z; payload : json }.

(** The headers of [authHeaders]: [Authorization: Bearer <token>]. *)
Inductive header := Authorization_Bearer (token : json).

Record BackendCall := { url : string; data : json; headers : list header }.

(** A thrown value: an [AxiosError] with the upstream response when there
    is one (its status and its body), or anything else. *)
Inductive thrown :=
| AxiosError (response : option (Z * json)) (message : string)
| OtherError (message : string).

Inductive completion (A : Type) :=
| Normal (a : A)
| Throws (e : thrown).
Arguments Normal {A} a.
Arguments Throws {A} e.

(** What the handlers take from outside: the k-th UUID [randomUUID]
    returns, the k-th reading of the clock in milliseconds, the rendering of
    [toISOString], and the outcome of the k-th [axios.post]. *)
Record World := {
  process_env : ProcessEnv;
  uuid_at : nat -> string;
  clock_at : nat -> Z;
  iso_string : Z -> string;
  axios_post : nat -> BackendCall -> completion json
}.

Record Machine := {
  demoSessions : JsMap.t DemoSession.t;
  prodState : ProdState.t;
  draws : nat;
  ticks : nat;
  wire : list BackendCall
}.

Definition initial : Machine :=
  {| demoSessions := []; prodState := {| ProdState.jwt := JNull; ProdState.apiKey := JNull |};
     draws := 0; ticks := 0; wire := [] |}.

Definition with_sessions (f : JsMap.t DemoSession.t -> JsMap.t DemoSession.t) (m : Machine) : Machine :=
  {| demoSessions := f (demoSessions m); prodState := prodState m;
     draws := draws m; ticks := ticks m; wire := wire m |}.

Definition with_prodState (f : ProdState.t -> ProdState.t) (m : Machine) : Machine :=
  {| demoSessions := demoSessions m; prodState := f (prodState m);
     draws := draws m; ticks := ticks m; wire := wire m |}.

Definition set_jwt (v : json) (p : ProdState.t) : ProdState.t :=
  {| ProdState.jwt := v; ProdState.apiKey := ProdState.apiKey p |}.

Definition set_apiKey (v : json) (p : ProdState.t) : ProdState.t :=
  {| ProdState.jwt := ProdState.jwt p; ProdState.apiKey := v |}.

(** *** Handlers run in a state monad with exceptions *)

Definition M (A : Type) : Type := Machine -> completion A * Machine.

Definition ret {A} (a : A) : M A := fun m => (Normal a, m).

Definition bind {A B} (c : M A) (k : A -> M B) : M B :=
  fun m =>
    match c m with
    | (Normal a, m') => k a m'
    | (Throws e, m') => (Throws e, m')
    end.

Definition throw {A} (e : thrown) : M A := fun m => (Throws e, m).

(** [try { c } catch (e) { h(e) }]: what [c] did to the state stays done. *)
Definition try_catch {A} (c : M A) (h : thrown -> M A) : M A :=
  fun m =>
    match c m with
    | (Normal a, m') => (Normal a, m')
    | (Throws e, m') => h e m'
    end.

Definition read {A} (f : Machine -> A) : M A := fun m => (Normal (f m), m).
Definition modify (f : Machine -> Machine) : M unit := fun m => (Normal tt, f m).

Declare Scope gateway_scope.
Delimit Scope gateway_scope with gw.
Notation "x <- c ;; k" := (bind c (fun x => k))
  (at level 61, c at next level, right associativity) : gateway_scope.
Notation "c ;; k" := (bind c (fun _ => k))
  (at level 61, right associativity) : gateway_scope.
Local Open Scope gateway_scope.

Section Gateway.
Variable W : World.

Let env := process_env W.

Definition randomUUID : M string :=
  fun m => (Normal (uuid_at W (draws m)),
            {| demoSessions := demoSessions m; prodState := prodState m;
               draws := S (draws m); ticks := ticks m; wire := wire m |}).

(** [Date.now()]. *)
Definition Date_now : M Z :=
  fun m => (Normal (clock_at W (ticks m)),
            {| demoSessions := demoSessions m; prodState := prodState m;
               draws := draws m; ticks := S (ticks m); wire := wire m |}).

(** [new Date().toISOString()]. *)
Definition new_Date_toISOString : M string :=
  t <- Date_now ;; ret (iso_string W t).

(** *** Helpers *)

Definition extractBearer (req : Request) : option string :=
  match authorization req with
  | Some auth => if Js.startsWith "Bearer " auth then Some (Js.slice_from 7 auth) else None
  | None => None
  end.

Definition authHeaders (token : json) : list header :=
  if truthy (Some token) then [Authorization_Bearer token] else [].

Definition backendPost (path : string) (token : json) (body : json) : M json :=
  fun m =>
    let call := {| url := BACKEND env ++ path; data := body; headers := authHeaders token |} in
    (axios_post W (List.length (wire m)) call,
     {| demoSessions := demoSessions m; prodState := prodState m;
        draws := draws m; ticks := ticks m; wire := wire m ++ [call] |}).

Definition sendError (err : thrown) : Response :=
  match err with
  | AxiosError response message =>
      {| status := match response with Some (st, _) => st | None => 502 end;
         payload := coalesce (option_map snd response) (JObj [("error", JStr message)]) |}
  | OtherError _ =>
      {| status := 500; payload := JObj [("error", JStr "MCP internal error")] |}
  end.

(** The session object found under the bearer token, with the key it is
    stored under: a later write to the object is a write at that key. *)
Definition getDemoSession (req : Request) (m : Machine) : option (string * DemoSession.t) :=
  match extractBearer req with
  | Some token =>
      if Js.nonempty token then
        match JsMap.get token (demoSessions m) with
        | Some s => Some (token, s)
        | None => None
        end
      else None
  | None => None
  end.

Definition unauthorized : Response :=
  {| status := 401;
     payload := JObj [("error", JStr "Unauthorized — no valid demo session.");
                      ("hint", JStr "Call POST /auth/login first, then pass the token as Authorization: Bearer <token>.");
                      ("mode", JStr "sandbox")] |}.

(** Returns the session, or the 401 response it has sent. *)
Definition requireDemoSession (req : Request) : M (Response + string * DemoSession.t) :=
  fun m =>
    match getDemoSession req m with
    | Some ks => (Normal (inr ks), m)
    | None => (Normal (inl unauthorized), m)
    end.

Definition ok (j : json) : Response := {| status := 200; payload := j |}.

(** [`${key.slice(0, 15)}...`], or [null] without a key. *)
Definition preview (key : option string) : json :=
  match key with
  | Some k => if Js.nonempty k then JStr (Js.slice0 15 k ++ "...") else JNull
  | None => JNull
  end.

Definition session_with_apiKey (key : string) (s : DemoSession.t) : DemoSession.t :=
  {| DemoSession.token := DemoSession.token s; DemoSession.email := DemoSession.email s;
     DemoSession.apiKey := Some key;
     DemoSession.checkouts := DemoSession.checkouts s;
     DemoSession.webhooks := DemoSession.webhooks s;
     DemoSession.createdAt := DemoSession.createdAt s |}.

Definition session_push_checkout (c : DemoCheckout.t) (s : DemoSession.t) : DemoSession.t :=
  {| DemoSession.token := DemoSession.token s; DemoSession.email := DemoSession.email s;
     DemoSession.apiKey := DemoSession.apiKey s;
     DemoSession.checkouts := DemoSession.checkouts s ++ [c];
     DemoSession.webhooks := DemoSession.webhooks s;
     DemoSession.createdAt := DemoSession.createdAt s |}.

Definition session_push_webhook (w : DemoWebhook.t) (s : DemoSession.t) : DemoSession.t :=
  {| DemoSession.token := DemoSession.token s; DemoSession.email := DemoSession.email s;
     DemoSession.apiKey := DemoSession.apiKey s;
     DemoSession.checkouts := DemoSession.checkouts s;
     DemoSession.webhooks := DemoSession.webhooks s ++ [w];
     DemoSession.createdAt := DemoSession.createdAt s |}.

(** A write to the session object stored under [key]. *)
Definition store_session (key : string) (s : DemoSession.t) : M unit :=
  modify (with_sessions (JsMap.set key s)).

Definition mode_name : string := if IS_SANDBOX env then "sandbox" else "production".

(** *** GET /health *)

Definition get_health (_ : Request) : M Response :=
  n <- read (fun m => JsMap.size (demoSessions m)) ;;
  ret (ok (JObj (literal
    [("status", Some (JStr "ok"));
     ("service", Some (JStr "paynexus-mcp"));
     ("mode", Some (JStr mode_name));
     ("env", Some (JStr (MCP_ENV env)));
     ("backend", Some (JStr (if IS_SANDBOX env then "(not used in sandbox mode)" else BACKEND env)));
     ("sessions", if IS_SANDBOX env then Some (JNum (Z.of_nat n)) else None)]))).

(** *** POST /auth/login *)

Definition post_auth_login (req : Request) : M Response :=
  if negb (IS_SANDBOX env) then
    ret {| status := 404;
           payload := JObj [("error", JStr "/auth/login is only available in sandbox mode.");
                            ("hint", JStr "Use POST /auth/forward with a real Supabase JWT in production.")] |}
  else
    let email := get (body req) "email" in
    let password := get (body req) "password" in
    if negb (truthy email) then
      ret {| status := 400; payload := JObj [("error", JStr "Provide email in request body.")] |}
    else
      token <- randomUUID ;;
      createdAt <- new_Date_toISOString ;;
      let session :=
        {| DemoSession.token := token; DemoSession.email := json_of email;
           DemoSession.apiKey := None; DemoSession.checkouts := [];
           DemoSession.webhooks := []; DemoSession.createdAt := createdAt |} in
      store_session token session ;;
      (* [void password]: the password is read and never looked at *)
      let _ := password in
      ret (ok (JObj [("ok", JBool true);
                     ("token", JStr token);
                     ("email", json_of email);
                     ("mode", JStr "sandbox");
                     ("message", JStr "Demo session created. Pass token as: Authorization: Bearer <token>");
                     ("warning", JStr "Sandbox session only. No real authentication occurred.")])).

(** *** POST /auth/forward *)

Definition post_auth_forward (req : Request) : M Response :=
  let token := coalesce (get (body req) "jwt") (null_or_str (extractBearer req)) in
  if negb (truthy (Some token)) then
    ret {| status := 400;
           payload := JObj [("error", JStr (if IS_SANDBOX env
               then "Provide jwt in body. In sandbox mode, prefer POST /auth/login instead."
               else "Provide jwt in body or Authorization: Bearer <token>"))] |}
  else
    modify (with_prodState (set_jwt token)) ;;
    ret (ok (JObj [("ok", JBool true);
                   ("mode", JStr mode_name);
                   ("message", JStr (if IS_SANDBOX env
                      then "JWT stored in legacy state. For the full demo flow, use POST /auth/login."
                      else "JWT stored. Call POST /api-keys/create next."))])).

(** The request carries the token [t]: as the [jwt] of its body or, the body
    having none, as its bearer. *)
Definition carries_token (req : Request) (t : string) : Prop :=
  get (body req) "jwt" = Some (JStr t) \/
  ((get (body req) "jwt" = None \/ get (body req) "jwt" = Some JNull) /\ extractBearer req = Some t).

(** [extractBearer(req) ?? slot]. *)
Definition bearer_or (req : Request) (slot : json) : json :=
  match extractBearer req with
  | Some t => JStr t
  | None => slot
  end.

(** [if (data?.k) prodState.apiKey = data.k]. *)
Definition keep_key (data : json) (k : string) : M unit :=
  if truthy (opt_get data k)
  then modify (with_prodState (set_apiKey (json_of (opt_get data k))))
  else ret tt.

(** *** POST /api-keys/create *)

Definition post_api_keys_create (req : Request) : M Response :=
  if IS_SANDBOX env then
    r <- requireDemoSession req ;;
    match r with
    | inl sent => ret sent
    | inr (at_key, session) =>
        u <- randomUUID ;;
        let key := "pk_demo_" ++ Js.strip_dashes u in
        store_session at_key (session_with_apiKey key session) ;;
        ret (ok (JObj [("ok", JBool true);
                       ("key", JStr key);
                       ("mode", JStr "sandbox");
                       ("session", DemoSession.email session);
                       ("warning", JStr "Demo API key — stored in memory only. Not valid for real transactions.")]))
    end
  else
    jwt <- read (fun m => ProdState.jwt (prodState m)) ;;
    let token := bearer_or req jwt in
    let b := body req in
    let v1Body := JObj (literal
      [("org_id", Some (coalesce (get b "org_id") (JStr "demo-org")));
       ("tag", Some (coalesce (get b "tag") (JStr "ai-agent")));
       ("env", Some (coalesce (get b "env") (JStr "sandbox")));
       ("scopes", get b "scopes")]) in
    try_catch
      (r <- backendPost "/v1/api-keys/create" token v1Body ;;
       keep_key r "raw_key" ;;
       ret (ok r))
      (fun _ =>
         try_catch
           (r2 <- backendPost "/api/keys/create" JNull
                    (JObj [("tag", coalesce (get b "tag") (JStr "ai-agent"))]) ;;
            keep_key r2 "key" ;;
            ret (ok r2))
           (fun err2 => ret (sendError err2))).

(** *** POST /api-keys/rotate *)

Definition post_api_keys_rotate (req : Request) : M Response :=
  if IS_SANDBOX env then
    r <- requireDemoSession req ;;
    match r with
    | inl sent => ret sent
    | inr (at_key, session) =>
        let oldKey := DemoSession.apiKey session in
        u <- randomUUID ;;
        let newKey := "pk_demo_" ++ Js.strip_dashes u in
        store_session at_key (session_with_apiKey newKey session) ;;
        ret (ok (JObj [("ok", JBool true);
                       ("key", JStr newKey);
                       ("rotated", JBool true);
                       ("old_key", preview oldKey);
                       ("mode", JStr "sandbox");
                       ("warning", JStr "Demo key rotation. No real keys were affected.")]))
    end
  else
    apiKey <- read (fun m => ProdState.apiKey (prodState m)) ;;
    let token := bearer_or req apiKey in
    try_catch
      (r <- backendPost "/v1/api-keys/rotate" token (body req) ;;
       keep_key r "raw_key" ;;
       ret (ok r))
      (fun err => ret (sendError err)).

(** *** POST /checkout/demo *)

(** [(v ?? 'usd').toLowerCase()]: only a string has the method. *)
Definition currency_of (v : option json) : M string :=
  match coalesce v (JStr "usd") with
  | JStr c => ret (Js.toLowerCase c)
  | _ => throw (OtherError "toLowerCase is not a function")
  end.

Definition post_checkout_demo (req : Request) : M Response :=
  if IS_SANDBOX env then
    r <- requireDemoSession req ;;
    match r with
    | inl sent => ret sent
    | inr (at_key, session) =>
        let b := body req in
        let amount := coalesce (get b "amount") (JNum 4900) in
        currency <- currency_of (get b "currency") ;;
        now <- new_Date_toISOString ;;
        u <- randomUUID ;;
        let id := "cs_demo_" ++ Js.strip_dashes u in
        t <- Date_now ;;
        u' <- randomUUID ;;
        let checkout := JObj
          [("id", JStr id);
           ("object", JStr "checkout_session");
           ("amount", amount);
           ("currency", JStr currency);
           ("status", JStr "pending");
           ("created_at", JStr now);
           ("expires_at", JStr (iso_string W (t + 30 * 60 * 1000)));
           ("merchant", DemoSession.email session);
           ("api_key", preview (DemoSession.apiKey session));
           ("payment_url", JStr ("https://checkout.paynexus.demo/" ++ u'));
           ("metadata", coalesce (get b "metadata") (JObj []));
           ("mode", JStr "sandbox")] in
        store_session at_key
          (session_push_checkout
             {| DemoCheckout.id := id; DemoCheckout.amount := amount;
                DemoCheckout.currency := currency; DemoCheckout.status := "pending";
                DemoCheckout.createdAt := now |} session) ;;
        ret (ok checkout)
    end
  else
    apiKey <- read (fun m => ProdState.apiKey (prodState m)) ;;
    let token := bearer_or req apiKey in
    let b := spread [("amount", JNum 4900); ("currency", JStr "usd")] (body req) in
    try_catch
      (r <- backendPost "/v1/checkout/create" token b ;; ret (ok r))
      (fun _ =>
         try_catch
           (r2 <- backendPost "/api/checkout/create" JNull b ;; ret (ok r2))
           (fun err2 => ret (sendError err2))).

(** *** POST /webhooks/create *)

Definition default_events : json :=
  JArr [JStr "checkout.confirmed"; JStr "transaction.succeeded"].

Definition post_webhooks_create (req : Request) : M Response :=
  let b := body req in
  if IS_SANDBOX env then
    r <- requireDemoSession req ;;
    match r with
    | inl sent => ret sent
    | inr (at_key, session) =>
        now <- new_Date_toISOString ;;
        u <- randomUUID ;;
        let id := "wh_demo_" ++ Js.strip_dashes u in
        let url := coalesce (get b "url") (JStr "https://webhook.site/demo") in
        let events := coalesce (get b "events") default_events in
        store_session at_key
          (session_push_webhook
             {| DemoWebhook.id := id; DemoWebhook.url := url;
                DemoWebhook.events := events; DemoWebhook.createdAt := now |} session) ;;
        ret (ok (JObj [("id", JStr id);
                       ("url", url);
                       ("events", events);
                       ("status", JStr "active");
                       ("created_at", JStr now);
                       ("mode", JStr "sandbox")]))
    end
  else
    apiKey <- read (fun m => ProdState.apiKey (prodState m)) ;;
    let token := bearer_or req apiKey in
    try_catch
      (r <- backendPost "/v1/webhooks" token
              (JObj [("url", coalesce (get b "url") (JStr "https://webhook.site/demo"));
                     ("events", coalesce (get b "events") default_events)]) ;;
       ret (ok r))
      (fun err => ret (sendError err)).

(** *** GET /session and GET /sessions *)

Definition not_in_production : Response :=
  {| status := 404; payload := JObj [("error", JStr "Not available in production mode.")] |}.

Definition checkout_json (c : DemoCheckout.t) : json :=
  JObj [("id", JStr (DemoCheckout.id c));
        ("amount", DemoCheckout.amount c);
        ("currency", JStr (DemoCheckout.currency c));
        ("status", JStr (DemoCheckout.status c));
        ("createdAt", JStr (DemoCheckout.createdAt c))].

Definition webhook_json (w : DemoWebhook.t) : json :=
  JObj [("id", JStr (DemoWebhook.id w));
        ("url", DemoWebhook.url w);
        ("events", DemoWebhook.events w);
        ("createdAt", JStr (DemoWebhook.createdAt w))].

Definition has_key (k : option string) : bool :=
  match k with Some _ => true | None => false end.

Definition get_session (req : Request) : M Response :=
  if negb (IS_SANDBOX env) then ret not_in_production
  else
    r <- requireDemoSession req ;;
    match r with
    | inl sent => ret sent
    | inr (_, session) =>
        ret (ok (JObj [("email", DemoSession.email session);
                       ("mode", JStr "sandbox");
                       ("hasApiKey", JBool (has_key (DemoSession.apiKey session)));
                       ("apiKey", preview (DemoSession.apiKey session));
                       ("checkouts", JArr (map checkout_json (DemoSession.checkouts session)));
                       ("webhooks", JArr (map webhook_json (DemoSession.webhooks session)));
                       ("createdAt", JStr (DemoSession.createdAt session));
                       ("warning", JStr "Sandbox session — in-memory only, resets on server restart.")]))
    end.

Definition session_summary (s : DemoSession.t) : json :=
  JObj [("email", DemoSession.email s);
        ("hasApiKey", JBool (has_key (DemoSession.apiKey s)));
        ("checkouts", JNum (Z.of_nat (List.length (DemoSession.checkouts s))));
        ("webhooks", JNum (Z.of_nat (List.length (DemoSession.webhooks s))));
        ("createdAt", JStr (DemoSession.createdAt s))].

Definition get_sessions (_ : Request) : M Response :=
  if negb (IS_SANDBOX env) then ret not_in_production
  else
    list <- read (fun m => map session_summary (JsMap.values (demoSessions m))) ;;
    ret (ok (JObj [("mode", JStr "sandbox");
                   ("total", JNum (Z.of_nat (List.length list)));
                   ("sessions", JArr list)])).

(** *** The backend calls of the key routes, as the handlers build them *)

Definition create_primary_call (req : Request) (m : Machine) : BackendCall :=
  {| url := BACKEND env ++ "/v1/api-keys/create";
     data := JObj (literal
       [("org_id", Some (coalesce (get (body req) "org_id") (JStr "demo-org")));
        ("tag", Some (coalesce (get (body req) "tag") (JStr "ai-agent")));
        ("env", Some (coalesce (get (body req) "env") (JStr "sandbox")));
        ("scopes", get (body req) "scopes")]);
     headers := authHeaders (bearer_or req (ProdState.jwt (prodState m))) |}.

Definition create_legacy_call (req : Request) : BackendCall :=
  {| url := BACKEND env ++ "/api/keys/create";
     data := JObj [("tag", coalesce (get (body req) "tag") (JStr "ai-agent"))];
     headers := [] |}.

Definition rotate_call (req : Request) (m : Machine) : BackendCall :=
  {| url := BACKEND env ++ "/v1/api-keys/rotate";
     data := body req;
     headers := authHeaders (bearer_or req (ProdState.apiKey (prodState m))) |}.

Definition checkout_body (req : Request) : json :=
  spread [("amount", JNum 4900); ("currency", JStr "usd")] (body req).

Definition checkout_primary_call (req : Request) (m : Machine) : BackendCall :=
  {| url := BACKEND env ++ "/v1/checkout/create";
     data := checkout_body req;
     headers := authHeaders (bearer_or req (ProdState.apiKey (prodState m))) |}.

Definition checkout_legacy_call (req : Request) : BackendCall :=
  {| url := BACKEND env ++ "/api/checkout/create"; data := checkout_body req; headers := [] |}.

(** The machine after backend calls were added to the wire. *)
Definition called (calls : list BackendCall) (m : Machine) : Machine :=
  {| demoSessions := demoSessions m; prodState := prodState m;
     draws := draws m; ticks := ticks m; wire := wire m ++ calls |}.

(** *** The routes of the application, and the states it can be in *)

Inductive route :=
| GET_health
| POST_auth_login
| POST_auth_forward
| POST_api_keys_create
| POST_api_keys_rotate
| POST_checkout_demo
| POST_webhooks_create
| GET_session
| GET_sessions.

Definition app (r : route) : Request -> M Response :=
  match r with
  | GET_health => get_health
  | POST_auth_login => post_auth_login
  | POST_auth_forward => post_auth_forward
  | POST_api_keys_create => post_api_keys_create
  | POST_api_keys_rotate => post_api_keys_rotate
  | POST_checkout_demo => post_checkout_demo
  | POST_webhooks_create => post_webhooks_create
  | GET_session => get_session
  | GET_sessions => get_sessions
  end.

(** The states of the process: the one it starts in, and the one each
    request leaves behind. *)
Inductive reachable : Machine -> Prop :=
| reachable_initial : reachable initial
| reachable_request m r req : reachable m -> reachable (snd (app r req m)).

(** Every session is stored under a UUID the process has drawn, and the key
    it holds, if any, was made from one. *)
Definition issued (m : Machine) : Prop :=
  forall t s, JsMap.get t (demoSessions m) = Some s ->
    (exists j, (j < draws m)%nat /\ t = uuid_at W j) /\
    (forall k, DemoSession.apiKey s = Some k ->
       exists j, (j < draws m)%nat /\ k = "pk_demo_" ++ Js.strip_dashes (uuid_at W j)).

(** Every session is stored once, under the token it carries. *)
Definition well_keyed (m : Machine) : Prop :=
  NoDup (map fst (demoSessions m)) /\
  forall t s, JsMap.get t (demoSessions m) = Some s -> DemoSession.token s = t.

Definition webhook_call (req : Request) (m : Machine) : BackendCall :=
  {| url := BACKEND env ++ "/v1/webhooks";
     data := JObj [("url", coalesce (get (body req) "url") (JStr "https://webhook.site/demo"));
                   ("events", coalesce (get (body req) "events") default_events)];
     headers := authHeaders (bearer_or req (ProdState.apiKey (prodState m))) |}.

(** The first backend call of a proxying route. *)
Definition first_call (r : route) (req : Request) (m : Machine) : option BackendCall :=
  match r with
  | POST_api_keys_create => Some (create_primary_call req m)
  | POST_api_keys_rotate => Some (rotate_call req m)
  | POST_checkout_demo => Some (checkout_primary_call req m)
  | POST_webhooks_create => Some (webhook_call req m)
  | _ => None
  end.

(** The states that follow [m]: [m] itself, and the one each further
    request leaves behind. *)
Inductive later (m : Machine) : Machine -> Prop :=
| later_now : later m m
| later_request m' r req : later m m' -> later m (snd (app r req m')).

(** [req.body] as [express.json()] leaves it: an object or an array. *)
Definition parsed (b : json) : bool :=
  match b with
  | JObj _ | JArr _ => true
  | _ => false
  end.

(** [s'] is the session [s] after further requests: the same token,
    email and creation time, the checkouts and webhooks of [s] followed by
    the later ones, and a key if [s] had one. *)
Definition grown (s s' : DemoSession.t) : Prop :=
  DemoSession.token s' = DemoSession.token s /\
  DemoSession.email s' = DemoSession.email s /\
  DemoSession.createdAt s' = DemoSession.createdAt s /\
  (exists cs, DemoSession.checkouts s' = (DemoSession.checkouts s ++ cs)%list) /\
  (exists ws, DemoSession.webhooks s' = (DemoSession.webhooks s ++ ws)%list) /\
  (DemoSession.apiKey s <> None -> DemoSession.apiKey s' <> None).

(** Two worlds that differ at most in their backend. *)
Definition same_but_backend (W' : World) : Prop :=
  process_env W' = process_env W /\
  (forall k, uuid_at W' k = uuid_at W k) /\
  (forall k, clock_at W' k = clock_at W k) /\
  (forall z, iso_string W' z = iso_string W z).

End Gateway.
End Server.

(** ** src/server.ts: the single-mode service the gateway grew from

    It has no sandbox; its key issuance is the production path of the
    gateway, over the same credential slot. *)

Module ServerTs.
Import Json Server.
Local Open Scope gateway_scope.

Definition post_api_keys_create (W : World) (req : Request) : M Response :=
  jwt <- read (fun m => ProdState.jwt (prodState m)) ;;
  let token := bearer_or req jwt in
  let b := body req in
  let v1Body := JObj (literal
    [("org_id", Some (coalesce (get b "org_id") (JStr "demo-org")));
     ("tag", Some (coalesce (get b "tag") (JStr "ai-agent")));
     ("env", Some (coalesce (get b "env") (JStr "sandbox")));
     ("scopes", get b "scopes")]) in
  try_catch
    (r <- backendPost W "/v1/api-keys/create" token v1Body ;;
     keep_key r "raw_key" ;;
     ret (ok r))
    (fun _ =>
       try_catch
         (r2 <- backendPost W "/api/keys/create" JNull
                  (JObj [("tag", coalesce (get b "tag") (JStr "ai-agent"))]) ;;
          keep_key r2 "key" ;;
          ret (ok r2))
         (fun err2 => ret (sendError err2))).

Definition is_null (v : json) : bool :=
  match v with JNull => true | _ => false end.

Definition get_health (W : World) (_ : Request) : M Response :=
  state <- read prodState ;;
  ret (ok (JObj [("status", JStr "ok");
                 ("service", JStr "paynexus-mcp");
                 ("env", JStr (MCP_ENV (process_env W)));
                 ("backend", JStr (BACKEND (process_env W)));
                 ("hasJwt", JBool (negb (is_null (ProdState.jwt state))));
                 ("hasKey", JBool (negb (is_null (ProdState.apiKey state))))])).

Definition post_auth_forward (W : World) (req : Request) : M Response :=
  let token := coalesce (get (body req) "jwt") (null_or_str (extractBearer req)) in
  if negb (truthy (Some token)) then
    ret {| status := 400;
           payload := JObj [("error", JStr "Provide jwt in body or Authorization: Bearer <token>")] |}
  else
    modify (with_prodState (set_jwt token)) ;;
    ret (ok (JObj [("ok", JBool true);
                   ("message", JStr "JWT stored. Call POST /api-keys/create next.")])).

Definition post_api_keys_rotate (W : World) (req : Request) : M Response :=
  apiKey <- read (fun m => ProdState.apiKey (prodState m)) ;;
  let token := bearer_or req apiKey in
  try_catch
    (r <- backendPost W "/v1/api-keys/rotate" token (body req) ;;
     keep_key r "raw_key" ;;
     ret (ok r))
    (fun err => ret (sendError err)).

Definition post_checkout_demo (W : World) (req : Request) : M Response :=
  apiKey <- read (fun m => ProdState.apiKey (prodState m)) ;;
  let token := bearer_or req apiKey in
  let b := spread [("amount", JNum 4900); ("currency", JStr "usd")] (body req) in
  try_catch
    (r <- backendPost W "/v1/checkout/create" token b ;; ret (ok r))
    (fun _ =>
       try_catch
         (r2 <- backendPost W "/api/checkout/create" JNull b ;; ret (ok r2))
         (fun err2 => ret (sendError err2))).

Definition post_webhooks_create (W : World) (req : Request) : M Response :=
  apiKey <- read (fun m => ProdState.apiKey (prodState m)) ;;
  let token := bearer_or req apiKey in
  let b := body req in
  let webhookBody :=
    JObj [("url", coalesce (get b "url") (JStr "https://webhook.site/demo"));
          ("events", coalesce (get b "events") default_events)] in
  try_catch
    (r <- backendPost W "/v1/webhooks" token webhookBody ;; ret (ok r))
    (fun err => ret (sendError err)).

(** The routes of src/server.ts. *)
Inductive route :=
| GET_health
| POST_auth_forward
| POST_api_keys_create
| POST_api_keys_rotate
| POST_checkout_demo
| POST_webhooks_create.

Definition app (W : World) (r : route) : Request -> M Response :=
  match r with
  | GET_health => get_health W
  | POST_auth_forward => post_auth_forward W
  | POST_api_keys_create => post_api_keys_create W
  | POST_api_keys_rotate => post_api_keys_rotate W
  | POST_checkout_demo => post_checkout_demo W
  | POST_webhooks_create => post_webhooks_create W
  end.

(** The route of the gateway that took over a route of src/server.ts. *)
Definition gateway_route (r : route) : Server.route :=
  match r with
  | GET_health => Server.GET_health
  | POST_auth_forward => Server.POST_auth_forward
  | POST_api_keys_create => Server.POST_api_keys_create
  | POST_api_keys_rotate => Server.POST_api_keys_rotate
  | POST_checkout_demo => Server.POST_checkout_demo
  | POST_webhooks_create => Server.POST_webhooks_create
  end.

End ServerTs.

(** ** Concrete worlds, for the scenarios of the design document *)

Module Scenario.
Import Json Server.

Definition sandbox_env : ProcessEnv :=
  {| PAYNEXUS_API_URL := None; PAYNEXUS_ENV := Some "sandbox"; env_MCP_ENV := None |}.

Definition production_env : ProcessEnv :=
  {| PAYNEXUS_API_URL := Some "https://api.paynexus.example/";
     PAYNEXUS_ENV := Some "production"; env_MCP_ENV := Some "production" |}.

Definition uuids (k : nat) : string :=
  nth k ["9b2e4c1a-7d3f-4a58-8e21-0c5d6f7a8b90";
         "11111111-2222-4333-8444-555555555555";
         "a0b1c2d3-e4f5-4061-8728-394a5b6c7d8e";
         "0f1e2d3c-4b5a-4697-8877-665544332211"]
        "00000000-0000-4000-8000-000000000000".

(** A sandbox process; the backend is never called. *)
Definition sandbox : World :=
  {| process_env := sandbox_env;
     uuid_at := uuids;
     clock_at := fun k => 1767225600000 + Z.of_nat k;
     iso_string := fun _ => "2026-01-01T00:00:00.000Z";
     axios_post := fun _ _ => Throws (AxiosError None "connect ECONNREFUSED") |}.

(** A production process whose backend answers the k-th call with [replies k]. *)
Definition production (replies : nat -> completion json) : World :=
  {| process_env := production_env;
     uuid_at := uuids;
     clock_at := fun k => 1767225600000 + Z.of_nat k;
     iso_string := fun _ => "2026-01-01T00:00:00.000Z";
     axios_post := fun k _ => replies k |}.

Definition rejected_401 : completion json :=
  Throws (AxiosError (Some (401, JObj [("error", JStr "invalid token")]))
                     "Request failed with status code 401").

Definition bearer (t : string) (b : json) : Request :=
  {| authorization := Some ("Bearer " ++ t); body := b |}.

Definition anonymous (b : json) : Request := {| authorization := None; body := b |}.

(** The sandbox after a login, and after the session has been given a key. *)
Definition token0 : string := "9b2e4c1a-7d3f-4a58-8e21-0c5d6f7a8b90".

Definition logged_in : Machine :=
  snd (app sandbox POST_auth_login (anonymous (JObj [("email", JStr "demo@x.io")])) initial).

Definition with_key : Machine :=
  snd (app sandbox POST_api_keys_create (bearer token0 (JObj [])) logged_in).

Definition key1 : string := "pk_demo_11111111222243338444555555555555".

Definition session1 : DemoSession.t :=
  {| DemoSession.token := token0; DemoSession.email := JStr "demo@x.io";
     DemoSession.apiKey := Some key1; DemoSession.checkouts := [];
     DemoSession.webhooks := []; DemoSession.createdAt := "2026-01-01T00:00:00.000Z" |}.

End Scenario.

(** ** src/config.ts: the configuration the client package reads at load time *)

Module Config.

Inductive LogLevel := L_debug | L_info | L_warn | L_error.

(** The variables of [process.env] the schema looks at. *)
Record Env := {
  env_PAYNEXUS_API_KEY : option string;
  env_PAYNEXUS_BASE_URL : option string;
  env_PAYNEXUS_ENV : option string;
  env_LOG_LEVEL : option string
}.

(** The parsed configuration. *)
Record t := {
  PAYNEXUS_API_KEY : string;
  PAYNEXUS_BASE_URL : string;
  PAYNEXUS_ENV : string;
  LOG_LEVEL : LogLevel
}.

(** [z.enum(['debug', 'info', 'warn', 'error'])]. *)
Definition log_level_of (s : string) : option LogLevel :=
  if String.eqb s "debug" then Some L_debug
  else if String.eqb s "info" then Some L_info
  else if String.eqb s "warn" then Some L_warn
  else if String.eqb s "error" then Some L_error
  else None.

(** [envSchema.parse(process.env)]; [None] is the ZodError it throws.
    [is_url] is the test of [z.string().url()]. *)
Definition envSchema_parse (is_url : string -> bool) (e : Env) : option t :=
  match env_PAYNEXUS_API_KEY e, env_PAYNEXUS_BASE_URL e, env_PAYNEXUS_ENV e with
  | Some key, Some base, Some env =>
      if Js.nonempty key && is_url base && (String.eqb env "sandbox" || String.eqb env "production")
      then
        match env_LOG_LEVEL e with
        | None =>
            Some {| PAYNEXUS_API_KEY := key; PAYNEXUS_BASE_URL := base;
                    PAYNEXUS_ENV := env; LOG_LEVEL := L_info |}
        | Some l =>
            match log_level_of l with
            | Some level =>
                Some {| PAYNEXUS_API_KEY := key; PAYNEXUS_BASE_URL := base;
                        PAYNEXUS_ENV := env; LOG_LEVEL := level |}
            | None => None
            end
        end
      else None
  | _, _, _ => None
  end.

End Config.

(** ** The client package: logger, client, key rotation, webhook registration

    One [PaynexusClient] is shared by the code that uses it, as in the
    example program: [rotateApiKey] writes the configuration the client's
    later requests read. The console, the clock, [fetch] and [randomBytes]
    are the environment. *)

Module Sdk.
Import Json Config.

(** *** Values *)

(** [client.config]. The key is declared a string; [rotateApiKey] stores
    a property of the backend's untyped reply in it, so it holds what a
    property read gives: a JSON value, or [None] for [undefined]. *)
Record PaynexusConfig := { apiKey : option json; baseUrl : string; env : string }.

(** [Partial<PaynexusConfig>]. *)
Record CustomConfig := {
  custom_apiKey : option string;
  custom_baseUrl : option string;
  custom_env : option string
}.

(** The members of [RequestInit] the package uses; [headers] is a plain
    object, [JNull] when there is none. *)
Record RequestInit := { method : option string; body : option string; headers : json }.

Definition no_options : RequestInit := {| method := None; body := None; headers := JNull |}.

Record FetchCall := {
  call_url : string;
  call_method : option string;
  call_body : option string;
  call_headers : json
}.

Inductive exn := JsError (name message : string).

Definition message (e : exn) : string := let (_, m) := e in m.

Inductive outcome (A : Type) :=
| Fulfilled (a : A)
| Rejected (e : exn).
Arguments Fulfilled {A} a.
Arguments Rejected {A} e.

(** A [Response]: [json] is what [response.json()] settles to. *)
Record FetchResponse := { status : Z; statusText : string; json_body : outcome json }.

(** [response.ok]: the status is in the range 200-299. *)
Definition ok (r : FetchResponse) : bool := (200 <=? status r) && (status r <=? 299).

Record World := {
  defaultConfig : Config.t;
  clock_at : nat -> Z;
  iso_string : Z -> string;
  (** the text [JSON.stringify] writes *)
  JSON_stringify : json -> string;
  (** the bytes [randomBytes] yields, in the order it yields them *)
  entropy : nat -> byte;
  (** the outcome of the k-th [fetch] *)
  fetch_at : nat -> FetchCall -> outcome FetchResponse;
  (** the message of the TypeError raised when a property is destructured from [null] *)
  cannot_destructure : string -> string
}.

(** The world with another source of random bytes. *)
Definition with_entropy (bytes : nat -> byte) (W : World) : World :=
  {| defaultConfig := defaultConfig W;
     clock_at := clock_at W;
     iso_string := iso_string W;
     JSON_stringify := JSON_stringify W;
     entropy := bytes;
     fetch_at := fetch_at W;
     cannot_destructure := cannot_destructure W |}.

Record Machine := {
  config : PaynexusConfig;
  console : list (LogLevel * string);
  ticks : nat;
  consumed : nat;
  fetched : list FetchCall
}.

(** *** The package runs in a state monad with exceptions *)

Definition M (A : Type) : Type := Machine -> outcome A * Machine.

Definition ret {A} (a : A) : M A := fun m => (Fulfilled a, m).

Definition bind {A B} (c : M A) (k : A -> M B) : M B :=
  fun m =>
    match c m with
    | (Fulfilled a, m') => k a m'
    | (Rejected e, m') => (Rejected e, m')
    end.

Definition throw {A} (e : exn) : M A := fun m => (Rejected e, m).

Definition try_catch {A} (c : M A) (h : exn -> M A) : M A :=
  fun m =>
    match c m with
    | (Fulfilled a, m') => (Fulfilled a, m')
    | (Rejected e, m') => h e m'
    end.

Definition read {A} (f : Machine -> A) : M A := fun m => (Fulfilled (f m), m).

(** A settled promise, awaited. *)
Definition await {A} (o : outcome A) : M A := fun m => (o, m).

Declare Scope sdk_scope.
Delimit Scope sdk_scope with sdk.
Notation "x <- c ;; k" := (bind c (fun x => k))
  (at level 61, c at next level, right associativity) : sdk_scope.
Notation "c ;; k" := (bind c (fun _ => k))
  (at level 61, right associativity) : sdk_scope.
Local Open Scope sdk_scope.

(** *** Text *)

Definition upper_ascii (c : ascii) : ascii :=
  let n := nat_of_ascii c in
  if ((97 <=? n) && (n <=? 122))%nat then ascii_of_nat (n - 32) else c.

(** [s.toUpperCase()]. *)
Fixpoint toUpperCase (s : string) : string :=
  match s with
  | EmptyString => EmptyString
  | String c r => String (upper_ascii c) (toUpperCase r)
  end.

(** The decimal text of an integer, as a template literal writes a number
    below 10^21 in magnitude. *)
Definition decimal (n : Z) : string := NilZero.string_of_int (Z.to_int n).

(** [items.join(',')], given the text of each item. *)
Fixpoint join (texts : list string) : string :=
  match texts with
  | [] => EmptyString
  | [t] => t
  | t :: r => t ++ "," ++ join r
  end.

(** The text of a value in a template literal, [`${v}`]. *)
Fixpoint String_of (v : json) : string :=
  match v with
  | JNull => "null"
  | JBool true => "true"
  | JBool false => "false"
  | JNum n => decimal n
  | JStr s => s
  | JArr items =>
      join (map (fun item => match item with JNull => EmptyString | _ => String_of item end) items)
  | JObj _ => "[object Object]"
  end.

Definition template (v : option json) : string :=
  match v with
  | Some x => String_of x
  | None => "undefined"
  end.

(** [a || b] on strings that may be missing. *)
Definition or_else (a : option string) (b : string) : string :=
  match a with
  | Some s => if Js.nonempty s then s else b
  | None => b
  end.

(** *** logger.ts *)

Definition level_name (l : LogLevel) : string :=
  match l with
  | L_debug => "debug"
  | L_info => "info"
  | L_warn => "warn"
  | L_error => "error"
  end.

Definition levels : list string := ["debug"; "info"; "warn"; "error"].

(** [l.indexOf(x)]. *)
Fixpoint indexOf (x : string) (l : list string) : Z :=
  match l with
  | [] => -1
  | y :: r =>
      if String.eqb y x then 0
      else let i := indexOf x r in if i <? 0 then -1 else i + 1
  end.

Definition shouldLog (this_level level : LogLevel) : bool :=
  indexOf (level_name level) levels >=? indexOf (level_name this_level) levels.

Definition REDACTED : json := JStr "***REDACTED***".

(** [sanitize(data)]. A value that is not an object is returned as it
    is. The spread copies the own properties, those of an array under its
    indices, so that the copy of an array is an object; the loop then
    replaces the strings that start with [pnx_] and sanitizes the values
    whose [typeof] is ['object']: objects, arrays and [null]. *)
Fixpoint sanitize (data : json) : json :=
  let property (v : json) : json :=
    match v with
    | JStr s => if Js.startsWith "pnx_" s then REDACTED else v
    | JNull | JArr _ | JObj _ => sanitize v
    | JBool _ | JNum _ => v
    end in
  match data with
  | JObj fields => JObj (map (fun kv => (fst kv, property (snd kv))) fields)
  | JArr items => JObj (combine (map index_key (seq 0 (List.length items))) (map property items))
  | _ => data
  end.

(** What the loop of [sanitize] does to the value of one property. *)
Definition sanitize_property (v : json) : json :=
  match v with
  | JStr s => if Js.startsWith "pnx_" s then REDACTED else v
  | JNull | JArr _ | JObj _ => sanitize v
  | JBool _ | JNum _ => v
  end.

(** No property of [v], at any depth, is a string that starts with [pnx_]. *)
Fixpoint redacted (v : json) : bool :=
  let property (p : json) : bool :=
    match p with
    | JStr s => negb (Js.startsWith "pnx_" s)
    | _ => redacted p
    end in
  match v with
  | JObj fields => forallb (fun kv => property (snd kv)) fields
  | JArr items => forallb property items
  | _ => true
  end.

(** The test of [redacted] on the value of one property. *)
Definition redacted_property (p : json) : bool :=
  match p with
  | JStr s => negb (Js.startsWith "pnx_" s)
  | _ => redacted p
  end.

(** [v] holds no array, at any depth. *)
Fixpoint array_free (v : json) : bool :=
  match v with
  | JObj fields => forallb (fun kv => array_free (snd kv)) fields
  | JArr _ => false
  | _ => true
  end.

Section Package.
Variable W : World.

(** [new Date().toISOString()]. *)
Definition new_Date_toISOString : M string :=
  fun m => (Fulfilled (iso_string W (clock_at W (ticks m))),
            {| config := config m; console := console m; ticks := S (ticks m);
               consumed := consumed m; fetched := fetched m |}).

(** [console[level](line)]. *)
Definition console_write (level : LogLevel) (line : string) : M unit :=
  fun m => (Fulfilled tt,
            {| config := config m; console := console m ++ [(level, line)]; ticks := ticks m;
               consumed := consumed m; fetched := fetched m |}).

(** The entry [log] builds; [data] is [None] when the call passes none. *)
Definition logEntry (timestamp : string) (level : LogLevel) (message : string) (data : option json) : json :=
  JObj ([("timestamp", JStr timestamp);
         ("level", JStr (toUpperCase (level_name level)));
         ("message", JStr message)]
        ++ (if truthy data then [("data", sanitize (json_of data))] else [])).

(** The logger of the package is built with [config.LOG_LEVEL]. *)
Definition log (level : LogLevel) (message : string) (data : option json) : M unit :=
  if negb (shouldLog (LOG_LEVEL (defaultConfig W)) level) then ret tt
  else
    timestamp <- new_Date_toISOString ;;
    console_write level (JSON_stringify W (logEntry timestamp level message data)).

(** The machine after [log] has written the line of an entry. *)
Definition logged (level : LogLevel) (message : string) (data : option json) (m : Machine) : Machine :=
  {| config := config m;
     console := console m ++
       [(level, JSON_stringify W (logEntry (iso_string W (clock_at W (ticks m))) level message data))];
     ticks := S (ticks m);
     consumed := consumed m;
     fetched := fetched m |}.

Definition debug (message : string) (data : option json) : M unit := log L_debug message data.
Definition info (message : string) (data : option json) : M unit := log L_info message data.
Definition warn (message : string) (data : option json) : M unit := log L_warn message data.
Definition error (message : string) (data : option json) : M unit := log L_error message data.

(** *** client.ts *)

(** [new PaynexusClient(customConfig)]. *)
Definition PaynexusClient (customConfig : option CustomConfig) : PaynexusConfig :=
  {| apiKey := Some (JStr (or_else (match customConfig with Some c => custom_apiKey c | None => None end)
                                   (PAYNEXUS_API_KEY (defaultConfig W))));
     baseUrl := or_else (match customConfig with Some c => custom_baseUrl c | None => None end)
                        (PAYNEXUS_BASE_URL (defaultConfig W));
     env := or_else (match customConfig with Some c => custom_env c | None => None end)
                    (PAYNEXUS_ENV (defaultConfig W)) |}.

(** The process after the client was built. *)
Definition start (customConfig : option CustomConfig) : Machine :=
  {| config := PaynexusClient customConfig; console := []; ticks := 0; consumed := 0; fetched := [] |}.

Definition fetch (call : FetchCall) : M FetchResponse :=
  fun m => (fetch_at W (List.length (fetched m)) call,
            {| config := config m; console := console m; ticks := ticks m;
               consumed := consumed m; fetched := fetched m ++ [call] |}).

(** The machine after [calls] were handed to [fetch]. *)
Definition fetching (calls : list FetchCall) (m : Machine) : Machine :=
  {| config := config m; console := console m; ticks := ticks m;
     consumed := consumed m; fetched := fetched m ++ calls |}.

(** The call [request] hands to [fetch]. *)
Definition request_call (cfg : PaynexusConfig) (path : string) (options : RequestInit) : FetchCall :=
  {| call_url := baseUrl cfg ++ path;
     call_method := method options;
     call_body := body options;
     call_headers :=
       spread [("Authorization", JStr ("Bearer " ++ template (apiKey cfg)));
               ("Content-Type", JStr "application/json");
               ("X-Paynexus-Env", JStr (env cfg))]
              (headers options) |}.

(** The data [request] logs for a response that is not ok. *)
Definition api_error (path : string) (response : FetchResponse) : json :=
  JObj [("status", JNum (status response));
        ("path", JStr path);
        ("errorData", match json_body response with
                      | Fulfilled d => d
                      | Rejected _ => JObj []
                      end)].

Definition request (path : string) (options : RequestInit) : M json :=
  cfg <- read config ;;
  response <- fetch (request_call cfg path options) ;;
  if negb (ok response) then
    errorData <- try_catch (await (json_body response)) (fun _ => ret (JObj [])) ;;
    error "API_ERROR"
          (Some (JObj [("status", JNum (status response));
                       ("path", JStr path);
                       ("errorData", errorData)])) ;;
    throw (JsError "Error" ("Paynexus API Error: " ++ statusText response))
  else await (json_body response).

Definition post (body : json) : RequestInit :=
  {| method := Some "POST"; body := Some (JSON_stringify W body); headers := JNull |}.

Definition createCheckout (amount : Z) (currency : string) : M json :=
  request "/v1/checkout" (post (JObj [("amount", JNum amount); ("currency", JStr currency)])).

Definition confirmPayment (sessionId : string) : M json :=
  request "/v1/payment/confirm" (post (JObj [("sessionId", JStr sessionId)])).

Definition fetchTransactions : M json := request "/v1/transactions" no_options.

Definition triggerComplianceScan (entityId : string) : M json :=
  request "/v1/compliance/scan" (post (JObj [("entityId", JStr entityId)])).

Definition retrieveComplianceReport (reportId : string) : M json :=
  request ("/v1/compliance/report/" ++ reportId) no_options.

(** The operations of the client. *)
Inductive operation :=
| CreateCheckout (amount : Z) (currency : string)
| ConfirmPayment (sessionId : string)
| FetchTransactions
| TriggerComplianceScan (entityId : string)
| RetrieveComplianceReport (reportId : string).

Definition perform (o : operation) : M json :=
  match o with
  | CreateCheckout amount currency => createCheckout amount currency
  | ConfirmPayment sessionId => confirmPayment sessionId
  | FetchTransactions => fetchTransactions
  | TriggerComplianceScan entityId => triggerComplianceScan entityId
  | RetrieveComplianceReport reportId => retrieveComplianceReport reportId
  end.

Definition path_of (o : operation) : string :=
  match o with
  | CreateCheckout _ _ => "/v1/checkout"
  | ConfirmPayment _ => "/v1/payment/confirm"
  | FetchTransactions => "/v1/transactions"
  | TriggerComplianceScan _ => "/v1/compliance/scan"
  | RetrieveComplianceReport reportId => "/v1/compliance/report/" ++ reportId
  end.

(** *** key-rotation.ts and webhook-manager.ts *)

Definition is_null (v : json) : bool :=
  match v with JNull => true | _ => false end.

(** [const { k } = reply]: a TypeError on [null], a property read otherwise. *)
Definition destructure (reply : json) (k : string) : M (option json) :=
  match reply with
  | JNull => throw (JsError "TypeError" (cannot_destructure W k))
  | _ => ret (get reply k)
  end.

Definition set_apiKey (key : option json) : M unit :=
  fun m => (Fulfilled tt,
            {| config := {| apiKey := key; baseUrl := baseUrl (config m); env := env (config m) |};
               console := console m; ticks := ticks m;
               consumed := consumed m; fetched := fetched m |}).

Definition rotate_options : RequestInit := {| method := Some "POST"; body := None; headers := JNull |}.

Definition rotateApiKey : M (option json) :=
  cfg <- read config ;;
  info "Starting API key rotation for environment" (Some (JObj [("env", JStr (env cfg))])) ;;
  try_catch
    (reply <- request "/v1/auth/rotate" rotate_options ;;
     newKey <- destructure reply "newKey" ;;
     set_apiKey newKey ;;
     info "API key rotated successfully" None ;;
     ret newKey)
    (fun e =>
       error "ROTATION_FAILED" (Some (JObj [("error", JStr (message e))])) ;;
       throw e).

(** [randomBytes(n)]. *)
Definition randomBytes (n : nat) : M (list byte) :=
  fun m => (Fulfilled (map (entropy W) (seq (consumed m) n)),
            {| config := config m; console := console m; ticks := ticks m;
               consumed := (consumed m + n)%nat; fetched := fetched m |}).

(** The machine after [n] random bytes were taken. *)
Definition consuming (n : nat) (m : Machine) : Machine :=
  {| config := config m; console := console m; ticks := ticks m;
     consumed := (consumed m + n)%nat; fetched := fetched m |}.

Definition generateSecret : M string :=
  bytes <- randomBytes 32 ;; ret (Hex.toString_hex bytes).

(** The body [registerWebhook] sends. *)
Definition registration (url : string) (events : list string) (secret : string) : json :=
  JObj [("url", JStr url); ("events", JArr (map JStr events)); ("secret", JStr secret)].

(** The result is the object [{ webhookId, secret }]. *)
Definition registerWebhook (url : string) (events : list string) : M (option json * string) :=
  info "Registering new webhook" (Some (JObj [("url", JStr url); ("events", JArr (map JStr events))])) ;;
  secret <- generateSecret ;;
  try_catch
    (reply <- request "/v1/webhooks/register" (post (registration url events secret)) ;;
     webhookId <- destructure reply "webhookId" ;;
     info "Webhook registered successfully" (Some (JObj (literal [("webhookId", webhookId)]))) ;;
     ret (webhookId, secret))
    (fun e =>
       error "WEBHOOK_REGISTRATION_FAILED" (Some (JObj [("error", JStr (message e))])) ;;
       throw e).

End Package.
End Sdk.

(** ** A concrete process of the client package, for the examples *)

Module SdkScenario.
Import Json Config Sdk.

Definition settings : Config.t :=
  {| PAYNEXUS_API_KEY := "pnx_test_0123456789abcdef";
     PAYNEXUS_BASE_URL := "https://api.sandbox.paynexus.com";
     PAYNEXUS_ENV := "sandbox";
     LOG_LEVEL := L_info |}.

Definition environment : Config.Env :=
  {| env_PAYNEXUS_API_KEY := Some "pnx_test_0123456789abcdef";
     env_PAYNEXUS_BASE_URL := Some "https://api.sandbox.paynexus.com";
     env_PAYNEXUS_ENV := Some "sandbox";
     env_LOG_LEVEL := None |}.

Definition quote : string := String (ascii_of_nat 34) EmptyString.

(** A rendering of JSON values, for texts without characters to escape. *)
Fixpoint render (v : json) : string :=
  match v with
  | JNull => "null"
  | JBool true => "true"
  | JBool false => "false"
  | JNum n => decimal n
  | JStr s => quote ++ s ++ quote
  | JArr items => "[" ++ join (map render items) ++ "]"
  | JObj fields =>
      "{" ++ join (map (fun kv => quote ++ fst kv ++ quote ++ ":" ++ render (snd kv)) fields) ++ "}"
  end.

(** A process whose k-th [fetch] settles to [replies k]. *)
Definition world (replies : nat -> outcome FetchResponse) : World :=
  {| defaultConfig := settings;
     clock_at := fun k => 1767225600000 + Z.of_nat k;
     iso_string := fun _ => "2026-01-01T00:00:00.000Z";
     JSON_stringify := render;
     entropy := fun k => Hex.byte_of_Z (Z.of_nat (7 * k + 3));
     fetch_at := fun k _ => replies k;
     cannot_destructure := fun k => "Cannot destructure property '" ++ k ++ "' of null." |}.

Definition replied (status : Z) (statusText : string) (body : json) : outcome FetchResponse :=
  Fulfilled {| status := status; statusText := statusText; json_body := Fulfilled body |}.

End SdkScenario.

(** * Properties *)

(** ** Hexadecimal text *)

Import Hex WebhookManager.

Lemma Z_of_byte_range (b : byte) : 0 <= Z_of_byte b < 256.
Proof. destruct b; vm_compute; split; congruence. Qed.

Lemma byte_of_Z_of_byte (b : byte) : byte_of_Z (Z_of_byte b) = b.
Proof. destruct b; reflexivity. Qed.

Lemma Z_of_byte_of_Z (z : Z) : Z_of_byte (byte_of_Z z) = z mod 256.
Proof.
  unfold byte_of_Z, Z_of_byte.
  assert (Hr : 0 <= z mod 256 < 256) by (apply Z.mod_pos_bound; lia).
  destruct (Byte.of_N (Z.to_N (z mod 256))) as [b|] eqn:E.
  - apply Byte.to_of_N in E. rewrite E. lia.
  - apply Byte.of_N_None_iff in E. lia.
Qed.

Lemma Z_of_byte_inj (a b : byte) : Z_of_byte a = Z_of_byte b -> a = b.
Proof.
  intros H. rewrite <- (byte_of_Z_of_byte a), <- (byte_of_Z_of_byte b). now rewrite H.
Qed.

Lemma unhex_range (c : ascii) (v : Z) : unhex c = Some v -> 0 <= v < 16.
Proof.
  unfold unhex.
  repeat match goal with
         | |- context [if ?t then _ else _] => destruct t eqn:?
         end; intros [= <-]; lia.
Qed.

Lemma unhex_hexdigit (v : Z) : 0 <= v < 16 -> unhex (hexdigit v) = Some v.
Proof.
  intros H.
  assert (C : v = 0 \/ v = 1 \/ v = 2 \/ v = 3 \/ v = 4 \/ v = 5 \/ v = 6 \/ v = 7 \/
              v = 8 \/ v = 9 \/ v = 10 \/ v = 11 \/ v = 12 \/ v = 13 \/ v = 14 \/ v = 15) by lia.
  repeat (destruct C as [-> | C]; [reflexivity |]). now subst.
Qed.

(** Decoding does not see the case of a digit. *)
Lemma unhex_lower (c : ascii) : unhex (Js.lower_ascii c) = unhex c.
Proof. destruct c as [[] [] [] [] [] [] [] []]; reflexivity. Qed.

Lemma lower_of_unhex (c : ascii) (v : Z) : unhex c = Some v -> Js.lower_ascii c = hexdigit v.
Proof.
  destruct c as [[] [] [] [] [] [] [] []]; vm_compute; intros [= <-]; reflexivity.
Qed.

Lemma lower_hexdigit (v : Z) : 0 <= v < 16 -> Js.lower_ascii (hexdigit v) = hexdigit v.
Proof.
  intros H. apply lower_of_unhex. now apply unhex_hexdigit.
Qed.

Lemma byte_nibbles (b : byte) :
  0 <= Z_of_byte b / 16 < 16 /\ 0 <= Z_of_byte b mod 16 < 16 /\
  16 * (Z_of_byte b / 16) + Z_of_byte b mod 16 = Z_of_byte b.
Proof.
  pose proof (Z_of_byte_range b) as R.
  pose proof (Z.div_mod (Z_of_byte b) 16 ltac:(lia)) as D.
  pose proof (Z.mod_pos_bound (Z_of_byte b) 16 ltac:(lia)) as M.
  repeat split; lia.
Qed.

Lemma Buffer_from_hex_pair (c1 c2 : ascii) (r : string) :
  Buffer_from_hex (String c1 (String c2 r)) =
  match unhex c1, unhex c2 with
  | Some hi, Some lo => byte_of_Z (16 * hi + lo) :: Buffer_from_hex r
  | _, _ => []
  end.
Proof. reflexivity. Qed.

(** Round trip: the bytes of a buffer are read back from its hexadecimal text. *)
Lemma Buffer_from_hex_toString_hex (buf : list byte) :
  Buffer_from_hex (toString_hex buf) = buf.
Proof.
  induction buf as [|b r IH]; [reflexivity|].
  destruct (byte_nibbles b) as (Hh & Hl & Hs).
  cbn [toString_hex]. rewrite Buffer_from_hex_pair.
  rewrite (unhex_hexdigit _ Hh), (unhex_hexdigit _ Hl), Hs, byte_of_Z_of_byte, IH.
  reflexivity.
Qed.

Lemma toString_hex_length (buf : list byte) :
  String.length (toString_hex buf) = (2 * List.length buf)%nat.
Proof. induction buf as [|b r IH]; cbn [toString_hex String.length List.length]; lia. Qed.

Lemma toString_hex_well_formed (buf : list byte) : well_formed_hex (toString_hex buf) = true.
Proof.
  induction buf as [|b r IH]; [reflexivity|].
  destruct (byte_nibbles b) as (Hh & Hl & _).
  cbn [toString_hex well_formed_hex]. unfold is_hex_digit.
  now rewrite (unhex_hexdigit _ Hh), (unhex_hexdigit _ Hl), IH.
Qed.

Lemma toString_hex_lower (buf : list byte) : Js.toLowerCase (toString_hex buf) = toString_hex buf.
Proof.
  induction buf as [|b r IH]; [reflexivity|].
  destruct (byte_nibbles b) as (Hh & Hl & _).
  cbn [toString_hex Js.toLowerCase].
  now rewrite (lower_hexdigit _ Hh), (lower_hexdigit _ Hl), IH.
Qed.

(** Induction on a string two characters at a time. *)
Lemma string_pair_ind (P : string -> Prop) :
  P EmptyString ->
  (forall c, P (String c EmptyString)) ->
  (forall c1 c2 r, P r -> P (String c1 (String c2 r))) ->
  forall s, P s.
Proof.
  intros H0 H1 H2.
  fix IH 1. intros [|c1 [|c2 r]]; [exact H0 | apply H1 | apply H2, IH].
Qed.

Lemma Buffer_from_hex_lower (s : string) :
  Buffer_from_hex (Js.toLowerCase s) = Buffer_from_hex s.
Proof.
  induction s as [| c | c1 c2 r IH] using string_pair_ind; try reflexivity.
  cbn [Js.toLowerCase Buffer_from_hex]. rewrite !unhex_lower, IH. reflexivity.
Qed.

(** The decoded bytes never outnumber the pairs of the text, and there are
    fewer of them when the text is malformed. *)
Lemma Buffer_from_hex_length (s : string) :
  (2 * List.length (Buffer_from_hex s) <= String.length s)%nat.
Proof.
  induction s as [| c | c1 c2 r IH] using string_pair_ind; cbn [Buffer_from_hex String.length List.length]; try lia.
  destruct (unhex c1), (unhex c2); cbn [List.length]; lia.
Qed.

Lemma Buffer_from_hex_malformed (s : string) :
  malformed_hex s = true -> (2 * List.length (Buffer_from_hex s) < String.length s)%nat.
Proof.
  unfold malformed_hex.
  induction s as [| c | c1 c2 r IH] using string_pair_ind;
    cbn [Buffer_from_hex String.length List.length well_formed_hex]; try (discriminate || lia).
  unfold is_hex_digit.
  destruct (unhex c1), (unhex c2); cbn [List.length andb negb]; try lia.
  intros H. specialize (IH H). lia.
Qed.

Lemma Buffer_from_hex_full (s : string) :
  (2 * List.length (Buffer_from_hex s) = String.length s)%nat -> well_formed_hex s = true.
Proof.
  intros H. destruct (well_formed_hex s) eqn:E; [reflexivity|].
  pose proof (Buffer_from_hex_malformed s) as M. unfold malformed_hex in M. rewrite E in M.
  specialize (M eq_refl). lia.
Qed.

(** Two texts of one length that decode, in full, to the same bytes differ
    at most in the case of their digits. *)
Lemma Buffer_from_hex_same (a : string) :
  forall b, well_formed_hex a = true -> String.length a = String.length b ->
            Buffer_from_hex a = Buffer_from_hex b ->
            Js.toLowerCase a = Js.toLowerCase b.
Proof.
  induction a as [| c | c1 c2 r IH] using string_pair_ind; intros b Hwf Hlen Hdec.
  - destruct b; [reflexivity | discriminate].
  - discriminate.
  - destruct b as [|d1 [|d2 q]]; try discriminate.
    cbn [well_formed_hex] in Hwf. unfold is_hex_digit in Hwf.
    rewrite !Buffer_from_hex_pair in Hdec.
    destruct (unhex c1) as [h1|] eqn:E1; [|discriminate].
    destruct (unhex c2) as [l1|] eqn:E2; [|discriminate].
    destruct (unhex d1) as [h2|] eqn:E3; [|discriminate].
    destruct (unhex d2) as [l2|] eqn:E4; [|discriminate].
    pose proof (f_equal (hd x00) Hdec) as Hb. pose proof (f_equal (@tl byte) Hdec) as Hr.
    cbn [hd tl] in Hb, Hr.
    apply (f_equal Z_of_byte) in Hb. rewrite !Z_of_byte_of_Z in Hb.
    pose proof (unhex_range _ _ E1) as R1. pose proof (unhex_range _ _ E2) as R2.
    pose proof (unhex_range _ _ E3) as R3. pose proof (unhex_range _ _ E4) as R4.
    rewrite !Z.mod_small in Hb by lia.
    assert (h1 = h2 /\ l1 = l2) as [-> ->] by lia.
    cbn [Js.toLowerCase].
    rewrite (lower_of_unhex _ _ E1), (lower_of_unhex _ _ E2),
            (lower_of_unhex _ _ E3), (lower_of_unhex _ _ E4).
    f_equal. f_equal. apply IH; [| cbn in Hlen; lia | exact Hr].
    cbn [andb] in Hwf. exact Hwf.
Qed.

(** ** The digest and the comparison *)

(** The hash and the MAC on the test vectors of their standards
    (FIPS 180-4 appendix; RFC 4231, test case 2). *)
Example sha256_abc :
  toString_hex (map byte_of_Z (Sha256.sha256 (utf8 "abc")))
  = "ba7816bf8f01cfea414140de5dae2223b00361a396177a9cb410ff61f20015ad".
Proof. vm_compute. reflexivity. Qed.

Example sha256_two_blocks :
  toString_hex (map byte_of_Z
    (Sha256.sha256 (utf8 "abcdbcdecdefdefgefghfghighijhijkijkljklmklmnlmnomnopnopq")))
  = "248d6a61d20638b8e5c026930c3e6039a33ce45964ff2167f6ecedd419db06c1".
Proof. vm_compute. reflexivity. Qed.

Example hmac_sha256_rfc4231_2 :
  sign "what do ya want for nothing?" "Jefe"
  = "5bdcc146bf60754e6a042426089575c75a003f089d2739839dec58b964ec3843".
Proof. vm_compute. reflexivity. Qed.

Lemma digest_bytes_length (h : Sha256.hash) : List.length (Sha256.digest_bytes h) = 32%nat.
Proof. reflexivity. Qed.

Lemma hmac_sha256_length (secret payload : string) :
  List.length (hmac_sha256 secret payload) = 32%nat.
Proof.
  unfold hmac_sha256, Sha256.hmac, Sha256.sha256.
  rewrite length_map. apply digest_bytes_length.
Qed.

Lemma xor_fold_zero (l : list (byte * byte)) :
  forall acc,
    fold_left (fun acc xy => Z.lor acc (Z.lxor (Z_of_byte (fst xy)) (Z_of_byte (snd xy)))) l acc = 0
    <-> acc = 0 /\ Forall (fun xy => fst xy = snd xy) l.
Proof.
  induction l as [|[x y] l IH]; intros acc; cbn [fold_left].
  - split; [intros ->; split; constructor | intros [-> _]; reflexivity].
  - rewrite IH, Z.lor_eq_0_iff, Z.lxor_eq_0_iff. cbn [fst snd]. split.
    + intros [[-> E] F]. split; [reflexivity|]. constructor; [|exact F].
      cbn. now apply Z_of_byte_inj.
    + intros [-> F]. inversion F as [|? ? E F']; subst. cbn in E. subst. auto.
Qed.

Lemma combine_same (a : list byte) :
  forall b, List.length a = List.length b ->
            (Forall (fun xy => fst xy = snd xy) (combine a b) <-> a = b).
Proof.
  induction a as [|x a IH]; intros [|y b] L; try discriminate; cbn [combine].
  - split; [reflexivity | constructor].
  - cbn in L. injection L as L. split.
    + intros F. inversion F as [|? ? E F']; subst. cbn in E. subst.
      f_equal. now apply IH.
    + intros [= -> ->]. constructor; [reflexivity | now apply IH].
Qed.

(** On buffers of one length the constant-time comparison is equality. *)
Lemma timingSafeEqual_spec (a b : list byte) :
  List.length a = List.length b ->
  forall r, timingSafeEqual a b = Some r -> (r = true <-> a = b).
Proof.
  intros L r. unfold timingSafeEqual, xor_acc. rewrite L, Nat.eqb_refl.
  intros [= <-]. rewrite Z.eqb_eq, xor_fold_zero, (combine_same a b L). tauto.
Qed.

Lemma timingSafeEqual_throws (a b : list byte) :
  List.length a <> List.length b -> timingSafeEqual a b = None.
Proof.
  intros L. unfold timingSafeEqual. now apply Nat.eqb_neq in L as ->.
Qed.

(** The [try] block of [verifySignature] always completes: the length test
    comes before the comparison that could throw. *)
Lemma verifySignature_try_completes (payload signature secret : string) :
  verifySignature_try payload signature secret = Some (verifySignature payload signature secret).
Proof.
  unfold verifySignature, verifySignature_try, timingSafeEqual.
  destruct (Nat.eqb _ _); reflexivity.
Qed.

(** What [verifySignature] decides: whether the claimed text decodes to the HMAC. *)
Lemma verifySignature_iff (payload signature secret : string) :
  verifySignature payload signature secret = true
  <-> Buffer_from_hex signature = hmac_sha256 secret payload.
Proof.
  unfold verifySignature, verifySignature_try.
  rewrite Buffer_from_hex_toString_hex.
  destruct (Nat.eqb (List.length (hmac_sha256 secret payload))
                    (List.length (Buffer_from_hex signature))) eqn:E; cbn [negb].
  - apply Nat.eqb_eq in E.
    destruct (timingSafeEqual _ _) as [r|] eqn:T.
    + rewrite (timingSafeEqual_spec _ _ E r T). split; congruence.
    + unfold timingSafeEqual in T. rewrite E, Nat.eqb_refl in T. discriminate.
  - apply Nat.eqb_neq in E. split; [discriminate|]. intros H. rewrite H in E. congruence.
Qed.

Lemma verifySignature_false_iff (payload signature secret : string) :
  verifySignature payload signature secret = false
  <-> Buffer_from_hex signature <> hmac_sha256 secret payload.
Proof.
  rewrite <- verifySignature_iff. destruct (verifySignature _ _ _); split; congruence.
Qed.

(** ** Signatures *)

Lemma sign_length (payload secret : string) : String.length (sign payload secret) = 64%nat.
Proof. unfold sign. now rewrite toString_hex_length, hmac_sha256_length. Qed.

Lemma verifySignature_sign (payload secret : string) :
  verifySignature payload (sign payload secret) secret = true.
Proof. apply verifySignature_iff. unfold sign. apply Buffer_from_hex_toString_hex. Qed.

(** Among the texts as long as the signature, the accepted ones are the
    signature and its variants in the case of the digits. *)
Lemma verifySignature_same_length (payload secret s' : string) :
  String.length s' = 64%nat ->
  (verifySignature payload s' secret = true <-> Js.toLowerCase s' = sign payload secret).
Proof.
  intros L. rewrite verifySignature_iff. split.
  - intros D. unfold sign.
    rewrite <- (toString_hex_lower (hmac_sha256 secret payload)). symmetry.
    apply Buffer_from_hex_same.
    + apply toString_hex_well_formed.
    + now rewrite toString_hex_length, hmac_sha256_length, L.
    + now rewrite Buffer_from_hex_toString_hex, D.
  - intros E. rewrite <- Buffer_from_hex_lower, E. unfold sign. apply Buffer_from_hex_toString_hex.
Qed.

(** C2 (amended): for every payload and secret, [verifySignature] returns
    false, without an exception, on every signature text whose decoded byte
    length differs from that of the digest (32 bytes); every malformed
    hexadecimal text of at most 64 characters is such a text. *)
Theorem verifySignature_rejects_other_length (payload signature secret : string) :
  List.length (Buffer_from_hex signature) <> List.length (hmac_sha256 secret payload) \/
  (malformed_hex signature = true /\ (String.length signature <= 64)%nat) ->
  verifySignature_try payload signature secret = Some false /\
  verifySignature payload signature secret = false.
Proof.
  intros H. rewrite hmac_sha256_length in H.
  assert (L : List.length (Buffer_from_hex signature) <> 32%nat).
  { destruct H as [H | [M B]]; [exact H|].
    pose proof (Buffer_from_hex_malformed signature M). lia. }
  assert (F : verifySignature payload signature secret = false).
  { apply verifySignature_false_iff. intros E. rewrite E, hmac_sha256_length in L. congruence. }
  split; [|exact F]. now rewrite verifySignature_try_completes, F.
Qed.

Lemma verifySignature_rejects_other_length_witness :
  (malformed_hex "3a7fzz" = true /\ (String.length "3a7fzz" <= 64)%nat) /\
  verifySignature_try "{}" "3a7fzz" "whsec" = Some false /\
  verifySignature "{}" "3a7fzz" "whsec" = false.
Proof.
  assert (H : malformed_hex "3a7fzz" = true /\ (String.length "3a7fzz" <= 64)%nat)
    by (split; [reflexivity | cbn; lia]).
  split; [exact H|].
  apply verifySignature_rejects_other_length. right. exact H.
Defined.

(** C2, as stated, fails on malformed text: the signature of the empty
    payload under the empty secret, with two characters that are no
    hexadecimal digits added at its end, is malformed and is accepted. *)
Lemma verifySignature_accepts_malformed_hex :
  sign "" "" = "b613679a0814d9ec772f95d778c35fc5ff1697c493715653c6c712144292c5ad" /\
  malformed_hex "b613679a0814d9ec772f95d778c35fc5ff1697c493715653c6c712144292c5adzz" = true /\
  verifySignature "" "b613679a0814d9ec772f95d778c35fc5ff1697c493715653c6c712144292c5adzz" "" = true.
Proof. split; [|split]; vm_compute; reflexivity. Qed.

(** C3 (amended): [verifySignature] accepts the hexadecimal rendering of
    the HMAC-SHA256 of the payload under the secret. It accepts a text
    exactly when the text decodes to that HMAC: a text of the signature's
    length is accepted exactly when it is the signature up to the case of
    its digits, so a change of one character of the signature is rejected
    unless it only changes the case of a digit; after a change of the
    payload or of the secret the signature is rejected exactly when the HMAC
    of the changed pair is another one. *)
Theorem verifySignature_of_sign (payload secret : string) :
  verifySignature payload (sign payload secret) secret = true /\
  (forall s', verifySignature payload s' secret = true
              <-> Buffer_from_hex s' = hmac_sha256 secret payload) /\
  (forall s', String.length s' = 64%nat ->
              (verifySignature payload s' secret = true
               <-> Js.toLowerCase s' = sign payload secret)) /\
  (forall s', Js.one_byte_changed (sign payload secret) s' = true ->
              Js.toLowerCase s' <> sign payload secret ->
              verifySignature payload s' secret = false) /\
  (forall payload', verifySignature payload' (sign payload secret) secret = true
                    <-> hmac_sha256 secret payload' = hmac_sha256 secret payload) /\
  (forall secret', verifySignature payload (sign payload secret) secret' = true
                   <-> hmac_sha256 secret' payload = hmac_sha256 secret payload).
Proof.
  split; [apply verifySignature_sign|].
  split; [intros s'; apply verifySignature_iff|].
  split; [intros s'; apply verifySignature_same_length|].
  split.
  - intros s' C N. unfold Js.one_byte_changed in C. apply andb_prop in C as [L _].
    apply Nat.eqb_eq in L. rewrite sign_length in L.
    destruct (verifySignature payload s' secret) eqn:V; [|reflexivity].
    apply (verifySignature_same_length payload secret s' (eq_sym L)) in V. contradiction.
  - split; intros x; rewrite verifySignature_iff; unfold sign;
      rewrite Buffer_from_hex_toString_hex; split; congruence.
Qed.

Lemma verifySignature_of_sign_witness :
  verifySignature "{}" (sign "{}" "whsec") "whsec" = true /\
  verifySignature "{}" "ae6341ea7f40a435db57d903d02cba19085efb8a913f8cfbd8cff3d7df0c7a2e" "whsec" = false /\
  verifySignature "{ }" (sign "{}" "whsec") "whsec" = false /\
  verifySignature "{}" (sign "{}" "whsec") "whsed" = false.
Proof.
  destruct (verifySignature_of_sign "{}" "whsec") as (A & _ & _ & B & C & D).
  split; [exact A|]. split; [|split].
  - apply B; vm_compute; [reflexivity | discriminate].
  - assert (N : hmac_sha256 "whsec" "{ }" <> hmac_sha256 "whsec" "{}")
      by (vm_compute; discriminate).
    apply not_true_is_false. intros V. apply N, C, V.
  - assert (N : hmac_sha256 "whsed" "{}" <> hmac_sha256 "whsec" "{}")
      by (vm_compute; discriminate).
    apply not_true_is_false. intros V. apply N, D, V.
Defined.

(** C3, as stated, fails on the signature: one character of the accepted
    signature changed, a digit b written B, and the text is still accepted. *)
Lemma verifySignature_accepts_other_case :
  sign "" "" = "b613679a0814d9ec772f95d778c35fc5ff1697c493715653c6c712144292c5ad" /\
  Js.one_byte_changed "b613679a0814d9ec772f95d778c35fc5ff1697c493715653c6c712144292c5ad"
                      "B613679a0814d9ec772f95d778c35fc5ff1697c493715653c6c712144292c5ad" = true /\
  verifySignature "" "B613679a0814d9ec772f95d778c35fc5ff1697c493715653c6c712144292c5ad" "" = true.
Proof. split; [|split]; vm_compute; reflexivity. Qed.

(** [verifySignature] never throws: whatever the three texts, its [try]
    block runs to a result, which is what the function returns. *)
Theorem verifySignature_never_throws (payload signature secret : string) :
  exists b,
    verifySignature_try payload signature secret = Some b /\
    verifySignature payload signature secret = b.
Proof.
  exists (verifySignature payload signature secret).
  split; [apply verifySignature_try_completes | reflexivity].
Qed.

(** ** The session map *)

Import Json Server.

Lemma JsMap_get_set_eq {V} (k : string) (v : V) (m : JsMap.t V) :
  JsMap.get k (JsMap.set k v m) = Some v.
Proof.
  induction m as [|[k' v'] m IH]; cbn [JsMap.set JsMap.get].
  - now rewrite String.eqb_refl.
  - destruct (String.eqb k k') eqn:E; cbn [JsMap.get]; rewrite ?String.eqb_refl, ?E; auto.
Qed.

Lemma JsMap_get_set_ne {V} (k k' : string) (v : V) (m : JsMap.t V) :
  k <> k' -> JsMap.get k' (JsMap.set k v m) = JsMap.get k' m.
Proof.
  intros N. induction m as [|[k0 v0] m IH]; cbn [JsMap.set JsMap.get].
  - apply not_eq_sym in N. apply String.eqb_neq in N. now rewrite N.
  - destruct (String.eqb k k0) eqn:E; cbn [JsMap.get].
    + apply String.eqb_eq in E. subst k0.
      apply not_eq_sym in N. apply String.eqb_neq in N. now rewrite N.
    + now rewrite IH.
Qed.

Lemma JsMap_set_fresh {V} (k : string) (v : V) (m : JsMap.t V) :
  JsMap.get k m = None -> JsMap.set k v m = (m ++ [(k, v)])%list.
Proof.
  induction m as [|[k' v'] m IH]; cbn [JsMap.set JsMap.get app]; [reflexivity|].
  destruct (String.eqb k k'); [discriminate|]. intros H. now rewrite IH.
Qed.

Lemma JsMap_keys_set {V} (k : string) (v : V) (m : JsMap.t V) :
  map fst (JsMap.set k v m) =
    match JsMap.get k m with
    | Some _ => map fst m
    | None => (map fst m ++ [k])%list
    end.
Proof.
  induction m as [|[k' v'] m IH]; cbn [JsMap.set JsMap.get map fst app]; [reflexivity|].
  destruct (String.eqb k k') eqn:E.
  - apply String.eqb_eq in E. now subst.
  - cbn [map fst]. rewrite IH. now destruct (JsMap.get k m).
Qed.

Lemma JsMap_get_None_keys {V} (k : string) (m : JsMap.t V) :
  JsMap.get k m = None -> ~ In k (map fst m).
Proof.
  induction m as [|[k' v'] m IH]; cbn [JsMap.get map fst In]; [tauto|].
  destruct (String.eqb k k') eqn:E; [discriminate|].
  apply String.eqb_neq in E. intros G [H | H]; [congruence | now apply IH].
Qed.

(** ** Bearers and the sessions they resolve to *)

Lemma nonempty_true (t : string) : t <> "" -> Js.nonempty t = true.
Proof. destruct t; [congruence | reflexivity]. Qed.

Lemma getDemoSession_unresolved (req : Request) (m : Machine) :
  extractBearer req = None \/
  (exists t, extractBearer req = Some t /\ JsMap.get t (demoSessions m) = None) ->
  getDemoSession req m = None.
Proof.
  unfold getDemoSession. intros [-> | (t & -> & ->)]; [reflexivity|].
  now destruct (Js.nonempty t).
Qed.

Lemma getDemoSession_resolved (req : Request) (m : Machine) (t : string) (s : DemoSession.t) :
  getDemoSession req m = Some (t, s) ->
  extractBearer req = Some t /\ JsMap.get t (demoSessions m) = Some s.
Proof.
  unfold getDemoSession.
  destruct (extractBearer req) as [t'|]; [|discriminate].
  destruct (Js.nonempty t'); [|discriminate].
  destruct (JsMap.get t' (demoSessions m)) eqn:E; [|discriminate].
  intros [= <- <-]. auto.
Qed.

Lemma getDemoSession_of_bearer (req : Request) (m : Machine) (t : string) (s : DemoSession.t) :
  extractBearer req = Some t -> t <> "" -> JsMap.get t (demoSessions m) = Some s ->
  getDemoSession req m = Some (t, s).
Proof.
  intros B N G. unfold getDemoSession. now rewrite B, (nonempty_true t N), G.
Qed.

(** ** UUID texts and key previews *)

Lemma lower_hex_not_dash (c : ascii) : Uuid.is_lower_hex c = true -> Ascii.eqb c "-" = false.
Proof. destruct c as [[] [] [] [] [] [] [] []]; vm_compute; congruence. Qed.

Lemma shaped_strip (pat : string) :
  forall u, Uuid.shaped pat u = true ->
            Uuid.all_lower_hex (Js.strip_dashes u) = true /\
            String.length (Js.strip_dashes u) = Uuid.digits_of pat.
Proof.
  induction pat as [|p pat IH]; intros [|c u]; cbn [Uuid.shaped]; try discriminate.
  - auto.
  - intros H. apply andb_prop in H as [Hc Hu]. destruct (IH u Hu) as [Ih Il].
    cbn [Js.strip_dashes Uuid.digits_of]. destruct (Ascii.eqb p "-").
    + rewrite Hc. auto.
    + rewrite (lower_hex_not_dash c Hc). cbn [Uuid.all_lower_hex String.length].
      rewrite Hc, Ih, Il. auto.
Qed.

(** Removing the dashes loses nothing: two texts of one shape with the same
    digits are the same text. *)
Lemma shaped_strip_inj (pat : string) :
  forall u v, Uuid.shaped pat u = true -> Uuid.shaped pat v = true ->
              Js.strip_dashes u = Js.strip_dashes v -> u = v.
Proof.
  induction pat as [|p pat IH]; intros [|c u] [|d v]; cbn [Uuid.shaped]; try discriminate.
  - reflexivity.
  - intros Hu Hv. apply andb_prop in Hu as [Hc Hu]. apply andb_prop in Hv as [Hd Hv].
    cbn [Js.strip_dashes]. destruct (Ascii.eqb p "-").
    + rewrite Hc, Hd. apply Ascii.eqb_eq in Hc, Hd. subst c d.
      intros E. f_equal. now apply IH.
    + rewrite (lower_hex_not_dash c Hc), (lower_hex_not_dash d Hd).
      intros [= -> E]. f_equal. now apply IH.
Qed.

Lemma is_uuid_strip (u : string) :
  Uuid.is_uuid u = true ->
  Uuid.all_lower_hex (Js.strip_dashes u) = true /\ String.length (Js.strip_dashes u) = 32%nat.
Proof. intros H. exact (shaped_strip _ u H). Qed.

Lemma is_uuid_strip_inj (u v : string) :
  Uuid.is_uuid u = true -> Uuid.is_uuid v = true ->
  Js.strip_dashes u = Js.strip_dashes v -> u = v.
Proof. apply shaped_strip_inj. Qed.

Lemma slice0_length (n : nat) (s : string) :
  String.length (Js.slice0 n s) = Nat.min n (String.length s).
Proof.
  revert s. induction n as [|n IH]; intros [|c s]; cbn [Js.slice0 String.length Nat.min]; auto.
Qed.

Lemma slice0_startsWith (n : nat) (s : string) : Js.startsWith (Js.slice0 n s) s = true.
Proof.
  revert s. induction n as [|n IH]; intros [|c s]; cbn [Js.slice0 Js.startsWith]; auto.
  now rewrite Ascii.eqb_refl.
Qed.

Lemma append_length (a b : string) :
  String.length (a ++ b) = (String.length a + String.length b)%nat.
Proof. induction a as [|c a IH]; cbn [append String.length]; [reflexivity | now rewrite IH]. Qed.

(** ** What the handlers compute *)

Lemma opt_get_get (o : json) (k : string) : opt_get o k = get o k.
Proof. now destruct o. Qed.

Lemma sendError_axios (response : option (Z * json)) (message : string) :
  sendError (AxiosError response message) =
    match response with
    | Some (st, JNull) => {| status := st; payload := JObj [("error", JStr message)] |}
    | Some (st, d) => {| status := st; payload := d |}
    | None => {| status := 502; payload := JObj [("error", JStr message)] |}
    end.
Proof. destruct response as [[st []]|]; reflexivity. Qed.

Lemma keep_key_run (data : json) (k : string) (m : Machine) :
  keep_key data k m =
    (Normal tt,
     if truthy (opt_get data k)
     then with_prodState (set_apiKey (json_of (opt_get data k))) m
     else m).
Proof. unfold keep_key. now destruct (truthy _). Qed.

(** The slot after [if (data?.k) prodState.apiKey = data.k]. *)
Lemma kept_key (data : json) (k : string) (m : Machine) :
  (forall v, opt_get data k = Some v -> truthy (Some v) = true ->
             ProdState.apiKey (prodState (snd (keep_key data k m))) = v) /\
  (truthy (opt_get data k) = false -> snd (keep_key data k m) = m) /\
  ProdState.jwt (prodState (snd (keep_key data k m))) = ProdState.jwt (prodState m) /\
  demoSessions (snd (keep_key data k m)) = demoSessions m /\
  wire (snd (keep_key data k m)) = wire m.
Proof.
  rewrite keep_key_run. cbn [snd]. repeat split.
  - intros v E T. rewrite E, T. reflexivity.
  - now intros ->.
  - now destruct (truthy _).
  - now destruct (truthy _).
  - now destruct (truthy _).
Qed.

Section Handlers.
Variable W : World.

Lemma forward_token (req : Request) (t : string) :
  carries_token req t ->
  coalesce (get (body req) "jwt") (null_or_str (extractBearer req)) = JStr t.
Proof.
  intros [-> | [[-> | ->] ->]]; reflexivity.
Qed.

Lemma post_auth_forward_token (m : Machine) (req : Request) (t : string) :
  carries_token req t -> t <> "" ->
  post_auth_forward W req m =
    (Normal (ok (JObj [("ok", JBool true);
                       ("mode", JStr (mode_name W));
                       ("message", JStr (if IS_SANDBOX (process_env W)
                          then "JWT stored in legacy state. For the full demo flow, use POST /auth/login."
                          else "JWT stored. Call POST /api-keys/create next."))])),
     with_prodState (set_jwt (JStr t)) m).
Proof.
  intros C N. unfold post_auth_forward.
  rewrite (forward_token req t C). cbn [truthy]. rewrite (nonempty_true t N). reflexivity.
Qed.

Section Sandbox.
Hypothesis sandbox_mode : IS_SANDBOX (process_env W) = true.

Lemma post_auth_login_sandbox (m : Machine) (req : Request) (v : json) :
  get (body req) "email" = Some v -> truthy (Some v) = true ->
  let token := uuid_at W (draws m) in
  let session :=
    {| DemoSession.token := token; DemoSession.email := v; DemoSession.apiKey := None;
       DemoSession.checkouts := []; DemoSession.webhooks := [];
       DemoSession.createdAt := iso_string W (clock_at W (ticks m)) |} in
  post_auth_login W req m =
    (Normal (ok (JObj [("ok", JBool true);
                       ("token", JStr token);
                       ("email", v);
                       ("mode", JStr "sandbox");
                       ("message", JStr "Demo session created. Pass token as: Authorization: Bearer <token>");
                       ("warning", JStr "Sandbox session only. No real authentication occurred.")])),
     {| demoSessions := JsMap.set token session (demoSessions m);
        prodState := prodState m;
        draws := S (draws m);
        ticks := S (ticks m);
        wire := wire m |}).
Proof.
  intros E T. unfold post_auth_login. rewrite sandbox_mode, E, T. reflexivity.
Qed.

Lemma post_auth_login_rejects (m : Machine) (req : Request) :
  truthy (get (body req) "email") = false ->
  post_auth_login W req m =
    (Normal {| status := 400; payload := JObj [("error", JStr "Provide email in request body.")] |}, m).
Proof.
  intros T. unfold post_auth_login. rewrite sandbox_mode, T. reflexivity.
Qed.

Lemma post_api_keys_create_sandbox (m : Machine) (req : Request)
      (t : string) (s0 : DemoSession.t) :
  getDemoSession req m = Some (t, s0) ->
  let key := "pk_demo_" ++ Js.strip_dashes (uuid_at W (draws m)) in
  post_api_keys_create W req m =
    (Normal (ok (JObj [("ok", JBool true);
                       ("key", JStr key);
                       ("mode", JStr "sandbox");
                       ("session", DemoSession.email s0);
                       ("warning", JStr "Demo API key — stored in memory only. Not valid for real transactions.")])),
     {| demoSessions := JsMap.set t (session_with_apiKey key s0) (demoSessions m);
        prodState := prodState m;
        draws := S (draws m);
        ticks := ticks m;
        wire := wire m |}).
Proof.
  intros G. unfold post_api_keys_create. rewrite sandbox_mode.
  unfold bind at 1. unfold requireDemoSession. rewrite G. reflexivity.
Qed.

Lemma post_api_keys_rotate_sandbox (m : Machine) (req : Request)
      (t : string) (s0 : DemoSession.t) :
  getDemoSession req m = Some (t, s0) ->
  let newKey := "pk_demo_" ++ Js.strip_dashes (uuid_at W (draws m)) in
  post_api_keys_rotate W req m =
    (Normal (ok (JObj [("ok", JBool true);
                       ("key", JStr newKey);
                       ("rotated", JBool true);
                       ("old_key", preview (DemoSession.apiKey s0));
                       ("mode", JStr "sandbox");
                       ("warning", JStr "Demo key rotation. No real keys were affected.")])),
     {| demoSessions := JsMap.set t (session_with_apiKey newKey s0) (demoSessions m);
        prodState := prodState m;
        draws := S (draws m);
        ticks := ticks m;
        wire := wire m |}).
Proof.
  intros G. unfold post_api_keys_rotate. rewrite sandbox_mode.
  unfold bind at 1. unfold requireDemoSession. rewrite G. reflexivity.
Qed.

Lemma post_checkout_demo_sandbox (m : Machine) (req : Request)
      (t : string) (s0 : DemoSession.t) (c : string) :
  getDemoSession req m = Some (t, s0) ->
  coalesce (get (body req) "currency") (JStr "usd") = JStr c ->
  let amount := coalesce (get (body req) "amount") (JNum 4900) in
  let now := iso_string W (clock_at W (ticks m)) in
  let id := "cs_demo_" ++ Js.strip_dashes (uuid_at W (draws m)) in
  post_checkout_demo W req m =
    (Normal (ok (JObj
       [("id", JStr id);
        ("object", JStr "checkout_session");
        ("amount", amount);
        ("currency", JStr (Js.toLowerCase c));
        ("status", JStr "pending");
        ("created_at", JStr now);
        ("expires_at", JStr (iso_string W (clock_at W (S (ticks m)) + 30 * 60 * 1000)));
        ("merchant", DemoSession.email s0);
        ("api_key", preview (DemoSession.apiKey s0));
        ("payment_url", JStr ("https://checkout.paynexus.demo/" ++ uuid_at W (S (draws m))));
        ("metadata", coalesce (get (body req) "metadata") (JObj []));
        ("mode", JStr "sandbox")])),
     {| demoSessions :=
          JsMap.set t
            (session_push_checkout
               {| DemoCheckout.id := id; DemoCheckout.amount := amount;
                  DemoCheckout.currency := Js.toLowerCase c; DemoCheckout.status := "pending";
                  DemoCheckout.createdAt := now |} s0)
            (demoSessions m);
        prodState := prodState m;
        draws := S (S (draws m));
        ticks := S (S (ticks m));
        wire := wire m |}).
Proof.
  intros G C. unfold post_checkout_demo. rewrite sandbox_mode.
  unfold bind at 1. unfold requireDemoSession. rewrite G.
  unfold currency_of. rewrite C. reflexivity.
Qed.

(** Any other currency makes [toLowerCase] fail, before anything is written. *)
Lemma post_checkout_demo_throws (m : Machine) (req : Request)
      (t : string) (s0 : DemoSession.t) :
  getDemoSession req m = Some (t, s0) ->
  (forall c, coalesce (get (body req) "currency") (JStr "usd") <> JStr c) ->
  post_checkout_demo W req m = (Throws (OtherError "toLowerCase is not a function"), m).
Proof.
  intros G C. unfold post_checkout_demo. rewrite sandbox_mode.
  unfold bind at 1. unfold requireDemoSession. rewrite G.
  unfold currency_of.
  destruct (coalesce (get (body req) "currency") (JStr "usd")) eqn:E; try reflexivity.
  now destruct (C s).
Qed.

Lemma post_webhooks_create_sandbox (m : Machine) (req : Request)
      (t : string) (s0 : DemoSession.t) :
  getDemoSession req m = Some (t, s0) ->
  let now := iso_string W (clock_at W (ticks m)) in
  let id := "wh_demo_" ++ Js.strip_dashes (uuid_at W (draws m)) in
  let url := coalesce (get (body req) "url") (JStr "https://webhook.site/demo") in
  let events := coalesce (get (body req) "events") default_events in
  post_webhooks_create W req m =
    (Normal (ok (JObj [("id", JStr id);
                       ("url", url);
                       ("events", events);
                       ("status", JStr "active");
                       ("created_at", JStr now);
                       ("mode", JStr "sandbox")])),
     {| demoSessions :=
          JsMap.set t
            (session_push_webhook
               {| DemoWebhook.id := id; DemoWebhook.url := url;
                  DemoWebhook.events := events; DemoWebhook.createdAt := now |} s0)
            (demoSessions m);
        prodState := prodState m;
        draws := S (draws m);
        ticks := S (ticks m);
        wire := wire m |}).
Proof.
  intros G. unfold post_webhooks_create. rewrite sandbox_mode.
  unfold bind at 1. unfold requireDemoSession. rewrite G. reflexivity.
Qed.

(** Without a session every mutating route stops at the 401. *)
Lemma mutation_without_session (m : Machine) (req : Request) (r : route) :
  getDemoSession req m = None ->
  In r [POST_api_keys_create; POST_api_keys_rotate; POST_checkout_demo; POST_webhooks_create] ->
  app W r req m = (Normal unauthorized, m).
Proof.
  intros U R. cbn [In] in R.
  destruct R as [<- | [<- | [<- | [<- | []]]]]; cbn [app];
    unfold post_api_keys_create, post_api_keys_rotate, post_checkout_demo, post_webhooks_create;
    rewrite sandbox_mode; unfold bind, requireDemoSession; rewrite U; reflexivity.
Qed.

End Sandbox.

Section Production.
Hypothesis production_mode : IS_SANDBOX (process_env W) = false.

Lemma post_api_keys_rotate_production (m : Machine) (req : Request) :
  post_api_keys_rotate W req m =
    match axios_post W (List.length (wire m)) (rotate_call W req m) with
    | Normal d => (Normal (ok d), snd (keep_key d "raw_key" (called [rotate_call W req m] m)))
    | Throws e => (Normal (sendError e), called [rotate_call W req m] m)
    end.
Proof.
  unfold post_api_keys_rotate. rewrite production_mode.
  unfold try_catch, bind, read, backendPost, rotate_call, called.
  destruct (axios_post W _ _) as [d|e]; [|reflexivity].
  rewrite !keep_key_run. reflexivity.
Qed.

Lemma post_api_keys_create_production (m : Machine) (req : Request) :
  post_api_keys_create W req m =
    match axios_post W (List.length (wire m)) (create_primary_call W req m) with
    | Normal d =>
        (Normal (ok d), snd (keep_key d "raw_key" (called [create_primary_call W req m] m)))
    | Throws _ =>
        match axios_post W (S (List.length (wire m))) (create_legacy_call W req) with
        | Normal d2 =>
            (Normal (ok d2),
             snd (keep_key d2 "key" (called [create_primary_call W req m; create_legacy_call W req] m)))
        | Throws e2 =>
            (Normal (sendError e2),
             called [create_primary_call W req m; create_legacy_call W req] m)
        end
    end.
Proof.
  unfold post_api_keys_create. rewrite production_mode.
  unfold try_catch, bind, read, backendPost, create_primary_call, create_legacy_call, called.
  cbn [wire demoSessions prodState draws ticks].
  destruct (axios_post W (List.length (wire m)) _) as [d|e].
  - rewrite !keep_key_run. reflexivity.
  - cbn [wire demoSessions prodState draws ticks].
    rewrite length_app, Nat.add_1_r. cbn [List.length].
    change (authHeaders JNull) with (@nil header).
    destruct (axios_post W (S (List.length (wire m))) _) as [d2|e2].
    + rewrite !keep_key_run. rewrite <- app_assoc. reflexivity.
    + rewrite <- app_assoc. reflexivity.
Qed.

Lemma post_checkout_demo_production (m : Machine) (req : Request) :
  post_checkout_demo W req m =
    match axios_post W (List.length (wire m)) (checkout_primary_call W req m) with
    | Normal d => (Normal (ok d), called [checkout_primary_call W req m] m)
    | Throws _ =>
        (match axios_post W (S (List.length (wire m))) (checkout_legacy_call W req) with
         | Normal d2 => Normal (ok d2)
         | Throws e2 => Normal (sendError e2)
         end,
         called [checkout_primary_call W req m; checkout_legacy_call W req] m)
    end.
Proof.
  unfold post_checkout_demo. rewrite production_mode.
  unfold try_catch, bind, read, backendPost, checkout_primary_call, checkout_legacy_call,
    checkout_body, called.
  cbn [wire demoSessions prodState draws ticks].
  destruct (axios_post W (List.length (wire m)) _) as [d|e]; [reflexivity|].
  cbn [wire demoSessions prodState draws ticks].
  rewrite length_app, Nat.add_1_r. cbn [List.length].
  change (authHeaders JNull) with (@nil header).
  destruct (axios_post W (S (List.length (wire m))) _) as [d2|e2];
    rewrite <- app_assoc; reflexivity.
Qed.

Lemma post_webhooks_create_production (m : Machine) (req : Request) :
  demoSessions (snd (post_webhooks_create W req m)) = demoSessions m /\
  draws (snd (post_webhooks_create W req m)) = draws m.
Proof.
  unfold post_webhooks_create. rewrite production_mode.
  unfold try_catch, bind, read, backendPost.
  destruct (axios_post W _ _); split; reflexivity.
Qed.

End Production.
End Handlers.

(** ** What a request can do to the registry *)

Ltac unchanged := cbn [snd fst demoSessions draws called with_prodState]; auto.

(** The step of a route that writes the session it resolved. *)
Ltac stored_under G :=
  apply getDemoSession_resolved in G as [_ G];
  cbn [snd demoSessions draws];
  split; [lia|]; right; do 2 eexists; split; [reflexivity|]; split; [lia|];
  right; eexists; split; [exact G|]; split; [reflexivity|].

Ltac in_routes := cbn [In]; tauto.

Lemma step_registry (W : World) (r : route) (req : Request) (m : Machine) :
  (draws m <= draws (snd (app W r req m)))%nat /\
  (demoSessions (snd (app W r req m)) = demoSessions m \/
   exists t s,
     demoSessions (snd (app W r req m)) = JsMap.set t s (demoSessions m) /\
     (draws m < draws (snd (app W r req m)))%nat /\
     ((t = uuid_at W (draws m) /\ DemoSession.apiKey s = None /\ DemoSession.token s = t) \/
      exists s0, JsMap.get t (demoSessions m) = Some s0 /\
                 DemoSession.token s = DemoSession.token s0 /\
                 (DemoSession.apiKey s = DemoSession.apiKey s0 \/
                  DemoSession.apiKey s = Some ("pk_demo_" ++ Js.strip_dashes (uuid_at W (draws m)))))).
Proof.
  destruct (IS_SANDBOX (process_env W)) eqn:Mode;
    [destruct (getDemoSession req m) as [[t s0]|] eqn:G |]; destruct r;
    try (rewrite (mutation_without_session W Mode m req _ G) by in_routes; unchanged);
    cbn [app].
  (* sandbox, the bearer resolves *)
  - unfold get_health, bind, read, ret. unchanged.
  - destruct (truthy (get (body req) "email")) eqn:T.
    + destruct (get (body req) "email") as [v|] eqn:E; [|discriminate].
      rewrite (post_auth_login_sandbox W Mode m req v E T). cbn [snd demoSessions draws].
      split; [lia|]. right. do 2 eexists. split; [reflexivity|]. split; [lia|]. left. auto.
    + rewrite (post_auth_login_rejects W Mode m req T). unchanged.
  - unfold post_auth_forward. destruct (truthy _); cbn; auto.
  - rewrite (post_api_keys_create_sandbox W Mode m req t s0 G).
    stored_under G. right. reflexivity.
  - rewrite (post_api_keys_rotate_sandbox W Mode m req t s0 G).
    stored_under G. right. reflexivity.
  - assert (D : (exists c, coalesce (get (body req) "currency") (JStr "usd") = JStr c) \/
                (forall c, coalesce (get (body req) "currency") (JStr "usd") <> JStr c)).
    { destruct (coalesce (get (body req) "currency") (JStr "usd"));
        try (right; discriminate). left. eauto. }
    destruct D as [[c C] | C].
    + rewrite (post_checkout_demo_sandbox W Mode m req t s0 c G C).
      stored_under G. left. reflexivity.
    + rewrite (post_checkout_demo_throws W Mode m req t s0 G C). unchanged.
  - rewrite (post_webhooks_create_sandbox W Mode m req t s0 G).
    stored_under G. left. reflexivity.
  - unfold get_session. rewrite Mode. cbn [negb]. unfold bind, requireDemoSession. rewrite G. unchanged.
  - unfold get_sessions. rewrite Mode. cbn [negb]. unfold bind, read, ret. unchanged.
  (* sandbox, the bearer does not resolve *)
  - unfold get_health, bind, read, ret. unchanged.
  - destruct (truthy (get (body req) "email")) eqn:T.
    + destruct (get (body req) "email") as [v|] eqn:E; [|discriminate].
      rewrite (post_auth_login_sandbox W Mode m req v E T). cbn [snd demoSessions draws].
      split; [lia|]. right. do 2 eexists. split; [reflexivity|]. split; [lia|]. left. auto.
    + rewrite (post_auth_login_rejects W Mode m req T). unchanged.
  - unfold post_auth_forward. destruct (truthy _); cbn; auto.
  - unfold get_session. rewrite Mode. cbn [negb]. unfold bind, requireDemoSession. rewrite G. unchanged.
  - unfold get_sessions. rewrite Mode. cbn [negb]. unfold bind, read, ret. unchanged.
  (* production *)
  - unfold get_health, bind, read, ret. unchanged.
  - unfold post_auth_login. rewrite Mode. unchanged.
  - unfold post_auth_forward. destruct (truthy _); cbn; auto.
  - rewrite (post_api_keys_create_production W Mode m req).
    repeat (destruct (axios_post W _ _)); rewrite ?keep_key_run;
      try destruct (truthy _); unchanged.
  - rewrite (post_api_keys_rotate_production W Mode m req).
    destruct (axios_post W _ _); rewrite ?keep_key_run; try destruct (truthy _); unchanged.
  - rewrite (post_checkout_demo_production W Mode m req).
    destruct (axios_post W _ _); unchanged.
  - destruct (post_webhooks_create_production W Mode m req) as [-> ->]. auto.
  - unfold get_session. rewrite Mode. unchanged.
  - unfold get_sessions. rewrite Mode. unchanged.
Qed.

Lemma step_issued (W : World) (r : route) (req : Request) (m : Machine) :
  issued W m -> issued W (snd (app W r req m)).
Proof.
  intros I. destruct (step_registry W r req m) as [D [E | (t & s & E & D' & K)]];
    unfold issued; rewrite E; intros t' s' G.
  - destruct (I t' s' G) as [(j & Hj & ->) Hk]. split.
    + exists j. split; [lia | reflexivity].
    + intros k Hs. destruct (Hk k Hs) as (j' & Hj' & ->). exists j'. split; [lia | reflexivity].
  - destruct (string_dec t t') as [<- | N].
    + rewrite JsMap_get_set_eq in G. injection G as <-.
      destruct K as [(-> & Ks & _) | (s0 & G0 & _ & Ks)].
      * split; [exists (draws m); split; [lia | reflexivity]|].
        intros k Hk. congruence.
      * destruct (I t s0 G0) as [(j & Hj & ->) Hk]. split.
        -- exists j. split; [lia | reflexivity].
        -- intros k Hs. destruct Ks as [Ks | Ks]; rewrite Ks in Hs.
           ++ destruct (Hk k Hs) as (j' & Hj' & ->). exists j'. split; [lia | reflexivity].
           ++ injection Hs as <-. exists (draws m). split; [lia | reflexivity].
    + rewrite (JsMap_get_set_ne t t' s _ N) in G.
      destruct (I t' s' G) as [(j & Hj & ->) Hk]. split.
      * exists j. split; [lia | reflexivity].
      * intros k Hs. destruct (Hk k Hs) as (j' & Hj' & ->). exists j'. split; [lia | reflexivity].
Qed.

(** Every state the process can be in keeps the registry as issued. *)
Lemma reachable_issued (W : World) (m : Machine) : reachable W m -> issued W m.
Proof.
  induction 1 as [| m r req _ IH].
  - intros t s G. discriminate.
  - now apply step_issued.
Qed.

(** A UUID that [randomUUID] has not returned before is not a token of
    the registry. *)
Lemma fresh_draw_not_issued (W : World) (m : Machine) :
  reachable W m ->
  (forall j, (j < draws m)%nat -> uuid_at W j <> uuid_at W (draws m)) ->
  JsMap.get (uuid_at W (draws m)) (demoSessions m) = None.
Proof.
  intros R F. apply reachable_issued in R.
  destruct (JsMap.get (uuid_at W (draws m)) (demoSessions m)) as [s|] eqn:G; [|reflexivity].
  destruct (R _ _ G) as [(j & Hj & E) _]. now destruct (F j Hj).
Qed.

Lemma step_well_keyed (W : World) (r : route) (req : Request) (m : Machine) :
  well_keyed m -> well_keyed (snd (app W r req m)).
Proof.
  intros [N T]. destruct (step_registry W r req m) as [_ [E | (t & s & E & _ & K)]];
    unfold well_keyed; rewrite E; [auto|].
  split.
  - rewrite JsMap_keys_set. destruct (JsMap.get t (demoSessions m)) eqn:G; [exact N|].
    apply NoDup_app; [exact N | repeat constructor; cbn; tauto |].
    intros x Hx [<- | []]. now apply (JsMap_get_None_keys _ _ G).
  - intros t' s' G. destruct (string_dec t t') as [<- | D].
    + rewrite JsMap_get_set_eq in G. injection G as <-.
      destruct K as [(_ & _ & Kt) | (s0 & G0 & Kt & _)]; [exact Kt|].
      rewrite Kt. now apply T.
    + rewrite (JsMap_get_set_ne t t' s _ D) in G. now apply T.
Qed.

(** ** The scenario states *)

Lemma scenario_uuids_are_uuids (k : nat) : Uuid.is_uuid (Scenario.uuids k) = true.
Proof. do 5 (destruct k as [|k]; [reflexivity|]). reflexivity. Qed.

Lemma scenario_with_key_reachable : reachable Scenario.sandbox Scenario.with_key.
Proof. unfold Scenario.with_key, Scenario.logged_in. repeat constructor. Qed.

Lemma scenario_third_draw_is_new (j : nat) :
  (j < draws Scenario.with_key)%nat ->
  uuid_at Scenario.sandbox j <> uuid_at Scenario.sandbox (draws Scenario.with_key).
Proof.
  change (draws Scenario.with_key) with 2%nat. intros Hj.
  destruct j as [|[|j]]; [discriminate | discriminate | lia].
Qed.

(** ** Sandbox mode *)

Section SandboxMode.
Variable W : World.
Hypothesis sandbox_mode : IS_SANDBOX (process_env W) = true.

(** C9: in sandbox mode each mutating handler answers a request whose bearer
    is missing or resolves to no stored session with the 401 response (an
    [error] and a [hint]), and leaves the whole machine, the session
    registry and both credential fields included, as it was. *)
Theorem sandbox_mutation_needs_session (m : Machine) (req : Request) :
  (extractBearer req = None \/
   exists t, extractBearer req = Some t /\ JsMap.get t (demoSessions m) = None) ->
  forall r, In r [POST_api_keys_create; POST_api_keys_rotate; POST_checkout_demo; POST_webhooks_create] ->
  exists e h,
    app W r req m =
      (Normal {| status := 401;
                 payload := JObj [("error", JStr e); ("hint", JStr h); ("mode", JStr "sandbox")] |},
       m).
Proof.
  intros U r R. apply getDemoSession_unresolved in U.
  do 2 eexists. exact (mutation_without_session W sandbox_mode m req r U R).
Qed.

(** C10: in sandbox mode POST /auth/forward with a token still writes that
    token to the [jwt] field of the production credential slot; the [apiKey]
    field and the session registry stay as they were. *)
Theorem forward_in_sandbox_stores_jwt (m : Machine) (req : Request) (t : string) :
  carries_token req t -> t <> "" ->
  exists r m',
    post_auth_forward W req m = (Normal r, m') /\
    status r = 200 /\
    get (payload r) "mode" = Some (JStr "sandbox") /\
    ProdState.jwt (prodState m') = JStr t /\
    ProdState.apiKey (prodState m') = ProdState.apiKey (prodState m) /\
    demoSessions m' = demoSessions m.
Proof.
  intros C N. do 2 eexists.
  rewrite (post_auth_forward_token W m req t C N).
  unfold mode_name. rewrite sandbox_mode.
  repeat split; reflexivity.
Qed.


(** C4: in sandbox mode POST /auth/login answers 400 when the email is
    absent (or null) or empty, and only then (in general: exactly when the
    email is falsy, which a string is when it is empty). For every non-empty
    email, whatever else the body holds, it draws a token, stores under it a
    new session with that email, no API key, no checkouts and no webhooks,
    keeps every session stored under another token and the credential slot,
    and returns the token. In a state the process can be in, [randomUUID]
    returning a value it has not returned before, no session of the registry
    was stored under that token, and the registry is the former one with the
    new session added at its end. *)
Theorem login_in_sandbox (m : Machine) (req : Request) :
  ((get (body req) "email" = None \/ get (body req) "email" = Some JNull \/
    get (body req) "email" = Some (JStr "")) ->
   exists e,
     post_auth_login W req m = (Normal {| status := 400; payload := JObj [("error", JStr e)] |}, m))
  /\
  (forall email, get (body req) "email" = Some (JStr email) -> email <> "" ->
   exists r m' token s,
     post_auth_login W req m = (Normal r, m') /\
     status r = 200 /\
     get (payload r) "token" = Some (JStr token) /\
     JsMap.get token (demoSessions m') = Some s /\
     (forall t', t' <> token -> JsMap.get t' (demoSessions m') = JsMap.get t' (demoSessions m)) /\
     DemoSession.token s = token /\
     DemoSession.email s = JStr email /\
     DemoSession.apiKey s = None /\
     DemoSession.checkouts s = [] /\
     DemoSession.webhooks s = [] /\
     prodState m' = prodState m /\
     (reachable W m ->
      (forall j, (j < draws m)%nat -> uuid_at W j <> uuid_at W (draws m)) ->
      JsMap.get token (demoSessions m) = None /\
      demoSessions m' = (demoSessions m ++ [(token, s)])%list))
  /\
  (exists r m',
     post_auth_login W req m = (Normal r, m') /\
     (status r = 400 <-> truthy (get (body req) "email") = false)).
Proof.
  split; [|split].
  - intros A. eexists. apply (post_auth_login_rejects W sandbox_mode).
    destruct A as [-> | [-> | ->]]; reflexivity.
  - intros email E N.
    eexists _, _, (uuid_at W (draws m)),
      {| DemoSession.token := uuid_at W (draws m); DemoSession.email := JStr email;
         DemoSession.apiKey := None; DemoSession.checkouts := []; DemoSession.webhooks := [];
         DemoSession.createdAt := iso_string W (clock_at W (ticks m)) |}.
    split; [exact (post_auth_login_sandbox W sandbox_mode m req (JStr email) E (nonempty_true email N))|].
    cbn [status payload ok demoSessions prodState].
    repeat match goal with |- _ /\ _ => split end; try reflexivity.
    + apply JsMap_get_set_eq.
    + intros t' N'. apply JsMap_get_set_ne. congruence.
    + intros R F. pose proof (fresh_draw_not_issued W m R F) as Fresh.
      split; [exact Fresh | now apply JsMap_set_fresh].
  - destruct (truthy (get (body req) "email")) eqn:T.
    + destruct (get (body req) "email") as [v|] eqn:E; [|discriminate].
      do 2 eexists. split; [exact (post_auth_login_sandbox W sandbox_mode m req v E T)|].
      cbn [status ok]. split; [lia | discriminate].
    + do 2 eexists. split; [exact (post_auth_login_rejects W sandbox_mode m req T)|].
      cbn [status]. tauto.
Qed.

(** C5 (amended): in sandbox mode, in a state the process can be in, with
    [randomUUID] returning UUIDs and now one it has not returned before,
    POST /api-keys/rotate on a session that holds a key stores a key
    different from it; the [old_key] of the response is the first 15
    characters of the prior key followed by three dots. Those 15 characters
    are a strict prefix of the prior key; [old_key] itself is never the
    prior key. *)
Theorem rotate_in_sandbox (m : Machine) (req : Request)
        (t : string) (s0 : DemoSession.t) (k : string) :
  reachable W m ->
  (forall j, (j <= draws m)%nat -> Uuid.is_uuid (uuid_at W j) = true) ->
  (forall j, (j < draws m)%nat -> uuid_at W j <> uuid_at W (draws m)) ->
  extractBearer req = Some t -> t <> "" -> JsMap.get t (demoSessions m) = Some s0 ->
  DemoSession.apiKey s0 = Some k ->
  exists r m' newKey,
    post_api_keys_rotate W req m = (Normal r, m') /\
    JsMap.get t (demoSessions m') = Some (session_with_apiKey newKey s0) /\
    get (payload r) "key" = Some (JStr newKey) /\
    newKey <> k /\
    get (payload r) "old_key" = Some (JStr (Js.slice0 15 k ++ "...")) /\
    Js.startsWith (Js.slice0 15 k) k = true /\
    Js.slice0 15 k <> k /\
    Js.slice0 15 k ++ "..." <> k.
Proof.
  intros R U F B N G K.
  pose proof (getDemoSession_of_bearer req m t s0 B N G) as D.
  destruct (reachable_issued W m R t s0 G) as [_ I].
  destruct (I k K) as (j & Hj & Ek).
  assert (Uj : Uuid.is_uuid (uuid_at W j) = true) by (apply U; lia).
  assert (Un : Uuid.is_uuid (uuid_at W (draws m)) = true) by (apply U; lia).
  assert (Lk : String.length k = 40%nat).
  { rewrite Ek, append_length. destruct (is_uuid_strip _ Uj) as [_ ->]. reflexivity. }
  assert (Ls : String.length (Js.slice0 15 k) = 15%nat) by (rewrite slice0_length, Lk; reflexivity).
  eexists _, _, ("pk_demo_" ++ Js.strip_dashes (uuid_at W (draws m))).
  split; [exact (post_api_keys_rotate_sandbox W sandbox_mode m req t s0 D)|].
  cbn [status payload ok demoSessions].
  repeat match goal with |- _ /\ _ => split end.
  - apply JsMap_get_set_eq.
  - reflexivity.
  - rewrite Ek. intros E. injection E as E.
    apply (is_uuid_strip_inj _ _ Un Uj) in E. exact (F j Hj (eq_sym E)).
  - rewrite K. unfold preview.
    destruct k as [|c k']; [discriminate Lk | reflexivity].
  - apply slice0_startsWith.
  - intros E. rewrite E, Lk in Ls. discriminate.
  - intros E. apply (f_equal String.length) in E.
    rewrite append_length, Ls, Lk in E. discriminate.
Qed.

(** In sandbox mode POST /api-keys/create for a resolved session returns a
    key pk_demo_ followed by 32 hexadecimal digits and stores it as the
    session's apiKey; the rest of the session, the other sessions and the
    credential slot are kept, and no backend call is made. *)
Theorem create_in_sandbox (m : Machine) (req : Request) (t : string) (s0 : DemoSession.t) :
  extractBearer req = Some t -> t <> "" -> JsMap.get t (demoSessions m) = Some s0 ->
  Uuid.is_uuid (uuid_at W (draws m)) = true ->
  exists r m' digits,
    post_api_keys_create W req m = (Normal r, m') /\
    status r = 200 /\
    get (payload r) "key" = Some (JStr ("pk_demo_" ++ digits)) /\
    Uuid.all_lower_hex digits = true /\ String.length digits = 32%nat /\
    JsMap.get t (demoSessions m') = Some (session_with_apiKey ("pk_demo_" ++ digits) s0) /\
    (forall t', t' <> t -> JsMap.get t' (demoSessions m') = JsMap.get t' (demoSessions m)) /\
    prodState m' = prodState m /\
    wire m' = wire m.
Proof.
  intros B N G U.
  pose proof (getDemoSession_of_bearer req m t s0 B N G) as R.
  destruct (is_uuid_strip _ U) as [Hx Hl].
  eexists _, _, (Js.strip_dashes (uuid_at W (draws m))).
  split; [exact (post_api_keys_create_sandbox W sandbox_mode m req t s0 R)|].
  cbn [status payload ok demoSessions prodState wire].
  repeat match goal with |- _ /\ _ => split end; try reflexivity; try assumption.
  - apply JsMap_get_set_eq.
  - intros t' N'. apply JsMap_get_set_ne. congruence.
Qed.

End SandboxMode.

Lemma sandbox_mutation_needs_session_witness :
  exists e h,
    app Scenario.sandbox POST_checkout_demo (Scenario.bearer "7b0c" (JObj [])) Scenario.with_key =
      (Normal {| status := 401;
                 payload := JObj [("error", JStr e); ("hint", JStr h); ("mode", JStr "sandbox")] |},
       Scenario.with_key).
Proof.
  apply (sandbox_mutation_needs_session Scenario.sandbox eq_refl).
  - right. exists "7b0c". split; reflexivity.
  - cbn. auto.
Defined.

Lemma forward_in_sandbox_stores_jwt_witness :
  exists r m',
    post_auth_forward Scenario.sandbox (Scenario.anonymous (JObj [("jwt", JStr "eyJhbGciOi.e30.c2ln")]))
      Scenario.with_key = (Normal r, m') /\
    status r = 200 /\
    get (payload r) "mode" = Some (JStr "sandbox") /\
    ProdState.jwt (prodState m') = JStr "eyJhbGciOi.e30.c2ln" /\
    ProdState.apiKey (prodState m') = ProdState.apiKey (prodState Scenario.with_key) /\
    demoSessions m' = demoSessions Scenario.with_key.
Proof.
  apply (forward_in_sandbox_stores_jwt Scenario.sandbox eq_refl);
    [left; reflexivity | discriminate].
Defined.



Lemma login_in_sandbox_witness :
  (exists e,
     post_auth_login Scenario.sandbox (Scenario.anonymous (JObj [("password", JStr "x")])) Scenario.with_key =
       (Normal {| status := 400; payload := JObj [("error", JStr e)] |}, Scenario.with_key))
  /\
  (exists r m' s,
     post_auth_login Scenario.sandbox (Scenario.anonymous (JObj [("email", JStr "ops@x.io")])) Scenario.with_key =
       (Normal r, m') /\
     get (payload r) "token" = Some (JStr (Scenario.uuids 2)) /\
     JsMap.get (Scenario.uuids 2) (demoSessions Scenario.with_key) = None /\
     demoSessions m' = (demoSessions Scenario.with_key ++ [(Scenario.uuids 2, s)])%list /\
     DemoSession.apiKey s = None /\ DemoSession.checkouts s = [] /\ DemoSession.webhooks s = []).
Proof.
  split.
  - apply (login_in_sandbox Scenario.sandbox eq_refl Scenario.with_key
             (Scenario.anonymous (JObj [("password", JStr "x")]))).
    left. reflexivity.
  - destruct (login_in_sandbox Scenario.sandbox eq_refl Scenario.with_key
                (Scenario.anonymous (JObj [("email", JStr "ops@x.io")])))
      as (_ & H & _).
    destruct (H "ops@x.io" eq_refl ltac:(discriminate))
      as (r & m' & token & s & E & _ & T & _ & _ & Ht & _ & Hk & Hc & Hw & _ & F).
    assert (token = Scenario.uuids 2) as ->.
    { pose proof (f_equal fst E) as E1. cbv in E1. injection E1 as <-.
      cbv in T. injection T as <-. reflexivity. }
    destruct (F scenario_with_key_reachable scenario_third_draw_is_new) as [Fresh Ext].
    exists r, m', s. repeat split; assumption.
Defined.

Lemma rotate_in_sandbox_witness :
  exists r m' newKey,
    post_api_keys_rotate Scenario.sandbox (Scenario.bearer Scenario.token0 (JObj [])) Scenario.with_key
      = (Normal r, m') /\
    JsMap.get Scenario.token0 (demoSessions m') = Some (session_with_apiKey newKey Scenario.session1) /\
    get (payload r) "key" = Some (JStr newKey) /\
    newKey <> Scenario.key1 /\
    get (payload r) "old_key" = Some (JStr (Js.slice0 15 Scenario.key1 ++ "...")) /\
    Js.startsWith (Js.slice0 15 Scenario.key1) Scenario.key1 = true /\
    Js.slice0 15 Scenario.key1 <> Scenario.key1 /\
    Js.slice0 15 Scenario.key1 ++ "..." <> Scenario.key1.
Proof.
  apply (rotate_in_sandbox Scenario.sandbox eq_refl Scenario.with_key
           (Scenario.bearer Scenario.token0 (JObj [])) Scenario.token0 Scenario.session1 Scenario.key1).
  - exact scenario_with_key_reachable.
  - intros j _. apply scenario_uuids_are_uuids.
  - exact scenario_third_draw_is_new.
  - reflexivity.
  - discriminate.
  - reflexivity.
  - reflexivity.
Defined.

(** C5, as stated, fails on the [old_key]: after a login and a key
    creation, rotation answers with an [old_key] that ends in three dots,
    which is no prefix of the key that was replaced. *)
Lemma rotate_old_key_is_no_prefix :
  JsMap.get Scenario.token0 (demoSessions Scenario.with_key) = Some Scenario.session1 /\
  DemoSession.apiKey Scenario.session1 = Some "pk_demo_11111111222243338444555555555555" /\
  fst (post_api_keys_rotate Scenario.sandbox (Scenario.bearer Scenario.token0 (JObj []))
         Scenario.with_key)
    = Normal (ok (JObj [("ok", JBool true);
                        ("key", JStr "pk_demo_a0b1c2d3e4f540618728394a5b6c7d8e");
                        ("rotated", JBool true);
                        ("old_key", JStr "pk_demo_1111111...");
                        ("mode", JStr "sandbox");
                        ("warning", JStr "Demo key rotation. No real keys were affected.")])) /\
  Js.startsWith "pk_demo_1111111..." "pk_demo_11111111222243338444555555555555" = false.
Proof. repeat split. Qed.

Lemma create_in_sandbox_witness :
  exists r m' digits,
    post_api_keys_create Scenario.sandbox (Scenario.bearer Scenario.token0 (JObj [])) Scenario.logged_in
      = (Normal r, m') /\
    status r = 200 /\
    get (payload r) "key" = Some (JStr ("pk_demo_" ++ digits)) /\
    Uuid.all_lower_hex digits = true /\ String.length digits = 32%nat /\
    JsMap.get Scenario.token0 (demoSessions m') =
      Some (session_with_apiKey ("pk_demo_" ++ digits)
              {| DemoSession.token := Scenario.token0; DemoSession.email := JStr "demo@x.io";
                 DemoSession.apiKey := None; DemoSession.checkouts := [];
                 DemoSession.webhooks := []; DemoSession.createdAt := "2026-01-01T00:00:00.000Z" |}) /\
    (forall t', t' <> Scenario.token0 ->
                JsMap.get t' (demoSessions m') = JsMap.get t' (demoSessions Scenario.logged_in)) /\
    prodState m' = prodState Scenario.logged_in /\
    wire m' = wire Scenario.logged_in.
Proof.
  apply (create_in_sandbox Scenario.sandbox eq_refl);
    [reflexivity | discriminate | reflexivity | reflexivity].
Defined.

(** ** Production mode *)

Section ProductionMode.
Variable W : World.
Hypothesis production_mode : IS_SANDBOX (process_env W) = false.

(** C1 (amended): in production mode, when the primary call to
    /v1/api-keys/create fails, whatever the failure, POST /api-keys/create
    makes exactly one more call, to the legacy route /api/keys/create with no
    Authorization header. When that call succeeds the response is its body,
    and the credential slot's apiKey becomes the body's [key] when that is a
    non-empty string; a body whose [key] is absent, null or empty leaves the
    slot as it was. When the legacy call fails too, the response is built
    from the legacy error, not from the primary one, and the slot is kept. *)
Theorem create_in_production_falls_back (m : Machine) (req : Request) (e1 : thrown) :
  axios_post W (List.length (wire m)) (create_primary_call W req m) = Throws e1 ->
  wire (snd (post_api_keys_create W req m)) =
    (wire m ++ [create_primary_call W req m; create_legacy_call W req])%list /\
  url (create_legacy_call W req) = BACKEND (process_env W) ++ "/api/keys/create" /\
  headers (create_legacy_call W req) = [] /\
  (forall d2,
     axios_post W (S (List.length (wire m))) (create_legacy_call W req) = Normal d2 ->
     fst (post_api_keys_create W req m) = Normal {| status := 200; payload := d2 |} /\
     (forall k, get d2 "key" = Some (JStr k) -> k <> "" ->
        ProdState.apiKey (prodState (snd (post_api_keys_create W req m))) = JStr k) /\
     (truthy (get d2 "key") = false ->
        prodState (snd (post_api_keys_create W req m)) = prodState m)) /\
  (forall e2,
     axios_post W (S (List.length (wire m))) (create_legacy_call W req) = Throws e2 ->
     fst (post_api_keys_create W req m) = Normal (sendError e2) /\
     prodState (snd (post_api_keys_create W req m)) = prodState m).
Proof.
  intros E1. rewrite (post_api_keys_create_production W production_mode m req), E1.
  split; [|split; [reflexivity|split; [reflexivity|split]]].
  - destruct (axios_post W (S _) _) as [d2|e2]; cbn [snd]; [|reflexivity].
    now destruct (kept_key d2 "key" (called [create_primary_call W req m; create_legacy_call W req] m))
      as (_ & _ & _ & _ & ->).
  - intros d2 H. rewrite H. cbn [fst snd].
    destruct (kept_key d2 "key" (called [create_primary_call W req m; create_legacy_call W req] m))
      as (K1 & K2 & _).
    split; [reflexivity|split].
    + intros k G N. apply K1; [now rewrite opt_get_get | cbn; now apply nonempty_true].
    + intros T. rewrite K2; [reflexivity | now rewrite opt_get_get].
  - intros e2 H. rewrite H. split; reflexivity.
Qed.

(** C7 (amended): in production mode POST /api-keys/rotate makes exactly
    one backend call, to /v1/api-keys/rotate, whatever comes back. On
    success the response is the reply, and the credential slot's apiKey
    becomes the reply's [raw_key] when that is a non-empty string; a reply
    whose [raw_key] is absent, null or empty leaves the slot as it was. On
    failure the response is [sendError] of the error and the slot is kept:
    for an AxiosError, the upstream status and body when there is a response
    (the synthetic {error: message} when the body is null), 502 and
    {error: message} when there is none. *)
Theorem rotate_in_production (m : Machine) (req : Request) :
  wire (snd (post_api_keys_rotate W req m)) = (wire m ++ [rotate_call W req m])%list /\
  url (rotate_call W req m) = BACKEND (process_env W) ++ "/v1/api-keys/rotate" /\
  (forall d,
     axios_post W (List.length (wire m)) (rotate_call W req m) = Normal d ->
     fst (post_api_keys_rotate W req m) = Normal {| status := 200; payload := d |} /\
     (forall k, get d "raw_key" = Some (JStr k) -> k <> "" ->
        ProdState.apiKey (prodState (snd (post_api_keys_rotate W req m))) = JStr k) /\
     (truthy (get d "raw_key") = false ->
        prodState (snd (post_api_keys_rotate W req m)) = prodState m)) /\
  (forall e,
     axios_post W (List.length (wire m)) (rotate_call W req m) = Throws e ->
     fst (post_api_keys_rotate W req m) = Normal (sendError e) /\
     prodState (snd (post_api_keys_rotate W req m)) = prodState m) /\
  (forall st d message,
     d <> JNull ->
     sendError (AxiosError (Some (st, d)) message) = {| status := st; payload := d |}) /\
  (forall st message,
     sendError (AxiosError (Some (st, JNull)) message) =
       {| status := st; payload := JObj [("error", JStr message)] |}) /\
  (forall message,
     sendError (AxiosError None message) =
       {| status := 502; payload := JObj [("error", JStr message)] |}).
Proof.
  rewrite (post_api_keys_rotate_production W production_mode m req).
  split; [|split; [reflexivity|split; [|split; [|split; [|split]]]]].
  - destruct (axios_post W _ _) as [d|e]; cbn [snd]; [|reflexivity].
    now destruct (kept_key d "raw_key" (called [rotate_call W req m] m)) as (_ & _ & _ & _ & ->).
  - intros d H. rewrite H. cbn [fst snd].
    destruct (kept_key d "raw_key" (called [rotate_call W req m] m)) as (K1 & K2 & _).
    split; [reflexivity|split].
    + intros k G N. apply K1; [now rewrite opt_get_get | cbn; now apply nonempty_true].
    + intros T. rewrite K2; [reflexivity | now rewrite opt_get_get].
  - intros e H. rewrite H. split; reflexivity.
  - intros st d message N. destruct d; try reflexivity. congruence.
  - reflexivity.
  - reflexivity.
Qed.

(** In production mode POST /checkout/demo, like key issuance, follows a
    failed call to /v1/checkout/create by exactly one call to the legacy
    route /api/checkout/create, with the same body and no Authorization
    header, and answers with the legacy reply, or with the legacy error when
    that call fails too; the credential slot is not written. *)
Theorem checkout_in_production_falls_back (m : Machine) (req : Request) (e1 : thrown) :
  axios_post W (List.length (wire m)) (checkout_primary_call W req m) = Throws e1 ->
  snd (post_checkout_demo W req m) =
    called [checkout_primary_call W req m; checkout_legacy_call W req] m /\
  headers (checkout_legacy_call W req) = [] /\
  data (checkout_legacy_call W req) = data (checkout_primary_call W req m) /\
  (forall d2,
     axios_post W (S (List.length (wire m))) (checkout_legacy_call W req) = Normal d2 ->
     fst (post_checkout_demo W req m) = Normal {| status := 200; payload := d2 |}) /\
  (forall e2,
     axios_post W (S (List.length (wire m))) (checkout_legacy_call W req) = Throws e2 ->
     fst (post_checkout_demo W req m) = Normal (sendError e2)).
Proof.
  intros E1. rewrite (post_checkout_demo_production W production_mode m req), E1. cbn [fst snd].
  repeat split; intros x H; now rewrite H.
Qed.

(** The production key issuance of the gateway is the handler of src/server.ts. *)
Theorem server_ts_create_is_the_production_path (req : Request) (m : Machine) :
  Server.post_api_keys_create W req m = ServerTs.post_api_keys_create W req m.
Proof.
  unfold Server.post_api_keys_create, ServerTs.post_api_keys_create.
  now rewrite production_mode.
Qed.

End ProductionMode.

(** The scenario of the design document: the primary call is rejected
    with a 401, the legacy call returns the key k1. *)
Lemma create_in_production_falls_back_witness :
  let W := Scenario.production
             (fun k => match k with
                       | O => Scenario.rejected_401
                       | _ => Normal (JObj [("key", JStr "k1")])
                       end) in
  let req := Scenario.anonymous (JObj []) in
  fst (post_api_keys_create W req initial) = Normal {| status := 200; payload := JObj [("key", JStr "k1")] |} /\
  ProdState.apiKey (prodState (snd (post_api_keys_create W req initial))) = JStr "k1" /\
  wire (snd (post_api_keys_create W req initial)) =
    [create_primary_call W req initial; create_legacy_call W req].
Proof.
  intros W req.
  destruct (create_in_production_falls_back W eq_refl initial req
              (AxiosError (Some (401, JObj [("error", JStr "invalid token")]))
                          "Request failed with status code 401") eq_refl)
    as (Hw & _ & _ & Hok & _).
  destruct (Hok (JObj [("key", JStr "k1")]) eq_refl) as (Hr & Hk & _).
  split; [exact Hr|]. split; [|exact Hw].
  apply Hk; [reflexivity | discriminate].
Defined.

(** C1, as stated, fails for the empty key: the primary call is rejected,
    the legacy call succeeds with the body {key: ""}, the response is that
    body, and the slot's apiKey is still null, not the key of the body. *)
Lemma create_keeps_slot_on_empty_key :
  let W := Scenario.production
             (fun k => match k with
                       | O => Scenario.rejected_401
                       | _ => Normal (JObj [("key", JStr "")])
                       end) in
  let req := Scenario.anonymous (JObj []) in
  IS_SANDBOX (process_env W) = false /\
  axios_post W 0 (create_primary_call W req initial) = Scenario.rejected_401 /\
  axios_post W 1 (create_legacy_call W req) = Normal (JObj [("key", JStr "")]) /\
  fst (post_api_keys_create W req initial) = Normal {| status := 200; payload := JObj [("key", JStr "")] |} /\
  ProdState.apiKey (prodState (snd (post_api_keys_create W req initial))) = JNull.
Proof. repeat split. Qed.

Lemma rotate_in_production_witness :
  let W := Scenario.production (fun _ => Normal (JObj [("raw_key", JStr "pnx_live_2")])) in
  let req := Scenario.bearer "pnx_live_1" (JObj []) in
  fst (post_api_keys_rotate W req initial) =
    Normal {| status := 200; payload := JObj [("raw_key", JStr "pnx_live_2")] |} /\
  ProdState.apiKey (prodState (snd (post_api_keys_rotate W req initial))) = JStr "pnx_live_2" /\
  wire (snd (post_api_keys_rotate W req initial)) = [rotate_call W req initial].
Proof.
  intros W req.
  destruct (rotate_in_production W eq_refl initial req) as (Hw & _ & Hok & _).
  destruct (Hok (JObj [("raw_key", JStr "pnx_live_2")]) eq_refl) as (Hr & Hk & _).
  split; [exact Hr|]. split; [|exact Hw].
  apply Hk; [reflexivity | discriminate].
Defined.

(** C7, as stated, fails for the empty key: the rotation call succeeds
    with the body {raw_key: ""}, and the slot's apiKey is still null. *)
Lemma rotate_keeps_slot_on_empty_key :
  let W := Scenario.production (fun _ => Normal (JObj [("raw_key", JStr "")])) in
  let req := Scenario.bearer "pnx_live_1" (JObj []) in
  IS_SANDBOX (process_env W) = false /\
  axios_post W 0 (rotate_call W req initial) = Normal (JObj [("raw_key", JStr "")]) /\
  fst (post_api_keys_rotate W req initial) =
    Normal {| status := 200; payload := JObj [("raw_key", JStr "")] |} /\
  ProdState.apiKey (prodState (snd (post_api_keys_rotate W req initial))) = JNull.
Proof. repeat split. Qed.

Lemma checkout_in_production_falls_back_witness :
  let W := Scenario.production
             (fun k => match k with
                       | O => Scenario.rejected_401
                       | _ => Throws (AxiosError None "socket hang up")
                       end) in
  let req := Scenario.anonymous (JObj [("amount", JNum 1200)]) in
  fst (post_checkout_demo W req initial) =
    Normal {| status := 502; payload := JObj [("error", JStr "socket hang up")] |} /\
  data (checkout_legacy_call W req) = JObj [("amount", JNum 1200); ("currency", JStr "usd")].
Proof.
  intros W req.
  destruct (checkout_in_production_falls_back W eq_refl initial req
              (AxiosError (Some (401, JObj [("error", JStr "invalid token")]))
                          "Request failed with status code 401") eq_refl)
    as (_ & _ & _ & _ & H).
  split; [|reflexivity].
  exact (H (AxiosError None "socket hang up") eq_refl).
Defined.

Lemma server_ts_create_is_the_production_path_witness :
  ServerTs.post_api_keys_create (Scenario.production (fun _ => Scenario.rejected_401))
    (Scenario.anonymous (JObj [])) initial =
  (Normal {| status := 401; payload := JObj [("error", JStr "invalid token")] |},
   called [create_primary_call (Scenario.production (fun _ => Scenario.rejected_401))
             (Scenario.anonymous (JObj [])) initial;
           create_legacy_call (Scenario.production (fun _ => Scenario.rejected_401))
             (Scenario.anonymous (JObj []))] initial).
Proof.
  rewrite <- (server_ts_create_is_the_production_path
                (Scenario.production (fun _ => Scenario.rejected_401)) eq_refl
                (Scenario.anonymous (JObj [])) initial).
  reflexivity.
Defined.

(** ** Both modes *)

(** C6: in production mode the sandbox-only routes (POST /auth/login,
    GET /session, GET /sessions) answer 404 with an [error] and leave the
    machine as it was; in sandbox mode POST /auth/forward with a token
    answers 200 with the compatibility message, never a 5xx. *)
Theorem routes_of_the_other_mode (W : World) (m : Machine) (req : Request) :
  (IS_SANDBOX (process_env W) = false ->
   forall r, In r [POST_auth_login; GET_session; GET_sessions] ->
   exists answer e,
     app W r req m = (Normal {| status := 404; payload := answer |}, m) /\
     get answer "error" = Some (JStr e))
  /\
  (IS_SANDBOX (process_env W) = true ->
   forall t, carries_token req t -> t <> "" ->
   exists m',
     post_auth_forward W req m =
       (Normal {| status := 200;
                  payload := JObj [("ok", JBool true);
                                   ("mode", JStr "sandbox");
                                   ("message", JStr "JWT stored in legacy state. For the full demo flow, use POST /auth/login.")] |},
        m')).
Proof.
  split.
  - intros P r R. cbn [In] in R.
    destruct R as [<- | [<- | [<- | []]]]; cbn [app];
      unfold post_auth_login, get_session, get_sessions; rewrite P; cbn [negb];
      do 2 eexists; (split; [reflexivity | reflexivity]).
  - intros S t C N. eexists.
    rewrite (post_auth_forward_token W m req t C N).
    unfold mode_name. rewrite S. reflexivity.
Qed.

Lemma routes_of_the_other_mode_witness :
  (exists answer e,
     app (Scenario.production (fun _ => Scenario.rejected_401)) POST_auth_login
         (Scenario.anonymous (JObj [("email", JStr "demo@x.io")])) initial
       = (Normal {| status := 404; payload := answer |}, initial) /\
     get answer "error" = Some (JStr e))
  /\
  (exists m',
     post_auth_forward Scenario.sandbox (Scenario.bearer "eyJhbGciOi.e30.c2ln" (JObj [])) initial =
       (Normal {| status := 200;
                  payload := JObj [("ok", JBool true);
                                   ("mode", JStr "sandbox");
                                   ("message", JStr "JWT stored in legacy state. For the full demo flow, use POST /auth/login.")] |},
        m')).
Proof.
  split.
  - destruct (routes_of_the_other_mode (Scenario.production (fun _ => Scenario.rejected_401)) initial
                (Scenario.anonymous (JObj [("email", JStr "demo@x.io")]))) as [H _].
    apply (H eq_refl POST_auth_login). cbn. auto.
  - destruct (routes_of_the_other_mode Scenario.sandbox initial
                (Scenario.bearer "eyJhbGciOi.e30.c2ln" (JObj []))) as [_ H].
    apply (H eq_refl "eyJhbGciOi.e30.c2ln"); [right; split; [left|]; reflexivity | discriminate].
Defined.

(** The mode is the disjunction of the two flags: PAYNEXUS_ENV set to
    sandbox, or MCP_ENV set to demo, which it also is when it is not set. *)
Theorem sandbox_is_either_flag (e : ProcessEnv) :
  IS_SANDBOX e = true <->
  PAYNEXUS_ENV e = Some "sandbox" \/ env_MCP_ENV e = Some "demo" \/ env_MCP_ENV e = None.
Proof.
  unfold IS_SANDBOX, MCP_ENV, or_default. rewrite orb_true_iff. split.
  - intros [H | H].
    + destruct (PAYNEXUS_ENV e) as [v|]; [|discriminate].
      apply String.eqb_eq in H. subst. auto.
    + destruct (env_MCP_ENV e) as [v|]; [|auto].
      apply String.eqb_eq in H. subst. auto.
  - intros [-> | [-> | ->]]; auto.
Qed.

(** The registry never holds two sessions under one token, and every session
    is stored under the token it carries. *)
Theorem registry_tokens_are_unique (W : World) (m : Machine) :
  reachable W m -> well_keyed m.
Proof.
  induction 1 as [| m r req _ IH].
  - split; [constructor | discriminate].
  - now apply step_well_keyed.
Qed.

Lemma registry_tokens_are_unique_witness : well_keyed Scenario.with_key.
Proof. apply (registry_tokens_are_unique Scenario.sandbox), scenario_with_key_reachable. Defined.

(** The scenario of the design document, run from the start of the
    process: a login, a key, a checkout of 4900 usd, and the session
    snapshot, which shows one checkout. *)
Theorem sandbox_scenario :
  let T := Scenario.bearer Scenario.token0 in
  let m3 := snd (post_checkout_demo Scenario.sandbox
                   (T (JObj [("amount", JNum 4900); ("currency", JStr "usd")])) Scenario.with_key) in
  get (json_of (option_map payload
                  (match fst (get_session Scenario.sandbox (T (JObj [])) m3) with
                   | Normal r => Some r
                   | Throws _ => None
                   end))) "checkouts"
  = Some (JArr [JObj [("id", JStr "cs_demo_a0b1c2d3e4f540618728394a5b6c7d8e");
                      ("amount", JNum 4900);
                      ("currency", JStr "usd");
                      ("status", JStr "pending");
                      ("createdAt", JStr "2026-01-01T00:00:00.000Z")]]).
Proof. reflexivity. Qed.

(** ** What the two modes keep apart *)

Section Frames.
Variable W : World.

(** In sandbox mode a request leaves the wire and the key of the
    credential slot alone. *)
Lemma sandbox_step_frame (r : route) (req : Request) (m : Machine) :
  IS_SANDBOX (process_env W) = true ->
  wire (snd (app W r req m)) = wire m /\
  ProdState.apiKey (prodState (snd (app W r req m))) = ProdState.apiKey (prodState m) /\
  (r <> POST_auth_forward -> prodState (snd (app W r req m)) = prodState m).
Proof.
  intros Mode.
  destruct (getDemoSession req m) as [[t s0]|] eqn:G; destruct r;
    try (rewrite (mutation_without_session W Mode m req _ G) by in_routes; cbn; tauto);
    cbn [app].
  - unfold get_health, bind, read, ret. cbn. tauto.
  - destruct (truthy (get (body req) "email")) eqn:T.
    + destruct (get (body req) "email") as [v|] eqn:E; [|discriminate].
      rewrite (post_auth_login_sandbox W Mode m req v E T). cbn. tauto.
    + rewrite (post_auth_login_rejects W Mode m req T). cbn. tauto.
  - unfold post_auth_forward. destruct (truthy _); cbn; tauto.
  - rewrite (post_api_keys_create_sandbox W Mode m req t s0 G). cbn. tauto.
  - rewrite (post_api_keys_rotate_sandbox W Mode m req t s0 G). cbn. tauto.
  - assert (D : (exists c, coalesce (get (body req) "currency") (JStr "usd") = JStr c) \/
                (forall c, coalesce (get (body req) "currency") (JStr "usd") <> JStr c)).
    { destruct (coalesce (get (body req) "currency") (JStr "usd"));
        try (right; discriminate). left. eauto. }
    destruct D as [[c C] | C].
    + rewrite (post_checkout_demo_sandbox W Mode m req t s0 c G C). cbn. tauto.
    + rewrite (post_checkout_demo_throws W Mode m req t s0 G C). cbn. tauto.
  - rewrite (post_webhooks_create_sandbox W Mode m req t s0 G). cbn. tauto.
  - unfold get_session. rewrite Mode. cbn [negb]. unfold bind, requireDemoSession. rewrite G. cbn. tauto.
  - unfold get_sessions. rewrite Mode. cbn [negb]. unfold bind, read, ret. cbn. tauto.
  - unfold get_health, bind, read, ret. cbn. tauto.
  - destruct (truthy (get (body req) "email")) eqn:T.
    + destruct (get (body req) "email") as [v|] eqn:E; [|discriminate].
      rewrite (post_auth_login_sandbox W Mode m req v E T). cbn. tauto.
    + rewrite (post_auth_login_rejects W Mode m req T). cbn. tauto.
  - unfold post_auth_forward. destruct (truthy _); cbn; tauto.
  - unfold get_session. rewrite Mode. cbn [negb]. unfold bind, requireDemoSession. rewrite G. cbn. tauto.
  - unfold get_sessions. rewrite Mode. cbn [negb]. unfold bind, read, ret. cbn. tauto.
Qed.

(** In production mode a request leaves the registry, the UUIDs and the
    clock alone. *)
Lemma production_step_frame (r : route) (req : Request) (m : Machine) :
  IS_SANDBOX (process_env W) = false ->
  demoSessions (snd (app W r req m)) = demoSessions m /\
  draws (snd (app W r req m)) = draws m /\
  ticks (snd (app W r req m)) = ticks m.
Proof.
  intros Mode. destruct r; cbn [app].
  - unfold get_health, bind, read, ret. cbn. tauto.
  - unfold post_auth_login. rewrite Mode. cbn. tauto.
  - unfold post_auth_forward. destruct (truthy _); cbn; tauto.
  - rewrite (post_api_keys_create_production W Mode m req).
    repeat (destruct (axios_post W _ _)); rewrite ?keep_key_run;
      try destruct (truthy _); cbn; tauto.
  - rewrite (post_api_keys_rotate_production W Mode m req).
    destruct (axios_post W _ _); rewrite ?keep_key_run; try destruct (truthy _); cbn; tauto.
  - rewrite (post_checkout_demo_production W Mode m req).
    destruct (axios_post W _ _); cbn; tauto.
  - unfold post_webhooks_create. rewrite Mode.
    unfold try_catch, bind, read, backendPost.
    destruct (axios_post W _ _); cbn; tauto.
  - unfold get_session. rewrite Mode. cbn. tauto.
  - unfold get_sessions. rewrite Mode. cbn. tauto.
Qed.

End Frames.

(** What a request does to the registry, session by session. *)
Ltac grows :=
  unfold grown; cbn;
  repeat split; try reflexivity; try congruence;
  try (exists []; now rewrite app_nil_r); try (eexists; reflexivity).

Lemma step_sessions (W : World) (r : route) (req : Request) (m : Machine) :
  demoSessions (snd (app W r req m)) = demoSessions m \/
  (r = POST_auth_login /\
   draws (snd (app W r req m)) = S (draws m) /\
   exists s, demoSessions (snd (app W r req m)) = JsMap.set (uuid_at W (draws m)) s (demoSessions m)) \/
  (exists t0 s0 s',
     getDemoSession req m = Some (t0, s0) /\
     demoSessions (snd (app W r req m)) = JsMap.set t0 s' (demoSessions m) /\
     grown s0 s').
Proof.
  destruct (IS_SANDBOX (process_env W)) eqn:Mode;
    [| left; now apply production_step_frame].
  destruct (getDemoSession req m) as [[t s0]|] eqn:G; destruct r;
    try (rewrite (mutation_without_session W Mode m req _ G) by in_routes; now left);
    cbn [app].
  - left. reflexivity.
  - destruct (truthy (get (body req) "email")) eqn:T.
    + destruct (get (body req) "email") as [v|] eqn:E; [|discriminate].
      rewrite (post_auth_login_sandbox W Mode m req v E T). right. left.
      split; [reflexivity|]. split; [reflexivity|]. eexists. reflexivity.
    + rewrite (post_auth_login_rejects W Mode m req T). now left.
  - left. unfold post_auth_forward. now destruct (truthy _).
  - rewrite (post_api_keys_create_sandbox W Mode m req t s0 G).
    right. right. eexists _, _, _. split; [reflexivity|]. split; [reflexivity|]. grows.
  - rewrite (post_api_keys_rotate_sandbox W Mode m req t s0 G).
    right. right. eexists _, _, _. split; [reflexivity|]. split; [reflexivity|]. grows.
  - assert (D : (exists c, coalesce (get (body req) "currency") (JStr "usd") = JStr c) \/
                (forall c, coalesce (get (body req) "currency") (JStr "usd") <> JStr c)).
    { destruct (coalesce (get (body req) "currency") (JStr "usd"));
        try (right; discriminate). left. eauto. }
    destruct D as [[c C] | C].
    + rewrite (post_checkout_demo_sandbox W Mode m req t s0 c G C).
      right. right. eexists _, _, _. split; [reflexivity|]. split; [reflexivity|]. grows.
    + rewrite (post_checkout_demo_throws W Mode m req t s0 G C). now left.
  - rewrite (post_webhooks_create_sandbox W Mode m req t s0 G).
    right. right. eexists _, _, _. split; [reflexivity|]. split; [reflexivity|]. grows.
  - left. unfold get_session. rewrite Mode. cbn [negb]. unfold bind, requireDemoSession. now rewrite G.
  - left. unfold get_sessions. rewrite Mode. reflexivity.
  - left. reflexivity.
  - destruct (truthy (get (body req) "email")) eqn:T.
    + destruct (get (body req) "email") as [v|] eqn:E; [|discriminate].
      rewrite (post_auth_login_sandbox W Mode m req v E T). right. left.
      split; [reflexivity|]. split; [reflexivity|]. eexists. reflexivity.
    + rewrite (post_auth_login_rejects W Mode m req T). now left.
  - left. unfold post_auth_forward. now destruct (truthy _).
  - left. unfold get_session. rewrite Mode. cbn [negb]. unfold bind, requireDemoSession. now rewrite G.
  - left. unfold get_sessions. rewrite Mode. reflexivity.
Qed.

Lemma grown_refl (s : DemoSession.t) : grown s s.
Proof. grows. Qed.

Lemma grown_trans (a b c : DemoSession.t) : grown a b -> grown b c -> grown a c.
Proof.
  intros (T1 & E1 & C1 & (cs1 & K1) & (ws1 & H1) & A1) (T2 & E2 & C2 & (cs2 & K2) & (ws2 & H2) & A2).
  unfold grown. repeat split; try congruence.
  - exists (cs1 ++ cs2)%list. now rewrite K2, K1, app_assoc.
  - exists (ws1 ++ ws2)%list. now rewrite H2, H1, app_assoc.
  - auto.
Qed.

Lemma later_reachable (W : World) (m m' : Machine) :
  reachable W m -> later W m m' -> reachable W m'.
Proof. intros R L. induction L; [exact R | now constructor]. Qed.

(** A request changes at most one session: the one its bearer names or,
    for a login, the one stored under the UUID it draws. Every other token
    resolves after the request to what it resolved to before. *)
Theorem request_touches_one_session (W : World) (r : route) (req : Request) (m : Machine) (t : string) :
  extractBearer req <> Some t ->
  (r = POST_auth_login -> t <> uuid_at W (draws m)) ->
  JsMap.get t (demoSessions (snd (app W r req m))) = JsMap.get t (demoSessions m).
Proof.
  intros B L.
  destruct (step_sessions W r req m) as [-> | [(-> & _ & s & ->) | (t0 & s0 & s' & G & -> & _)]].
  - reflexivity.
  - apply JsMap_get_set_ne. intros E. now apply L.
  - apply getDemoSession_resolved in G as [G _].
    apply JsMap_get_set_ne. intros <-. now apply B.
Qed.

(** A rotation under the token of a second session. *)
Lemma request_touches_one_session_witness :
  let second := "a0b1c2d3-e4f5-4061-8728-394a5b6c7d8e" in
  let m3 := snd (app Scenario.sandbox POST_auth_login
                   (Scenario.anonymous (JObj [("email", JStr "b@x.io")])) Scenario.with_key) in
  (exists r, fst (app Scenario.sandbox POST_api_keys_rotate (Scenario.bearer second (JObj [])) m3)
               = Normal r /\ status r = 200) /\
  JsMap.get Scenario.token0
    (demoSessions (snd (app Scenario.sandbox POST_api_keys_rotate
                          (Scenario.bearer second (JObj [])) m3)))
  = Some Scenario.session1.
Proof.
  intros second m3. split; [eexists; split; reflexivity|].
  rewrite (request_touches_one_session Scenario.sandbox POST_api_keys_rotate
             (Scenario.bearer second (JObj [])) m3 Scenario.token0);
    [reflexivity | discriminate | discriminate].
Defined.

(** A session is never lost: there is no logout and no expiry. When
    [randomUUID] returns no UUID twice, a token that resolves to a session
    in a state the process can be in resolves in every later state, to a
    session with the same email and creation time, whose checkouts and
    webhooks have only grown and which still has a key if it had one. *)
Theorem session_is_never_lost (W : World) (m m' : Machine) (t : string) (s : DemoSession.t) :
  reachable W m -> later W m m' ->
  (forall i j, (i < j)%nat -> (j < draws m')%nat -> uuid_at W i <> uuid_at W j) ->
  JsMap.get t (demoSessions m) = Some s ->
  exists s', JsMap.get t (demoSessions m') = Some s' /\ grown s s'.
Proof.
  intros R L Inj G. induction L as [| m' r req L IH].
  - exists s. split; [exact G | apply grown_refl].
  - pose proof (later_reachable W m m' R L) as R'.
    destruct (step_registry W r req m') as [D _].
    destruct IH as (s1 & G1 & Gr1).
    { intros i j Hij Hj. apply Inj; lia. }
    destruct (step_sessions W r req m') as [-> | [(_ & Dr & s2 & ->) | (t0 & s0 & s2 & G0 & -> & Gr)]].
    + eauto.
    + exists s1. split; [|exact Gr1].
      rewrite JsMap_get_set_ne; [exact G1|].
      intros <-. rewrite fresh_draw_not_issued in G1; [discriminate | exact R' |].
      intros j Hj. apply Inj; lia.
    + apply getDemoSession_resolved in G0 as [_ G0].
      destruct (string_dec t0 t) as [-> | N].
      * rewrite JsMap_get_set_eq. exists s2. split; [reflexivity|].
        rewrite G1 in G0. injection G0 as <-. now apply grown_trans with s1.
      * rewrite (JsMap_get_set_ne t0 t s2 _ N). eauto.
Qed.

Lemma session_is_never_lost_witness :
  exists s',
    JsMap.get Scenario.token0
      (demoSessions
         (snd (app Scenario.sandbox POST_auth_login
                 (Scenario.anonymous (JObj [("email", JStr "other@x.io")]))
                 (snd (app Scenario.sandbox POST_api_keys_create
                         (Scenario.bearer Scenario.token0 (JObj [])) Scenario.logged_in)))))
    = Some s' /\
    grown {| DemoSession.token := Scenario.token0; DemoSession.email := JStr "demo@x.io";
             DemoSession.apiKey := None; DemoSession.checkouts := [];
             DemoSession.webhooks := []; DemoSession.createdAt := "2026-01-01T00:00:00.000Z" |} s'.
Proof.
  apply (session_is_never_lost Scenario.sandbox Scenario.logged_in).
  - unfold Scenario.logged_in. repeat constructor.
  - repeat constructor.
  - intros i j Hij Hj. change (j < 3)%nat in Hj.
    destruct j as [|[|[|j]]]; [lia | | | lia].
    + destruct i as [|i]; [discriminate | lia].
    + destruct i as [|[|i]]; [discriminate | discriminate | lia].
  - reflexivity.
Defined.

(** The handlers of the sandbox, in a world with another backend. *)
Lemma sandbox_ignores_backend (W W' : World) (r : route) (req : Request) (m : Machine) :
  IS_SANDBOX (process_env W) = true ->
  same_but_backend W W' ->
  app W' r req m = app W r req m.
Proof.
  intros Mode (Env & U & C & I).
  assert (Mode' : IS_SANDBOX (process_env W') = true) by now rewrite Env.
  destruct (getDemoSession req m) as [[t s0]|] eqn:G; destruct r;
    try (rewrite (mutation_without_session W Mode m req _ G),
                 (mutation_without_session W' Mode' m req _ G) by in_routes; reflexivity);
    cbn [app].
  - unfold get_health, mode_name. now rewrite Env.
  - destruct (truthy (get (body req) "email")) eqn:T.
    + destruct (get (body req) "email") as [v|] eqn:E; [|discriminate].
      rewrite (post_auth_login_sandbox W Mode m req v E T),
              (post_auth_login_sandbox W' Mode' m req v E T).
      now rewrite U, C, I.
    + now rewrite (post_auth_login_rejects W Mode m req T), (post_auth_login_rejects W' Mode' m req T).
  - unfold post_auth_forward, mode_name. now rewrite Env.
  - rewrite (post_api_keys_create_sandbox W Mode m req t s0 G),
            (post_api_keys_create_sandbox W' Mode' m req t s0 G). now rewrite U.
  - rewrite (post_api_keys_rotate_sandbox W Mode m req t s0 G),
            (post_api_keys_rotate_sandbox W' Mode' m req t s0 G). now rewrite U.
  - assert (D : (exists c, coalesce (get (body req) "currency") (JStr "usd") = JStr c) \/
                (forall c, coalesce (get (body req) "currency") (JStr "usd") <> JStr c)).
    { destruct (coalesce (get (body req) "currency") (JStr "usd"));
        try (right; discriminate). left. eauto. }
    destruct D as [[c Cu] | Cu].
    + rewrite (post_checkout_demo_sandbox W Mode m req t s0 c G Cu),
              (post_checkout_demo_sandbox W' Mode' m req t s0 c G Cu).
      now rewrite !U, !C, !I.
    + now rewrite (post_checkout_demo_throws W Mode m req t s0 G Cu),
                  (post_checkout_demo_throws W' Mode' m req t s0 G Cu).
  - rewrite (post_webhooks_create_sandbox W Mode m req t s0 G),
            (post_webhooks_create_sandbox W' Mode' m req t s0 G). now rewrite U, C, I.
  - unfold get_session. now rewrite Mode, Mode'.
  - unfold get_sessions. now rewrite Mode, Mode'.
  - unfold get_health, mode_name. now rewrite Env.
  - destruct (truthy (get (body req) "email")) eqn:T.
    + destruct (get (body req) "email") as [v|] eqn:E; [|discriminate].
      rewrite (post_auth_login_sandbox W Mode m req v E T),
              (post_auth_login_sandbox W' Mode' m req v E T).
      now rewrite U, C, I.
    + now rewrite (post_auth_login_rejects W Mode m req T), (post_auth_login_rejects W' Mode' m req T).
  - unfold post_auth_forward, mode_name. now rewrite Env.
  - unfold get_session. now rewrite Mode, Mode'.
  - unfold get_sessions. now rewrite Mode, Mode'.
Qed.

(** In sandbox mode the gateway needs no backend. No route calls it: in
    every state the process can be in the wire is empty and the key of the
    credential slot is still null. And the backend has no say in what a
    request does: in a world that differs only in its backend, every route
    gives the same response and leaves the same state. *)
Theorem sandbox_needs_no_backend (W : World) :
  IS_SANDBOX (process_env W) = true ->
  (forall m, reachable W m -> wire m = [] /\ ProdState.apiKey (prodState m) = JNull) /\
  (forall W' r req m, same_but_backend W W' -> app W' r req m = app W r req m).
Proof.
  intros Mode. split.
  - induction 1 as [| m r req _ [Hw Hk]]; [split; reflexivity|].
    destruct (sandbox_step_frame W r req m Mode) as (-> & -> & _). auto.
  - intros W' r req m S. now apply sandbox_ignores_backend.
Qed.

Lemma sandbox_needs_no_backend_witness :
  wire Scenario.with_key = [] /\
  app {| process_env := Scenario.sandbox_env;
         uuid_at := Scenario.uuids;
         clock_at := fun k => 1767225600000 + Z.of_nat k;
         iso_string := fun _ => "2026-01-01T00:00:00.000Z";
         axios_post := fun _ _ => Normal (JObj [("raw_key", JStr "pnx_live_1")]) |}
      POST_checkout_demo (Scenario.bearer Scenario.token0 (JObj [])) Scenario.with_key
  = app Scenario.sandbox POST_checkout_demo (Scenario.bearer Scenario.token0 (JObj [])) Scenario.with_key.
Proof.
  destruct (sandbox_needs_no_backend Scenario.sandbox eq_refl) as [Hw Hb].
  split.
  - apply Hw, scenario_with_key_reachable.
  - apply Hb. repeat split.
Defined.

(** In production mode the registry of the sandbox is never used: in
    every state the process can be in it is empty, no UUID has been drawn
    and the clock has not been read. *)
Theorem production_has_no_sessions (W : World) (m : Machine) :
  IS_SANDBOX (process_env W) = false ->
  reachable W m ->
  demoSessions m = [] /\ draws m = 0%nat /\ ticks m = 0%nat.
Proof.
  intros Mode. induction 1 as [| m r req _ IH]; [repeat split|].
  destruct (production_step_frame W r req m Mode) as (-> & -> & ->). exact IH.
Qed.

Lemma production_has_no_sessions_witness :
  demoSessions
    (snd (app (Scenario.production (fun _ => Normal (JObj [("raw_key", JStr "pnx_live_1")])))
              POST_api_keys_create (Scenario.bearer "eyJhbGciOi.e30.c2ln" (JObj [])) initial)) = [].
Proof.
  apply (production_has_no_sessions
           (Scenario.production (fun _ => Normal (JObj [("raw_key", JStr "pnx_live_1")])))).
  - reflexivity.
  - repeat constructor.
Defined.

(** ** Reading routes *)

(** The three GET routes only read: in either mode, whatever the
    request, they answer and leave the state as it was. *)
Theorem reading_routes_change_nothing (W : World) (r : route) (req : Request) (m : Machine) :
  In r [GET_health; GET_session; GET_sessions] ->
  exists answer, app W r req m = (Normal answer, m).
Proof.
  intros R. cbn [In] in R. destruct R as [<- | [<- | [<- | []]]]; cbn [app].
  - eexists. reflexivity.
  - unfold get_session. destruct (IS_SANDBOX (process_env W)); cbn [negb]; [|eexists; reflexivity].
    unfold bind, requireDemoSession. destruct (getDemoSession req m) as [[t s]|]; eexists; reflexivity.
  - unfold get_sessions. destruct (IS_SANDBOX (process_env W)); eexists; reflexivity.
Qed.

Lemma reading_routes_change_nothing_witness :
  exists answer,
    app Scenario.sandbox GET_session (Scenario.bearer Scenario.token0 (JObj [])) Scenario.with_key
    = (Normal answer, Scenario.with_key).
Proof.
  apply (reading_routes_change_nothing Scenario.sandbox GET_session). cbn. auto.
Defined.

Lemma summary_fields (s : DemoSession.t) :
  get (session_summary s) "token" = None /\
  get (session_summary s) "apiKey" = None /\
  get (session_summary s) "email" = Some (DemoSession.email s).
Proof. repeat split. Qed.

(** In sandbox mode GET /sessions asks for no session: any request, with
    or without an Authorization header, gets the list of all sessions, one
    summary for each, with its email; [total] is their number, the number
    GET /health reports as [sessions]. A summary has no [token] and no
    [apiKey] property. *)
Theorem sessions_are_listed_to_anyone (W : World) (req : Request) (m : Machine) :
  IS_SANDBOX (process_env W) = true ->
  exists list health,
    get_sessions W req m =
      (Normal (ok (JObj [("mode", JStr "sandbox");
                         ("total", JNum (Z.of_nat (JsMap.size (demoSessions m))));
                         ("sessions", JArr list)])), m) /\
    List.length list = JsMap.size (demoSessions m) /\
    (forall t s, JsMap.get t (demoSessions m) = Some s ->
       exists x, In x list /\ get x "email" = Some (DemoSession.email s)) /\
    (forall x, In x list -> get x "token" = None /\ get x "apiKey" = None) /\
    get_health W req m = (Normal (ok health), m) /\
    get health "sessions" = Some (JNum (Z.of_nat (JsMap.size (demoSessions m)))).
Proof.
  intros Mode. exists (map session_summary (JsMap.values (demoSessions m))). eexists.
  split; [|split; [|split; [|split; [|split]]]].
  - unfold get_sessions. rewrite Mode. cbn [negb]. unfold bind, read, ret.
    unfold JsMap.values, JsMap.size. now rewrite !length_map.
  - unfold JsMap.values, JsMap.size. now rewrite !length_map.
  - intros t s G. exists (session_summary s). split; [|reflexivity].
    apply in_map. unfold JsMap.values.
    induction (demoSessions m) as [|[k v] l IH]; [discriminate|].
    cbn [JsMap.get] in G. cbn [map snd In]. destruct (String.eqb t k).
    + injection G as ->. now left.
    + right. now apply IH.
  - intros x Hx. apply in_map_iff in Hx as (s & <- & _). split; reflexivity.
  - unfold get_health, mode_name. rewrite Mode. reflexivity.
  - reflexivity.
Qed.

Lemma sessions_are_listed_to_anyone_witness :
  exists list health,
    get_sessions Scenario.sandbox (Scenario.anonymous (JObj [])) Scenario.with_key =
      (Normal (ok (JObj [("mode", JStr "sandbox");
                         ("total", JNum (Z.of_nat (JsMap.size (demoSessions Scenario.with_key))));
                         ("sessions", JArr list)])), Scenario.with_key) /\
    List.length list = JsMap.size (demoSessions Scenario.with_key) /\
    (forall t s, JsMap.get t (demoSessions Scenario.with_key) = Some s ->
       exists x, In x list /\ get x "email" = Some (DemoSession.email s)) /\
    (forall x, In x list -> get x "token" = None /\ get x "apiKey" = None) /\
    get_health Scenario.sandbox (Scenario.anonymous (JObj [])) Scenario.with_key
      = (Normal (ok health), Scenario.with_key) /\
    get health "sessions" = Some (JNum (Z.of_nat (JsMap.size (demoSessions Scenario.with_key)))).
Proof.
  exact (sessions_are_listed_to_anyone Scenario.sandbox (Scenario.anonymous (JObj []))
           Scenario.with_key eq_refl).
Defined.

(** ** What GET /session shows after a mutation *)

Section SandboxRoundTrips.
Variable W : World.
Hypothesis sandbox_mode : IS_SANDBOX (process_env W) = true.

Lemma get_session_of (m : Machine) (req : Request) (t : string) (s : DemoSession.t) :
  getDemoSession req m = Some (t, s) ->
  get_session W req m =
    (Normal (ok (JObj [("email", DemoSession.email s);
                       ("mode", JStr "sandbox");
                       ("hasApiKey", JBool (has_key (DemoSession.apiKey s)));
                       ("apiKey", preview (DemoSession.apiKey s));
                       ("checkouts", JArr (map checkout_json (DemoSession.checkouts s)));
                       ("webhooks", JArr (map webhook_json (DemoSession.webhooks s)));
                       ("createdAt", JStr (DemoSession.createdAt s));
                       ("warning", JStr "Sandbox session — in-memory only, resets on server restart.")])),
     m).
Proof.
  intros G. unfold get_session. rewrite sandbox_mode. cbn [negb].
  unfold bind, requireDemoSession. now rewrite G.
Qed.

(** The session a bearer resolves to after the session stored under it
    was replaced. *)
Lemma getDemoSession_after_store (m m' : Machine) (req req' : Request) (t : string)
      (s0 s' : DemoSession.t) :
  getDemoSession req m = Some (t, s0) ->
  extractBearer req' = extractBearer req ->
  demoSessions m' = JsMap.set t s' (demoSessions m) ->
  getDemoSession req' m' = Some (t, s').
Proof.
  intros G B E. unfold getDemoSession in *. rewrite B.
  destruct (extractBearer req) as [t'|]; [|discriminate].
  destruct (Js.nonempty t'); [|discriminate].
  destruct (JsMap.get t' (demoSessions m)) eqn:Gt; [|discriminate].
  injection G as -> ->. now rewrite E, JsMap_get_set_eq.
Qed.

(** What a mutation stored is what GET /session shows next, to a request
    with the same bearer. After POST /api-keys/create the session has a
    key, shown as the first 15 characters of the key the response gave.
    After POST /checkout/demo (with a currency that is a string) the
    checkouts are the earlier ones followed by one with the id, amount,
    currency and creation time of the response, pending. After POST
    /webhooks/create the webhooks are the earlier ones followed by one with
    the id, url, events and creation time of the response. *)
Theorem session_shows_what_was_stored (m : Machine) (req req' : Request)
        (t : string) (s0 : DemoSession.t) :
  getDemoSession req m = Some (t, s0) ->
  extractBearer req' = extractBearer req ->
  (exists r1 r2 k,
     fst (post_api_keys_create W req m) = Normal r1 /\
     fst (get_session W req' (snd (post_api_keys_create W req m))) = Normal r2 /\
     get (payload r1) "key" = Some (JStr k) /\
     get (payload r2) "hasApiKey" = Some (JBool true) /\
     get (payload r2) "apiKey" = Some (JStr (Js.slice0 15 k ++ "..."))) /\
  (forall c, coalesce (get (body req) "currency") (JStr "usd") = JStr c ->
   exists r1 r2 id amount currency created_at,
     fst (post_checkout_demo W req m) = Normal r1 /\
     fst (get_session W req' (snd (post_checkout_demo W req m))) = Normal r2 /\
     get (payload r1) "id" = Some (JStr id) /\
     get (payload r1) "amount" = Some amount /\
     get (payload r1) "currency" = Some (JStr currency) /\
     get (payload r1) "created_at" = Some (JStr created_at) /\
     get (payload r2) "checkouts" =
       Some (JArr (map checkout_json (DemoSession.checkouts s0) ++
                   [JObj [("id", JStr id); ("amount", amount); ("currency", JStr currency);
                          ("status", JStr "pending"); ("createdAt", JStr created_at)]]))) /\
  (exists r1 r2 id url events created_at,
     fst (post_webhooks_create W req m) = Normal r1 /\
     fst (get_session W req' (snd (post_webhooks_create W req m))) = Normal r2 /\
     get (payload r1) "id" = Some (JStr id) /\
     get (payload r1) "url" = Some url /\
     get (payload r1) "events" = Some events /\
     get (payload r1) "created_at" = Some (JStr created_at) /\
     get (payload r2) "webhooks" =
       Some (JArr (map webhook_json (DemoSession.webhooks s0) ++
                   [JObj [("id", JStr id); ("url", url); ("events", events);
                          ("createdAt", JStr created_at)]]))).
Proof.
  intros G B. split; [|split].
  - rewrite (post_api_keys_create_sandbox W sandbox_mode m req t s0 G). cbn [fst snd].
    erewrite get_session_of
      by (eapply getDemoSession_after_store; [exact G | exact B | reflexivity]).
    eexists _, _, _. repeat split.
  - intros c C.
    rewrite (post_checkout_demo_sandbox W sandbox_mode m req t s0 c G C). cbn [fst snd].
    erewrite get_session_of
      by (eapply getDemoSession_after_store; [exact G | exact B | reflexivity]).
    eexists _, _, _, _, _, _. repeat split.
    cbn. now rewrite map_app.
  - rewrite (post_webhooks_create_sandbox W sandbox_mode m req t s0 G). cbn [fst snd].
    erewrite get_session_of
      by (eapply getDemoSession_after_store; [exact G | exact B | reflexivity]).
    eexists _, _, _, _, _, _. repeat split.
    cbn. now rewrite map_app.
Qed.

End SandboxRoundTrips.

Lemma session_shows_what_was_stored_witness :
  exists r1 r2 k,
    fst (post_api_keys_create Scenario.sandbox (Scenario.bearer Scenario.token0 (JObj []))
           Scenario.logged_in) = Normal r1 /\
    fst (get_session Scenario.sandbox (Scenario.bearer Scenario.token0 (JObj []))
           (snd (post_api_keys_create Scenario.sandbox (Scenario.bearer Scenario.token0 (JObj []))
                   Scenario.logged_in))) = Normal r2 /\
    get (payload r1) "key" = Some (JStr k) /\
    get (payload r2) "hasApiKey" = Some (JBool true) /\
    get (payload r2) "apiKey" = Some (JStr (Js.slice0 15 k ++ "...")).
Proof.
  refine (proj1 (session_shows_what_was_stored Scenario.sandbox eq_refl Scenario.logged_in
                   (Scenario.bearer Scenario.token0 (JObj []))
                   (Scenario.bearer Scenario.token0 (JObj []))
                   Scenario.token0 _ eq_refl eq_refl)).
Defined.

(** ** Webhooks *)

Section SandboxWebhooks.
Variable W : World.
Hypothesis sandbox_mode : IS_SANDBOX (process_env W) = true.

(** In sandbox mode a POST /webhooks/create whose bearer resolves to a
    session is answered with an id that is wh_demo_ followed by 32
    hexadecimal digits, the url and the events of the body, whatever JSON
    values they are (nothing is validated), https://webhook.site/demo and
    the two default events where the body has none or null, and the status
    active. The session gains one webhook record with that id, url and
    events at the end of its webhooks; nothing else changes in it, in the
    other sessions or in the credential slot, and the backend is not
    called. *)
Theorem webhook_in_sandbox (m : Machine) (req : Request) (t : string) (s0 : DemoSession.t) :
  extractBearer req = Some t -> t <> "" -> JsMap.get t (demoSessions m) = Some s0 ->
  Uuid.is_uuid (uuid_at W (draws m)) = true ->
  exists r m' digits record s1,
    post_webhooks_create W req m = (Normal r, m') /\
    status r = 200 /\
    get (payload r) "id" = Some (JStr ("wh_demo_" ++ digits)) /\
    Uuid.all_lower_hex digits = true /\ String.length digits = 32%nat /\
    get (payload r) "url" = Some (coalesce (get (body req) "url") (JStr "https://webhook.site/demo")) /\
    get (payload r) "events" =
      Some (coalesce (get (body req) "events")
                     (JArr [JStr "checkout.confirmed"; JStr "transaction.succeeded"])) /\
    get (payload r) "status" = Some (JStr "active") /\
    DemoWebhook.id record = "wh_demo_" ++ digits /\
    Some (DemoWebhook.url record) = get (payload r) "url" /\
    Some (DemoWebhook.events record) = get (payload r) "events" /\
    JsMap.get t (demoSessions m') = Some s1 /\
    DemoSession.webhooks s1 = (DemoSession.webhooks s0 ++ [record])%list /\
    DemoSession.token s1 = DemoSession.token s0 /\
    DemoSession.email s1 = DemoSession.email s0 /\
    DemoSession.apiKey s1 = DemoSession.apiKey s0 /\
    DemoSession.checkouts s1 = DemoSession.checkouts s0 /\
    DemoSession.createdAt s1 = DemoSession.createdAt s0 /\
    (forall t', t' <> t -> JsMap.get t' (demoSessions m') = JsMap.get t' (demoSessions m)) /\
    prodState m' = prodState m /\
    wire m' = wire m.
Proof.
  intros B N G U.
  pose proof (getDemoSession_of_bearer req m t s0 B N G) as R.
  destruct (is_uuid_strip _ U) as [Hx Hl].
  set (record := {| DemoWebhook.id := "wh_demo_" ++ Js.strip_dashes (uuid_at W (draws m));
                    DemoWebhook.url := coalesce (get (body req) "url") (JStr "https://webhook.site/demo");
                    DemoWebhook.events := coalesce (get (body req) "events") default_events;
                    DemoWebhook.createdAt := iso_string W (clock_at W (ticks m)) |}).
  eexists _, _, (Js.strip_dashes (uuid_at W (draws m))), record, (session_push_webhook record s0).
  split; [exact (post_webhooks_create_sandbox W sandbox_mode m req t s0 R)|].
  cbn [status payload ok demoSessions prodState wire].
  repeat match goal with |- _ /\ _ => split end;
    try reflexivity; try exact Hx; try exact Hl.
  - apply JsMap_get_set_eq.
  - intros t' N'. apply JsMap_get_set_ne. congruence.
Qed.

End SandboxWebhooks.

Lemma webhook_in_sandbox_witness :
  exists r m' digits record s1,
    post_webhooks_create Scenario.sandbox
      (Scenario.bearer Scenario.token0 (JObj [("url", JNum 7)])) Scenario.with_key = (Normal r, m') /\
    status r = 200 /\
    get (payload r) "id" = Some (JStr ("wh_demo_" ++ digits)) /\
    Uuid.all_lower_hex digits = true /\ String.length digits = 32%nat /\
    get (payload r) "url" = Some (JNum 7) /\
    get (payload r) "events" = Some (JArr [JStr "checkout.confirmed"; JStr "transaction.succeeded"]) /\
    get (payload r) "status" = Some (JStr "active") /\
    DemoWebhook.id record = "wh_demo_" ++ digits /\
    Some (DemoWebhook.url record) = get (payload r) "url" /\
    Some (DemoWebhook.events record) = get (payload r) "events" /\
    JsMap.get Scenario.token0 (demoSessions m') = Some s1 /\
    DemoSession.webhooks s1 = [record] /\
    DemoSession.token s1 = Scenario.token0 /\
    DemoSession.email s1 = JStr "demo@x.io" /\
    DemoSession.apiKey s1 = Some Scenario.key1 /\
    DemoSession.checkouts s1 = [] /\
    DemoSession.createdAt s1 = "2026-01-01T00:00:00.000Z" /\
    (forall t', t' <> Scenario.token0 ->
       JsMap.get t' (demoSessions m') = JsMap.get t' (demoSessions Scenario.with_key)) /\
    prodState m' = prodState Scenario.with_key /\
    wire m' = wire Scenario.with_key.
Proof.
  exact (webhook_in_sandbox Scenario.sandbox eq_refl Scenario.with_key
           (Scenario.bearer Scenario.token0 (JObj [("url", JNum 7)]))
           Scenario.token0 Scenario.session1 eq_refl ltac:(discriminate) eq_refl eq_refl).
Defined.

Section ProductionCalls.
Variable W : World.
Hypothesis production_mode : IS_SANDBOX (process_env W) = false.

Lemma post_webhooks_create_run (m : Machine) (req : Request) :
  post_webhooks_create W req m =
    (match axios_post W (List.length (wire m)) (webhook_call W req m) with
     | Normal d => Normal (ok d)
     | Throws e => Normal (sendError e)
     end,
     called [webhook_call W req m] m).
Proof.
  unfold post_webhooks_create. rewrite production_mode.
  unfold try_catch, bind, read, backendPost, webhook_call, called.
  now destruct (axios_post W _ _).
Qed.

(** In production mode POST /webhooks/create makes exactly one backend
    call, to /v1/webhooks, with the url and the events of the body, or
    https://webhook.site/demo and the two default events where the body has
    none or null. The response is the reply on success and [sendError] of
    the error on failure; there is no second attempt on a legacy route, and
    the credential slot and the registry are not written, whatever the
    reply holds. *)
Theorem webhook_in_production (m : Machine) (req : Request) :
  wire (snd (post_webhooks_create W req m)) = (wire m ++ [webhook_call W req m])%list /\
  url (webhook_call W req m) = BACKEND (process_env W) ++ "/v1/webhooks" /\
  get (data (webhook_call W req m)) "url" =
    Some (coalesce (get (body req) "url") (JStr "https://webhook.site/demo")) /\
  get (data (webhook_call W req m)) "events" =
    Some (coalesce (get (body req) "events")
                   (JArr [JStr "checkout.confirmed"; JStr "transaction.succeeded"])) /\
  prodState (snd (post_webhooks_create W req m)) = prodState m /\
  demoSessions (snd (post_webhooks_create W req m)) = demoSessions m /\
  (forall d,
     axios_post W (List.length (wire m)) (webhook_call W req m) = Normal d ->
     fst (post_webhooks_create W req m) = Normal {| status := 200; payload := d |}) /\
  (forall e,
     axios_post W (List.length (wire m)) (webhook_call W req m) = Throws e ->
     fst (post_webhooks_create W req m) = Normal (sendError e)).
Proof.
  rewrite post_webhooks_create_run. cbn [fst snd].
  repeat split; intros x H; now rewrite H.
Qed.

(** The first call of each proxying route. *)
Lemma first_call_made (r : route) (req : Request) (m : Machine) (call : BackendCall) :
  first_call W r req m = Some call ->
  exists rest, wire (snd (app W r req m)) = (wire m ++ call :: rest)%list.
Proof.
  destruct r; cbn [first_call app]; try discriminate; intros [= <-].
  - rewrite (post_api_keys_create_production W production_mode m req).
    repeat (destruct (axios_post W _ _)); rewrite ?keep_key_run; cbn [snd];
      try destruct (truthy _); cbn [wire called with_prodState]; eexists; reflexivity.
  - rewrite (post_api_keys_rotate_production W production_mode m req).
    destruct (axios_post W _ _); rewrite ?keep_key_run; cbn [snd];
      try destruct (truthy _); cbn [wire called with_prodState]; eexists; reflexivity.
  - rewrite (post_checkout_demo_production W production_mode m req).
    destruct (axios_post W _ _); cbn [snd wire called]; eexists; reflexivity.
  - rewrite post_webhooks_create_run. eexists. reflexivity.
Qed.

End ProductionCalls.

Lemma webhook_in_production_witness :
  let W := Scenario.production (fun _ => Normal (JObj [("id", JStr "wh_1"); ("raw_key", JStr "pnx_live_9")])) in
  let req := Scenario.bearer "pnx_live_1" (JObj [("events", JNull)]) in
  fst (post_webhooks_create W req initial) =
    Normal {| status := 200; payload := JObj [("id", JStr "wh_1"); ("raw_key", JStr "pnx_live_9")] |} /\
  prodState (snd (post_webhooks_create W req initial)) = prodState initial /\
  get (data (webhook_call W req initial)) "events" =
    Some (JArr [JStr "checkout.confirmed"; JStr "transaction.succeeded"]).
Proof.
  intros W req.
  destruct (webhook_in_production W eq_refl initial req) as (_ & _ & _ & He & Hp & _ & Hok & _).
  split; [apply Hok; reflexivity|]. split; [exact Hp | exact He].
Defined.

(** ** Which credential a proxied call carries *)

Lemma authHeaders_text (t : string) :
  t <> "" -> authHeaders (JStr t) = [Authorization_Bearer (JStr t)].
Proof. intros N. unfold authHeaders. cbn [truthy]. now rewrite (nonempty_true t N). Qed.

Lemma first_call_headers (W : World) (r : route) (req : Request) (m : Machine) (call : BackendCall) :
  first_call W r req m = Some call ->
  headers call =
    authHeaders (bearer_or req (match r with
                                | POST_api_keys_create => ProdState.jwt (prodState m)
                                | _ => ProdState.apiKey (prodState m)
                                end)).
Proof. destruct r; cbn [first_call]; try discriminate; now intros [= <-]. Qed.

Section ProductionCredentials.
Variable W : World.
Hypothesis production_mode : IS_SANDBOX (process_env W) = false.

Lemma bearer_goes_before_the_slot_aux (r : route) (req : Request) (m : Machine) :
  In r [POST_api_keys_create; POST_api_keys_rotate; POST_checkout_demo; POST_webhooks_create] ->
  exists call rest,
    wire (snd (app W r req m)) = (wire m ++ call :: rest)%list /\
    (extractBearer req = None ->
       headers call = authHeaders (if match r with POST_api_keys_create => true | _ => false end
                                   then ProdState.jwt (prodState m)
                                   else ProdState.apiKey (prodState m))).
Proof.
  intros R.
  assert (F : exists call, first_call W r req m = Some call).
  { cbn [In] in R. destruct R as [<- | [<- | [<- | [<- | []]]]]; eexists; reflexivity. }
  destruct F as [call F].
  destruct (first_call_made W production_mode r req m call F) as [rest Hw].
  exists call, rest. split; [exact Hw|].
  rewrite (first_call_headers W r req m call F). unfold bearer_or.
  intros ->. cbn [In] in R. destruct R as [<- | [<- | [<- | [<- | []]]]]; reflexivity.
Qed.

(** In production mode the bearer of the request goes before the
    credential slot, on each of the four proxying routes. A request whose
    Authorization header is [Bearer] followed by a non-empty token has
    that token sent to the backend, whatever the slot holds. A request
    whose [req.headers.authorization] is [Bearer] and a space with nothing
    after it sends no Authorization header at all, even when the slot
    holds a credential: the empty token is not null, so it is taken, and
    it is falsy, so no header is built from it. Only a request without a
    bearer falls back on the slot: its jwt for POST /api-keys/create, its
    apiKey for the three other routes. *)
Theorem bearer_goes_before_the_slot (r : route) (req : Request) (m : Machine) :
  In r [POST_api_keys_create; POST_api_keys_rotate; POST_checkout_demo; POST_webhooks_create] ->
  exists call rest,
    wire (snd (app W r req m)) = (wire m ++ call :: rest)%list /\
    (forall b, extractBearer req = Some b -> b <> "" ->
       headers call = [Authorization_Bearer (JStr b)]) /\
    (extractBearer req = Some "" -> headers call = []) /\
    (extractBearer req = None ->
       headers call = authHeaders (if match r with POST_api_keys_create => true | _ => false end
                                   then ProdState.jwt (prodState m)
                                   else ProdState.apiKey (prodState m))).
Proof.
  intros R.
  assert (F : exists call, first_call W r req m = Some call).
  { cbn [In] in R. destruct R as [<- | [<- | [<- | [<- | []]]]]; eexists; reflexivity. }
  destruct F as [call F].
  destruct (first_call_made W production_mode r req m call F) as [rest Hw].
  exists call, rest. split; [exact Hw|].
  rewrite (first_call_headers W r req m call F). unfold bearer_or.
  repeat split.
  - intros b -> N. now apply authHeaders_text.
  - now intros ->.
  - intros ->. cbn [In] in R. destruct R as [<- | [<- | [<- | [<- | []]]]]; reflexivity.
Qed.

(** The production flow passes its credentials on. After POST
    /auth/forward has stored a token, a POST /api-keys/create without a
    bearer sends that token to /v1/api-keys/create as its bearer; when the
    reply holds a non-empty [raw_key], each of POST /api-keys/rotate, POST
    /checkout/demo and POST /webhooks/create without a bearer then sends
    that key as its bearer. *)
Theorem production_flow_passes_credentials (m0 : Machine) (req0 req1 req2 : Request)
        (t k : string) (d : json) :
  carries_token req0 t -> t <> "" ->
  extractBearer req1 = None -> extractBearer req2 = None ->
  let m1 := snd (post_auth_forward W req0 m0) in
  let m2 := snd (post_api_keys_create W req1 m1) in
  axios_post W (List.length (wire m1)) (create_primary_call W req1 m1) = Normal d ->
  get d "raw_key" = Some (JStr k) -> k <> "" ->
  headers (create_primary_call W req1 m1) = [Authorization_Bearer (JStr t)] /\
  wire m2 = (wire m0 ++ [create_primary_call W req1 m1])%list /\
  fst (post_api_keys_create W req1 m1) = Normal {| status := 200; payload := d |} /\
  (forall r, In r [POST_api_keys_rotate; POST_checkout_demo; POST_webhooks_create] ->
     exists call rest,
       wire (snd (app W r req2 m2)) = (wire m2 ++ call :: rest)%list /\
       headers call = [Authorization_Bearer (JStr k)]).
Proof.
  intros C N B1 B2 m1 m2 A G Nk.
  assert (E1 : m1 = with_prodState (set_jwt (JStr t)) m0).
  { unfold m1. now rewrite (post_auth_forward_token W m0 req0 t C N). }
  assert (E2 : m2 = with_prodState (set_apiKey (JStr k)) (called [create_primary_call W req1 m1] m1)).
  { unfold m2. rewrite (post_api_keys_create_production W production_mode m1 req1), A.
    cbn [snd]. rewrite keep_key_run, opt_get_get, G. cbn [truthy].
    now rewrite (nonempty_true k Nk). }
  split; [|split; [|split]].
  - unfold create_primary_call, bearer_or. rewrite B1, E1. cbn [headers prodState with_prodState set_jwt ProdState.jwt].
    now apply authHeaders_text.
  - rewrite E2. cbn [wire with_prodState called]. now rewrite E1.
  - now rewrite (post_api_keys_create_production W production_mode m1 req1), A.
  - intros r R.
    destruct (bearer_goes_before_the_slot_aux r req2 m2) as (call & rest & Hw & Hh).
    + cbn [In] in *. tauto.
    + exists call, rest. split; [exact Hw|].
      rewrite Hh; [|exact B2]. rewrite E2. cbn [prodState with_prodState set_apiKey ProdState.apiKey].
      cbn [In] in R. destruct R as [<- | [<- | [<- | []]]]; now apply authHeaders_text.
Qed.

End ProductionCredentials.

Lemma bearer_goes_before_the_slot_witness :
  let W := Scenario.production (fun _ => Normal (JObj [("raw_key", JStr "pnx_live_1")])) in
  let m := snd (post_api_keys_create W (Scenario.anonymous (JObj [])) initial) in
  let req := {| authorization := Some "Bearer "; body := JObj [] |} in
  ProdState.apiKey (prodState m) = JStr "pnx_live_1" /\
  exists call rest,
    wire (snd (app W POST_checkout_demo req m)) = (wire m ++ call :: rest)%list /\
    headers call = [].
Proof.
  intros W m req. split; [reflexivity|].
  destruct (bearer_goes_before_the_slot W eq_refl POST_checkout_demo req m)
    as (call & rest & Hw & _ & He & _).
  - cbn. auto.
  - exists call, rest. split; [exact Hw | now apply He].
Defined.

Lemma production_flow_passes_credentials_witness :
  let W := Scenario.production (fun _ => Normal (JObj [("raw_key", JStr "pnx_live_1")])) in
  let m1 := snd (post_auth_forward W (Scenario.anonymous (JObj [("jwt", JStr "eyJhbGciOi.e30.c2ln")])) initial) in
  let m2 := snd (post_api_keys_create W (Scenario.anonymous (JObj [])) m1) in
  headers (create_primary_call W (Scenario.anonymous (JObj [])) m1)
    = [Authorization_Bearer (JStr "eyJhbGciOi.e30.c2ln")] /\
  exists call rest,
    wire (snd (app W POST_api_keys_rotate (Scenario.anonymous (JObj [])) m2))
      = (wire m2 ++ call :: rest)%list /\
    headers call = [Authorization_Bearer (JStr "pnx_live_1")].
Proof.
  intros W m1 m2.
  destruct (production_flow_passes_credentials W eq_refl initial
              (Scenario.anonymous (JObj [("jwt", JStr "eyJhbGciOi.e30.c2ln")]))
              (Scenario.anonymous (JObj [])) (Scenario.anonymous (JObj []))
              "eyJhbGciOi.e30.c2ln" "pnx_live_1" (JObj [("raw_key", JStr "pnx_live_1")])
              (or_introl eq_refl) ltac:(discriminate) eq_refl eq_refl eq_refl eq_refl
              ltac:(discriminate))
    as (Hh & _ & _ & Hr).
  split; [exact Hh|]. apply Hr. cbn. auto.
Defined.

(** ** POST /auth/forward, in either mode *)

(** A [jwt] property of the body that is not null is the token, and the
    Authorization header is not looked at: a truthy one is stored in the
    credential slot as it is, string or not, and answered with 200; a
    falsy one (the empty string, 0, false) is answered with 400 although
    the request may carry a bearer, and nothing is stored. Without such a
    property the bearer is the token, and a request without a bearer, or
    with an empty one, is answered with 400. Nothing but the jwt of the
    slot is ever written. *)
Theorem forward_body_shadows_bearer (W : World) (m : Machine) (req : Request) :
  (forall v, get (body req) "jwt" = Some v -> v <> JNull ->
     (truthy (Some v) = true ->
        exists r, post_auth_forward W req m = (Normal r, with_prodState (set_jwt v) m) /\ status r = 200) /\
     (truthy (Some v) = false ->
        exists r, post_auth_forward W req m = (Normal r, m) /\ status r = 400)) /\
  (get (body req) "jwt" = None \/ get (body req) "jwt" = Some JNull ->
     (forall t, extractBearer req = Some t -> t <> "" ->
        exists r, post_auth_forward W req m = (Normal r, with_prodState (set_jwt (JStr t)) m) /\
                  status r = 200) /\
     (extractBearer req = None \/ extractBearer req = Some "" ->
        exists r, post_auth_forward W req m = (Normal r, m) /\ status r = 400)).
Proof.
  split.
  - intros v G N.
    assert (E : coalesce (get (body req) "jwt") (null_or_str (extractBearer req)) = v).
    { rewrite G. destruct v; try reflexivity. now destruct N. }
    unfold post_auth_forward. rewrite E.
    split; intros ->; eexists; split; reflexivity.
  - intros G. split.
    + intros t B N. eexists. rewrite (post_auth_forward_token W m req t); [split; reflexivity | | exact N].
      right. auto.
    + intros B.
      assert (E : truthy (Some (coalesce (get (body req) "jwt") (null_or_str (extractBearer req)))) = false).
      { destruct G as [-> | ->], B as [-> | ->]; reflexivity. }
      unfold post_auth_forward. rewrite E. eexists. split; reflexivity.
Qed.

(** The body [{jwt: ''}] under a valid bearer: rejected. *)
Example forward_rejects_empty_jwt_under_a_bearer :
  exists r,
    post_auth_forward (Scenario.production (fun _ => Scenario.rejected_401))
      (Scenario.bearer "eyJhbGciOi.e30.c2ln" (JObj [("jwt", JStr "")])) initial = (Normal r, initial) /\
    status r = 400.
Proof. eexists. split; reflexivity. Qed.

(** ** When a handler fails *)

Lemma handler_outcome (W : World) (r : route) (req : Request) (m : Machine) :
  (exists a m', app W r req m = (Normal a, m')) \/
  (r = POST_checkout_demo /\
   IS_SANDBOX (process_env W) = true /\
   (exists t s, getDemoSession req m = Some (t, s)) /\
   (forall c, coalesce (get (body req) "currency") (JStr "usd") <> JStr c) /\
   app W r req m = (Throws (OtherError "toLowerCase is not a function"), m)).
Proof.
  destruct (IS_SANDBOX (process_env W)) eqn:Mode.
  - destruct (getDemoSession req m) as [[t s0]|] eqn:G; destruct r;
      try (left; rewrite (mutation_without_session W Mode m req _ G) by in_routes;
           eexists _, _; reflexivity);
      cbn [app].
    + left. eexists _, _. reflexivity.
    + left. destruct (truthy (get (body req) "email")) eqn:T.
      * destruct (get (body req) "email") as [v|] eqn:E; [|discriminate].
        rewrite (post_auth_login_sandbox W Mode m req v E T). eexists _, _. reflexivity.
      * rewrite (post_auth_login_rejects W Mode m req T). eexists _, _. reflexivity.
    + left. unfold post_auth_forward. destruct (truthy _); eexists _, _; reflexivity.
    + left. rewrite (post_api_keys_create_sandbox W Mode m req t s0 G). eexists _, _. reflexivity.
    + left. rewrite (post_api_keys_rotate_sandbox W Mode m req t s0 G). eexists _, _. reflexivity.
    + assert (D : (exists c, coalesce (get (body req) "currency") (JStr "usd") = JStr c) \/
                  (forall c, coalesce (get (body req) "currency") (JStr "usd") <> JStr c)).
      { destruct (coalesce (get (body req) "currency") (JStr "usd"));
          try (right; discriminate). left. eauto. }
      destruct D as [[c C] | C].
      * left. rewrite (post_checkout_demo_sandbox W Mode m req t s0 c G C). eexists _, _. reflexivity.
      * right. rewrite (post_checkout_demo_throws W Mode m req t s0 G C). eauto 10.
    + left. rewrite (post_webhooks_create_sandbox W Mode m req t s0 G). eexists _, _. reflexivity.
    + left. unfold get_session. rewrite Mode. cbn [negb].
      unfold bind, requireDemoSession. rewrite G. eexists _, _. reflexivity.
    + left. unfold get_sessions. rewrite Mode. eexists _, _. reflexivity.
    + left. eexists _, _. reflexivity.
    + left. destruct (truthy (get (body req) "email")) eqn:T.
      * destruct (get (body req) "email") as [v|] eqn:E; [|discriminate].
        rewrite (post_auth_login_sandbox W Mode m req v E T). eexists _, _. reflexivity.
      * rewrite (post_auth_login_rejects W Mode m req T). eexists _, _. reflexivity.
    + left. unfold post_auth_forward. destruct (truthy _); eexists _, _; reflexivity.
    + left. unfold get_session. rewrite Mode. cbn [negb].
      unfold bind, requireDemoSession. rewrite G. eexists _, _. reflexivity.
    + left. unfold get_sessions. rewrite Mode. eexists _, _. reflexivity.
  - left. destruct r; cbn [app].
    + eexists _, _. reflexivity.
    + unfold post_auth_login. rewrite Mode. eexists _, _. reflexivity.
    + unfold post_auth_forward. destruct (truthy _); eexists _, _; reflexivity.
    + rewrite (post_api_keys_create_production W Mode m req).
      repeat (destruct (axios_post W _ _)); eexists _, _; reflexivity.
    + rewrite (post_api_keys_rotate_production W Mode m req).
      destruct (axios_post W _ _); eexists _, _; reflexivity.
    + rewrite (post_checkout_demo_production W Mode m req).
      repeat (destruct (axios_post W _ _)); eexists _, _; reflexivity.
    + rewrite (post_webhooks_create_run W Mode m req).
      destruct (axios_post W _ _); eexists _, _; reflexivity.
    + unfold get_session. rewrite Mode. eexists _, _. reflexivity.
    + unfold get_sessions. rewrite Mode. eexists _, _. reflexivity.
Qed.

(** The gateway answers every request but one kind. For a body that
    [express.json()] parsed, a handler throws exactly when the route is
    POST /checkout/demo in sandbox mode, the bearer resolves to a session
    and the [currency] of the body is neither absent, null nor a string
    (a number, a boolean, an object, an array): [toLowerCase] is then not a
    function. Nothing has been written when it throws. *)
Theorem only_a_checkout_currency_throws (W : World) (r : route) (req : Request) (m : Machine) :
  parsed (body req) = true ->
  ((exists e, fst (app W r req m) = Throws e) <->
   (r = POST_checkout_demo /\
    IS_SANDBOX (process_env W) = true /\
    (exists t s, getDemoSession req m = Some (t, s)) /\
    (forall c, coalesce (get (body req) "currency") (JStr "usd") <> JStr c))) /\
  (forall e, fst (app W r req m) = Throws e -> snd (app W r req m) = m).
Proof.
  intros _.
  destruct (handler_outcome W r req m) as [(a & m' & E) | (-> & Mode & S & C & E)].
  - split; [split|].
    + rewrite E. intros [e H]. discriminate.
    + intros (-> & Mode & (t & s & G) & C). exfalso.
      cbn [app] in E. rewrite (post_checkout_demo_throws W Mode m req t s G C) in E. discriminate.
    + rewrite E. discriminate.
  - rewrite E. cbn [fst snd]. split; [split|]; eauto.
Qed.

Lemma only_a_checkout_currency_throws_witness :
  exists e,
    fst (app Scenario.sandbox POST_checkout_demo
           (Scenario.bearer Scenario.token0 (JObj [("currency", JNum 840)])) Scenario.with_key)
    = Throws e.
Proof.
  apply (only_a_checkout_currency_throws Scenario.sandbox POST_checkout_demo
           (Scenario.bearer Scenario.token0 (JObj [("currency", JNum 840)])) Scenario.with_key eq_refl).
  split; [reflexivity|]. split; [reflexivity|]. split; [eexists _, _; reflexivity|].
  intros c. discriminate.
Defined.

(** ** The backend URL *)

Lemma drop_final_slash_app (u : string) : drop_final_slash (u ++ "/") = u.
Proof.
  induction u as [|c u IH]; [reflexivity|].
  cbn [append]. destruct u as [|d u]; [reflexivity|].
  cbn [append] in *.
  change (drop_final_slash (String c (String d (u ++ "/"))))
    with (String c (drop_final_slash (String d (u ++ "/")))).
  now rewrite IH.
Qed.

Lemma drop_final_slash_keeps (u : string) :
  (forall v, u <> v ++ "/") -> drop_final_slash u = u.
Proof.
  induction u as [|c u IH]; [reflexivity|]. intros N.
  destruct u as [|d u].
  - cbn [drop_final_slash]. destruct (Ascii.eqb c "/") eqn:E; [|reflexivity].
    apply Ascii.eqb_eq in E. subst c. now destruct (N "").
  - change (drop_final_slash (String c (String d u)))
      with (String c (drop_final_slash (String d u))).
    f_equal. apply IH.
    intros v E. apply (N (String c v)). cbn [append]. now rewrite E.
Qed.

(** The backend URL is the configured one without its final slash, if
    it has one: exactly one slash is dropped, so that a URL configured with
    and without a final slash give the same calls, and a URL that ends
    with two slashes keeps one. Without PAYNEXUS_API_URL it is
    http://localhost:3001. Every proxied call goes to that URL followed by
    the path of the route. *)
Theorem backend_url_drops_one_final_slash (e : ProcessEnv) (u : string) :
  (PAYNEXUS_API_URL e = Some (u ++ "/") -> BACKEND e = u) /\
  (PAYNEXUS_API_URL e = Some u -> (forall v, u <> v ++ "/") -> BACKEND e = u) /\
  (PAYNEXUS_API_URL e = None -> BACKEND e = "http://localhost:3001").
Proof.
  unfold BACKEND. repeat split.
  - intros ->. apply drop_final_slash_app.
  - intros -> N. now apply drop_final_slash_keeps.
  - now intros ->.
Qed.

(** ** The keys of the sandbox *)

Lemma key_of_uuid_inj (u v : string) :
  Uuid.is_uuid u = true -> Uuid.is_uuid v = true ->
  "pk_demo_" ++ Js.strip_dashes u = "pk_demo_" ++ Js.strip_dashes v -> u = v.
Proof.
  intros Hu Hv E. apply (is_uuid_strip_inj u v Hu Hv).
  cbn [append] in E. now injection E.
Qed.

(** The keys the sessions hold are all different. *)
Lemma step_distinct_keys (W : World) (r : route) (req : Request) (m : Machine) :
  issued W m ->
  (forall j, (j <= draws m)%nat -> Uuid.is_uuid (uuid_at W j) = true) ->
  (forall j, (j < draws m)%nat -> uuid_at W j <> uuid_at W (draws m)) ->
  (forall t1 t2 s1 s2 k, t1 <> t2 ->
     JsMap.get t1 (demoSessions m) = Some s1 -> JsMap.get t2 (demoSessions m) = Some s2 ->
     DemoSession.apiKey s1 = Some k -> DemoSession.apiKey s2 <> Some k) ->
  forall t1 t2 s1 s2 k, t1 <> t2 ->
    JsMap.get t1 (demoSessions (snd (app W r req m))) = Some s1 ->
    JsMap.get t2 (demoSessions (snd (app W r req m))) = Some s2 ->
    DemoSession.apiKey s1 = Some k -> DemoSession.apiKey s2 <> Some k.
Proof.
  intros I U F D.
  assert (New : forall t s, JsMap.get t (demoSessions m) = Some s ->
            DemoSession.apiKey s <> Some ("pk_demo_" ++ Js.strip_dashes (uuid_at W (draws m)))).
  { intros t s G E. destruct (I t s G) as [_ Hk]. destruct (Hk _ E) as (j & Hj & Ej).
    apply key_of_uuid_inj in Ej; [| apply U; lia | apply U; lia].
    now apply (F j Hj). }
  destruct (step_registry W r req m) as [_ [-> | (t & s & -> & _ & K)]]; [exact D|].
  intros t1 t2 s1 s2 k N G1 G2 K1 K2.
  destruct (string_dec t t1) as [<- | N1]; [|destruct (string_dec t t2) as [<- | N2]].
  - rewrite JsMap_get_set_eq in G1. injection G1 as <-.
    rewrite (JsMap_get_set_ne t t2 s _ N) in G2.
    destruct K as [(_ & Ks & _) | (s0 & G0 & _ & [Ks | Ks])]; rewrite Ks in K1.
    + discriminate.
    + now apply (D t t2 s0 s2 k N G0 G2 K1).
    + injection K1 as <-. now apply (New t2 s2 G2).
  - rewrite JsMap_get_set_eq in G2. injection G2 as <-.
    rewrite (JsMap_get_set_ne t t1 s _ N1) in G1.
    destruct K as [(_ & Ks & _) | (s0 & G0 & _ & [Ks | Ks])]; rewrite Ks in K2.
    + discriminate.
    + now apply (D t1 t s1 s0 k N G1 G0 K1).
    + injection K2 as <-. now apply (New t1 s1 G1).
  - rewrite (JsMap_get_set_ne t t1 s _ N1) in G1. rewrite (JsMap_get_set_ne t t2 s _ N2) in G2.
    now apply (D t1 t2 s1 s2 k N G1 G2 K1).
Qed.

(** No two sessions hold the same key. In every state the process can be
    in, [randomUUID] having returned UUIDs and none of them twice, the keys
    of two sessions stored under different tokens are different. *)
Theorem demo_keys_are_distinct (W : World) (m : Machine) :
  reachable W m ->
  (forall j, (j < draws m)%nat -> Uuid.is_uuid (uuid_at W j) = true) ->
  (forall i j, (i < j)%nat -> (j < draws m)%nat -> uuid_at W i <> uuid_at W j) ->
  forall t1 t2 s1 s2 k, t1 <> t2 ->
    JsMap.get t1 (demoSessions m) = Some s1 -> JsMap.get t2 (demoSessions m) = Some s2 ->
    DemoSession.apiKey s1 = Some k -> DemoSession.apiKey s2 <> Some k.
Proof.
  induction 1 as [| m r req R IH]; intros U F.
  - intros t1 t2 s1 s2 k _ G. discriminate.
  - destruct (step_registry W r req m) as [D _].
    assert (IH' := IH (fun j Hj => U j ltac:(lia)) (fun i j Hij Hj => F i j Hij ltac:(lia))).
    destruct (Nat.eq_dec (draws (snd (app W r req m))) (draws m)) as [E | N].
    + destruct (step_registry W r req m) as [_ [Es | (t & s & _ & Lt & _)]]; [|lia].
      rewrite Es. exact IH'.
    + apply step_distinct_keys; [now apply reachable_issued | | | exact IH'].
      * intros j Hj. apply U. lia.
      * intros j Hj. apply F; lia.
Qed.

Lemma demo_keys_are_distinct_witness :
  let W := Scenario.sandbox in
  let second := "a0b1c2d3-e4f5-4061-8728-394a5b6c7d8e" in
  let m3 := snd (app W POST_auth_login (Scenario.anonymous (JObj [("email", JStr "b@x.io")]))
                   Scenario.with_key) in
  let m4 := snd (app W POST_api_keys_create (Scenario.bearer second (JObj [])) m3) in
  exists s1 s2 k1 k2,
    JsMap.get Scenario.token0 (demoSessions m4) = Some s1 /\
    JsMap.get second (demoSessions m4) = Some s2 /\
    DemoSession.apiKey s1 = Some k1 /\
    DemoSession.apiKey s2 = Some k2 /\
    k1 <> k2.
Proof.
  intros W second m3 m4.
  eexists _, _, _, _.
  split; [reflexivity|]. split; [reflexivity|]. split; [reflexivity|]. split; [reflexivity|].
  intros E.
  refine (demo_keys_are_distinct W m4 _ _ _ Scenario.token0 second _ _ _ _ eq_refl eq_refl eq_refl
            (f_equal Some (eq_sym E))).
  - unfold m4, m3, Scenario.with_key, Scenario.logged_in. repeat constructor.
  - intros j _. apply scenario_uuids_are_uuids.
  - intros i j Hij Hj. change (j < 4)%nat in Hj.
    destruct j as [|[|[|[|j]]]]; [lia | | | | lia].
    + destruct i as [|i]; [discriminate | lia].
    + destruct i as [|[|i]]; [discriminate | discriminate | lia].
    + destruct i as [|[|[|i]]]; [discriminate | discriminate | discriminate | lia].
  - discriminate.
Defined.

(** ** From a login to the session *)

Section LoginRoundTrip.
Variable W : World.
Hypothesis sandbox_mode : IS_SANDBOX (process_env W) = true.

(** The token a login returns opens the session it made. After a POST
    /auth/login with a truthy email, [randomUUID] having returned a
    non-empty text, a request whose Authorization header is [Bearer]
    followed by the token of the response is served: GET /session answers
    200 with the email of the login, no key, no checkouts and no webhooks,
    and what any of the four mutating routes answers has the status 200,
    not the 401 of a missing session. *)
Theorem login_token_opens_the_session (m : Machine) (req : Request) (email : json) (b : json) :
  get (body req) "email" = Some email -> truthy (Some email) = true ->
  uuid_at W (draws m) <> "" ->
  exists answer token,
    fst (post_auth_login W req m) = Normal answer /\
    get (payload answer) "token" = Some (JStr token) /\
    let m' := snd (post_auth_login W req m) in
    let req' := {| authorization := Some ("Bearer " ++ token); body := b |} in
    (exists shown,
       get_session W req' m' = (Normal shown, m') /\
       status shown = 200 /\
       get (payload shown) "email" = Some email /\
       get (payload shown) "hasApiKey" = Some (JBool false) /\
       get (payload shown) "apiKey" = Some JNull /\
       get (payload shown) "checkouts" = Some (JArr []) /\
       get (payload shown) "webhooks" = Some (JArr [])) /\
    (forall r,
       In r [POST_api_keys_create; POST_api_keys_rotate; POST_checkout_demo; POST_webhooks_create] ->
       forall sent, fst (app W r req' m') = Normal sent -> status sent = 200).
Proof.
  intros E T N.
  rewrite (post_auth_login_sandbox W sandbox_mode m req email E T). cbn [fst snd].
  eexists _, (uuid_at W (draws m)). split; [reflexivity|]. split; [reflexivity|].
  set (t := uuid_at W (draws m)) in *.
  set (session := {| DemoSession.token := t; DemoSession.email := email; DemoSession.apiKey := None;
                     DemoSession.checkouts := []; DemoSession.webhooks := [];
                     DemoSession.createdAt := iso_string W (clock_at W (ticks m)) |}).
  set (m' := {| demoSessions := JsMap.set t session (demoSessions m); prodState := prodState m;
                draws := S (draws m); ticks := S (ticks m); wire := wire m |}).
  set (req' := {| authorization := Some ("Bearer " ++ t); body := b |}).
  assert (B : extractBearer req' = Some t).
  { unfold extractBearer, req'. cbn [authorization].
    change (Js.startsWith "Bearer " ("Bearer " ++ t)) with true.
    reflexivity. }
  assert (G : getDemoSession req' m' = Some (t, session)).
  { apply getDemoSession_of_bearer; [exact B | exact N | apply JsMap_get_set_eq]. }
  split.
  - eexists. rewrite (get_session_of W sandbox_mode m' req' t session G).
    repeat split.
  - intros r R sent. cbn [In] in R. destruct R as [<- | [<- | [<- | [<- | []]]]]; cbn [app].
    + rewrite (post_api_keys_create_sandbox W sandbox_mode m' req' t session G).
      now intros [= <-].
    + rewrite (post_api_keys_rotate_sandbox W sandbox_mode m' req' t session G).
      now intros [= <-].
    + assert (D : (exists c, coalesce (get (body req') "currency") (JStr "usd") = JStr c) \/
                  (forall c, coalesce (get (body req') "currency") (JStr "usd") <> JStr c)).
      { destruct (coalesce (get (body req') "currency") (JStr "usd"));
          try (right; discriminate). left. eauto. }
      destruct D as [[c C] | C].
      * rewrite (post_checkout_demo_sandbox W sandbox_mode m' req' t session c G C).
        now intros [= <-].
      * rewrite (post_checkout_demo_throws W sandbox_mode m' req' t session G C). discriminate.
    + rewrite (post_webhooks_create_sandbox W sandbox_mode m' req' t session G).
      now intros [= <-].
Qed.

End LoginRoundTrip.

Lemma login_token_opens_the_session_witness :
  exists answer token,
    fst (post_auth_login Scenario.sandbox (Scenario.anonymous (JObj [("email", JStr "demo@x.io")]))
           initial) = Normal answer /\
    get (payload answer) "token" = Some (JStr token) /\
    exists shown,
      get_session Scenario.sandbox {| authorization := Some ("Bearer " ++ token); body := JObj [] |}
        Scenario.logged_in = (Normal shown, Scenario.logged_in) /\
      status shown = 200 /\
      get (payload shown) "email" = Some (JStr "demo@x.io").
Proof.
  destruct (login_token_opens_the_session Scenario.sandbox eq_refl initial
              (Scenario.anonymous (JObj [("email", JStr "demo@x.io")])) (JStr "demo@x.io") (JObj [])
              eq_refl eq_refl ltac:(discriminate))
    as (answer & token & Ha & Ht & (shown & Hs & H200 & He & _) & _).
  exists answer, token. split; [exact Ha|]. split; [exact Ht|].
  exists shown. split; [exact Hs|]. split; [exact H200 | exact He].
Defined.

(** ** src/server.ts and the production mode of the gateway *)

Section ServerTsRoutes.
Variable W : World.
Hypothesis production_mode : IS_SANDBOX (process_env W) = false.

(** The gateway in production mode does what the service of
    src/server.ts did. On the four proxying routes the handlers are the
    same: the same backend calls, the same response, the same effect on the
    credential slot. POST /auth/forward stores the same token and rejects
    the same requests with the same status and [error]; its answer has
    gained a [mode]. GET /health reports the same [env] and [backend] and
    has dropped [hasJwt] and [hasKey]. *)
Theorem production_mode_is_server_ts (req : Request) (m : Machine) :
  (forall r,
     In r [ServerTs.POST_api_keys_create; ServerTs.POST_api_keys_rotate;
           ServerTs.POST_checkout_demo; ServerTs.POST_webhooks_create] ->
     Server.app W (ServerTs.gateway_route r) req m = ServerTs.app W r req m) /\
  (exists a b,
     fst (Server.post_auth_forward W req m) = Normal a /\
     fst (ServerTs.post_auth_forward W req m) = Normal b /\
     snd (Server.post_auth_forward W req m) = snd (ServerTs.post_auth_forward W req m) /\
     status a = status b /\
     get (payload a) "error" = get (payload b) "error" /\
     get (payload a) "message" = get (payload b) "message" /\
     (status a = 200 -> get (payload a) "mode" = Some (JStr "production") /\
                        get (payload b) "mode" = None)) /\
  (exists a b,
     Server.get_health W req m = (Normal a, m) /\
     ServerTs.get_health W req m = (Normal b, m) /\
     get (payload a) "env" = get (payload b) "env" /\
     get (payload a) "backend" = get (payload b) "backend" /\
     get (payload a) "hasJwt" = None /\
     get (payload a) "hasKey" = None /\
     get (payload b) "hasJwt" = Some (JBool (negb (ServerTs.is_null (ProdState.jwt (prodState m))))) /\
     get (payload b) "hasKey" = Some (JBool (negb (ServerTs.is_null (ProdState.apiKey (prodState m)))))).
Proof.
  split; [|split].
  - intros r R. cbn [In] in R. destruct R as [<- | [<- | [<- | [<- | []]]]];
      cbn [ServerTs.gateway_route Server.app ServerTs.app];
      unfold Server.post_api_keys_create, ServerTs.post_api_keys_create,
             Server.post_api_keys_rotate, ServerTs.post_api_keys_rotate,
             Server.post_checkout_demo, ServerTs.post_checkout_demo,
             Server.post_webhooks_create, ServerTs.post_webhooks_create;
      now rewrite production_mode.
  - unfold Server.post_auth_forward, ServerTs.post_auth_forward, mode_name.
    rewrite production_mode.
    destruct (truthy _); eexists _, _; repeat split; discriminate.
  - unfold Server.get_health, ServerTs.get_health, mode_name. rewrite production_mode.
    eexists _, _. repeat split.
Qed.

End ServerTsRoutes.

Lemma production_mode_is_server_ts_witness :
  let W := Scenario.production (fun _ => Normal (JObj [("raw_key", JStr "pnx_live_2")])) in
  Server.app W POST_api_keys_rotate (Scenario.bearer "pnx_live_1" (JObj [])) initial
  = ServerTs.app W ServerTs.POST_api_keys_rotate (Scenario.bearer "pnx_live_1" (JObj [])) initial.
Proof.
  intros W.
  apply (proj1 (production_mode_is_server_ts W eq_refl (Scenario.bearer "pnx_live_1" (JObj [])) initial)
               ServerTs.POST_api_keys_rotate).
  cbn. auto.
Defined.

(** * The client package *)

(** ** JSON values *)

Lemma json_induction (P : json -> Prop) :
  P JNull -> (forall b, P (JBool b)) -> (forall n, P (JNum n)) -> (forall s, P (JStr s)) ->
  (forall items, Forall P items -> P (JArr items)) ->
  (forall fields, Forall (fun kv => P (snd kv)) fields -> P (JObj fields)) ->
  forall v, P v.
Proof.
  intros Hnull Hbool Hnum Hstr Harr Hobj. fix IH 1. intros [|b|n|s|items|fields].
  - exact Hnull.
  - apply Hbool.
  - apply Hnum.
  - apply Hstr.
  - apply Harr. induction items as [|x items IHitems]; constructor; [apply IH | exact IHitems].
  - apply Hobj. induction fields as [|[k x] fields IHfields]; constructor; [apply IH | exact IHfields].
Qed.

Lemma combine_map_snd {A B C} (f : B -> C) (ks : list A) (vs : list B) :
  combine ks (map f vs) = map (fun kv => (fst kv, f (snd kv))) (combine ks vs).
Proof.
  revert vs. induction ks as [|k ks IH]; intros [|v vs]; cbn [combine map fst snd]; [reflexivity..|].
  now rewrite IH.
Qed.

Lemma map_fst_combine {A B} (ks : list A) (vs : list B) :
  List.length ks = List.length vs -> map fst (combine ks vs) = ks.
Proof.
  revert vs. induction ks as [|k ks IH]; intros [|v vs]; cbn [combine map fst List.length];
    try discriminate; [reflexivity|].
  intros [= E]. now rewrite IH.
Qed.

Lemma index_keys_length (n : nat) : List.length (map index_key (seq 0 n)) = n.
Proof. now rewrite length_map, length_seq. Qed.

(** ** [sanitize] *)

Import Sdk.

(** [sanitize] as the source writes it: a copy of the own properties,
    each value put through the loop. *)
Lemma sanitize_spread (data : json) :
  sanitize data =
    match data with
    | JObj _ | JArr _ =>
        JObj (map (fun kv => (fst kv, sanitize_property (snd kv))) (own_properties data))
    | _ => data
    end.
Proof.
  destruct data as [| | | |items|fields]; try reflexivity.
  cbn [sanitize own_properties]. now rewrite combine_map_snd.
Qed.

Lemma redacted_object (fields : list (string * json)) :
  redacted (JObj fields) = forallb (fun kv => redacted_property (snd kv)) fields.
Proof. reflexivity. Qed.

Lemma redacted_array (items : list json) :
  redacted (JArr items) = forallb redacted_property items.
Proof. reflexivity. Qed.

Lemma sanitize_property_redacted (v : json) :
  redacted (sanitize v) = true -> redacted_property (sanitize_property v) = true.
Proof.
  destruct v as [| | |s| |]; cbn [sanitize_property]; try (intros; assumption); try reflexivity.
  intros _. destruct (Js.startsWith "pnx_" s) eqn:E; cbn [redacted_property REDACTED].
  - reflexivity.
  - now rewrite E.
Qed.

Lemma sanitize_redacted (data : json) : redacted (sanitize data) = true.
Proof.
  induction data as [| | | |items IH|fields IH] using json_induction; try reflexivity.
  - rewrite sanitize_spread, redacted_object. cbn [own_properties].
    apply forallb_forall. intros [k v] Hin. apply in_map_iff in Hin as ([k0 v0] & E & Hin).
    cbn [fst snd] in *. injection E as _ <-.
    apply sanitize_property_redacted.
    apply in_combine_r in Hin. rewrite Forall_forall in IH. now apply IH.
  - rewrite sanitize_spread, redacted_object. cbn [own_properties].
    apply forallb_forall. intros [k v] Hin. apply in_map_iff in Hin as ([k0 v0] & E & Hin).
    cbn [fst snd] in *. injection E as _ <-.
    apply sanitize_property_redacted.
    rewrite Forall_forall in IH. apply (IH (k0, v0) Hin).
Qed.

Lemma sanitize_keys (data : json) :
  map fst (own_properties (sanitize data)) = map fst (own_properties data).
Proof.
  rewrite sanitize_spread. destruct data; try reflexivity;
    cbn [own_properties]; now rewrite map_map.
Qed.

(** What [sanitize] redacts and what it lets through. In the value it
    returns no property, at any depth, is a string that starts with
    [pnx_]: each such string has been replaced by ***REDACTED***, and the
    names of the properties are kept. But only the values of properties are
    looked at: a string that is the data itself is returned as it is, key
    or not; a string that holds a key after other text is kept; and the
    name of a property is never changed. *)
Theorem sanitize_redacts_property_values (data : json) :
  redacted (sanitize data) = true /\
  map fst (own_properties (sanitize data)) = map fst (own_properties data) /\
  (forall k s, get data k = Some (JStr s) ->
     get (sanitize data) k = Some (JStr (if Js.startsWith "pnx_" s then "***REDACTED***" else s))) /\
  (forall s, sanitize (JStr s) = JStr s).
Proof.
  split; [apply sanitize_redacted|]. split; [apply sanitize_keys|]. split; [|reflexivity].
  intros k s G. destruct data as [| | | |items|fields]; try discriminate.
  cbn [get] in *. rewrite sanitize_spread. cbn [get own_properties].
  induction fields as [|[k0 v0] fields IH]; [discriminate|].
  cbn [assoc map fst snd] in *. destruct (String.eqb k k0).
  - injection G as ->. cbn [sanitize_property]. now destruct (Js.startsWith "pnx_" s).
  - now apply IH.
Qed.

(** A key in the middle of a text, and a key that is the data. *)
Example sanitize_lets_through :
  sanitize (JObj [("authorization", JStr "Bearer pnx_live_1"); ("pnx_live_1", JNum 1)])
    = JObj [("authorization", JStr "Bearer pnx_live_1"); ("pnx_live_1", JNum 1)] /\
  sanitize (JStr "pnx_live_1") = JStr "pnx_live_1".
Proof. split; reflexivity. Qed.

Lemma sanitize_property_twice (v : json) :
  sanitize (sanitize v) = sanitize v ->
  sanitize_property (sanitize_property v) = sanitize_property v.
Proof.
  destruct v as [| | |s|items|fields]; cbn [sanitize_property]; try reflexivity.
  - intros _. destruct (Js.startsWith "pnx_" s) eqn:E; cbn [sanitize_property REDACTED].
    + reflexivity.
    + now rewrite E.
  - intros H. pose proof (sanitize_spread (JArr items)) as S. cbn [own_properties] in S.
    rewrite S at 1. cbn [sanitize_property]. rewrite <- S. exact H.
  - intros H. pose proof (sanitize_spread (JObj fields)) as S. cbn [own_properties] in S.
    rewrite S at 1. cbn [sanitize_property]. rewrite <- S. exact H.
Qed.

Lemma map_pointwise {A B} (f g : A -> B) (l : list A) :
  Forall (fun x => f x = g x) l -> map f l = map g l.
Proof. induction 1 as [|x l E _ IH]; cbn [map]; [reflexivity | now rewrite E, IH]. Qed.

Lemma sanitize_idempotent (data : json) : sanitize (sanitize data) = sanitize data.
Proof.
  induction data as [| | | |items IH|fields IH] using json_induction; try reflexivity.
  - rewrite (sanitize_spread (JArr items)). cbn [own_properties].
    rewrite sanitize_spread. cbn [own_properties]. f_equal. rewrite map_map.
    apply map_pointwise. apply Forall_forall. intros [k v] Hin. cbn [fst snd]. f_equal.
    apply sanitize_property_twice. apply in_combine_r in Hin.
    rewrite Forall_forall in IH. now apply IH.
  - rewrite (sanitize_spread (JObj fields)). cbn [own_properties].
    rewrite sanitize_spread. cbn [own_properties]. f_equal. rewrite map_map.
    apply map_pointwise. eapply Forall_impl; [|exact IH].
    intros [k v] H. cbn [fst snd] in *. f_equal. now apply sanitize_property_twice.
Qed.

Lemma sanitize_array_free (data : json) : array_free (sanitize data) = true.
Proof.
  induction data as [| | | |items IH|fields IH] using json_induction; try reflexivity.
  - rewrite sanitize_spread. cbn [array_free own_properties].
    apply forallb_forall. intros [k v] Hin. apply in_map_iff in Hin as ([k0 v0] & E & Hin).
    cbn [fst snd] in *. injection E as _ <-.
    apply in_combine_r in Hin. rewrite Forall_forall in IH. specialize (IH v0 Hin).
    destruct v0; cbn [sanitize_property]; try reflexivity; try exact IH.
    now destruct (Js.startsWith "pnx_" s).
  - rewrite sanitize_spread. cbn [array_free own_properties].
    apply forallb_forall. intros [k v] Hin. apply in_map_iff in Hin as ([k0 v0] & E & Hin).
    cbn [fst snd] in *. injection E as _ <-.
    rewrite Forall_forall in IH. specialize (IH (k0, v0) Hin). cbn [snd] in IH.
    destruct v0; cbn [sanitize_property]; try reflexivity; try exact IH.
    now destruct (Js.startsWith "pnx_" s).
Qed.

Lemma sanitize_clean (data : json) :
  array_free data = true -> redacted data = true -> sanitize data = data.
Proof.
  induction data as [| | | |items IH|fields IH] using json_induction; try reflexivity.
  - discriminate.
  - intros A R. rewrite sanitize_spread. cbn [own_properties]. f_equal.
    cbn [array_free] in A. rewrite redacted_object in R.
    rewrite forallb_forall in A, R. rewrite Forall_forall in IH.
    rewrite <- (map_id fields) at 2. apply map_pointwise. apply Forall_forall.
    intros [k v] Hin. cbn [fst snd]. f_equal.
    specialize (A _ Hin). specialize (R _ Hin). specialize (IH _ Hin). cbn [snd] in *.
    destruct v as [| | |s|items|fs]; cbn [sanitize_property]; try reflexivity.
    + cbn [redacted_property] in R. apply negb_true_iff in R. now rewrite R.
    + discriminate.
    + now apply IH.
Qed.

(** [sanitize] gives a value it leaves alone, and turns arrays into
    objects. Sanitizing twice is sanitizing once. A value that holds no
    array and no key to redact is returned as it is. But the copy of an
    array is an object whose properties are the indices: the array itself,
    and every array inside the data, comes out as an object keyed by "0",
    "1", ..., so that no array is left in what the logger writes. *)
Theorem sanitize_settles_and_unfolds_arrays (data : json) :
  sanitize (sanitize data) = sanitize data /\
  (array_free data = true -> redacted data = true -> sanitize data = data) /\
  array_free (sanitize data) = true /\
  (forall items, data = JArr items ->
     exists fields,
       sanitize data = JObj fields /\
       map fst fields = map index_key (seq 0 (List.length items)) /\
       map snd fields = map sanitize_property items).
Proof.
  split; [apply sanitize_idempotent|]. split; [apply sanitize_clean|].
  split; [apply sanitize_array_free|].
  intros items ->. eexists. split; [exact (sanitize_spread (JArr items))|]. cbn [own_properties].
  rewrite !map_map. cbn [fst snd]. split.
  - apply map_fst_combine. now rewrite index_keys_length.
  - rewrite <- map_map. f_equal.
    assert (L : List.length (map index_key (seq 0 (List.length items))) = List.length items)
      by apply index_keys_length.
    revert L. generalize (map index_key (seq 0 (List.length items))).
    induction items as [|x items IH]; intros [|k ks]; cbn [combine map snd List.length];
      try discriminate; [reflexivity|].
    intros [= L]. now rewrite IH.
Qed.

(** The events of a webhook registration, as the logger writes them. *)
Example sanitize_events :
  sanitize (JObj [("url", JStr "https://my-app.com/webhooks/paynexus");
                  ("events", JArr [JStr "payment.success"; JStr "payment.failed"])])
  = JObj [("url", JStr "https://my-app.com/webhooks/paynexus");
          ("events", JObj [("0", JStr "payment.success"); ("1", JStr "payment.failed")])].
Proof. reflexivity. Qed.

(** ** The logger *)

Lemma log_run (W : World) (level : Config.LogLevel) (message : string) (data : option json)
      (m : Machine) :
  log W level message data m =
    (Fulfilled tt,
     if shouldLog (Config.LOG_LEVEL (defaultConfig W)) level
     then logged W level message data m
     else m).
Proof. unfold log. now destruct (shouldLog _ _). Qed.

(** An error is always written. *)
Lemma shouldLog_error (min : Config.LogLevel) : shouldLog min Config.L_error = true.
Proof. now destruct min. Qed.

Lemma error_run (W : World) (message : string) (data : option json) (m : Machine) :
  error W message data m = (Fulfilled tt, logged W Config.L_error message data m).
Proof. unfold error. now rewrite log_run, shouldLog_error. Qed.

(** The level of the logger is a threshold in the order debug, info,
    warn, error: a message is written exactly when its level is the
    configured one or comes after it. So an error is written whatever the
    configuration, a debug message only when the level is debug, and, the
    level being info when LOG_LEVEL is not set, everything but debug
    messages is written by default. *)
Theorem shouldLog_is_a_threshold (min level : Config.LogLevel) :
  (shouldLog min level = true <->
   exists before after,
     [Config.L_debug; Config.L_info; Config.L_warn; Config.L_error] = (before ++ min :: after)%list /\
     In level (min :: after)) /\
  shouldLog min Config.L_error = true /\
  (shouldLog min Config.L_debug = true <-> min = Config.L_debug) /\
  (forall is_url e c,
     Config.envSchema_parse is_url e = Some c -> Config.env_LOG_LEVEL e = None ->
     (shouldLog (Config.LOG_LEVEL c) level = true <-> level <> Config.L_debug)).
Proof.
  split; [|split; [|split]].
  - split.
    + intros H. destruct min.
      * exists [], [Config.L_info; Config.L_warn; Config.L_error]. split; [reflexivity|].
        destruct level; cbn; tauto.
      * exists [Config.L_debug], [Config.L_warn; Config.L_error]. split; [reflexivity|].
        destruct level; try discriminate; cbn; tauto.
      * exists [Config.L_debug; Config.L_info], [Config.L_error]. split; [reflexivity|].
        destruct level; try discriminate; cbn; tauto.
      * exists [Config.L_debug; Config.L_info; Config.L_warn], []. split; [reflexivity|].
        destruct level; try discriminate; cbn; tauto.
    + intros (before & after & E & I).
      destruct before as [|a [|b [|c [|d before]]]]; cbn [app] in E.
      * injection E as <- <-. cbn [In] in I. destruct I as [<- | [<- | [<- | [<- | []]]]]; reflexivity.
      * injection E as <- <- <-. cbn [In] in I. destruct I as [<- | [<- | [<- | []]]]; reflexivity.
      * injection E as <- <- <- <-. cbn [In] in I. destruct I as [<- | [<- | []]]; reflexivity.
      * injection E as <- <- <- <- <-. cbn [In] in I. destruct I as [<- | []]; reflexivity.
      * exfalso. injection E as _ _ _ _ E. now destruct before.
  - apply shouldLog_error.
  - destruct min; split; try reflexivity; discriminate.
  - intros is_url e c P L. unfold Config.envSchema_parse in P. rewrite L in P.
    destruct (Config.env_PAYNEXUS_API_KEY e), (Config.env_PAYNEXUS_BASE_URL e),
      (Config.env_PAYNEXUS_ENV e); try discriminate.
    destruct (_ && _); [|discriminate]. injection P as <-. cbn [Config.LOG_LEVEL].
    destruct level; split; try reflexivity; try discriminate; congruence.
Qed.

(** What a call of the logger writes. It never fails and touches
    nothing but the console and the clock. Below the configured level it
    does nothing at all; an error is never below it. Otherwise it writes
    one line, on the console method of its level: the text of an entry
    with the time, the level in capitals and the message as it was given.
    Data that is falsy (none, null, 0, the empty string) is left out;
    other data is in the entry after [sanitize], so that in it no property
    is a string that starts with [pnx_], and no array is left. *)
Theorem log_writes_one_sanitized_line (W : World) (level : Config.LogLevel) (message : string)
        (data : option json) (m : Machine) :
  exists m',
    log W level message data m = (Fulfilled tt, m') /\
    config m' = config m /\ fetched m' = fetched m /\ consumed m' = consumed m /\
    (shouldLog (Config.LOG_LEVEL (defaultConfig W)) level = false -> m' = m) /\
    (level = Config.L_error -> shouldLog (Config.LOG_LEVEL (defaultConfig W)) level = true) /\
    (shouldLog (Config.LOG_LEVEL (defaultConfig W)) level = true ->
     exists entry,
       console m' = (console m ++ [(level, JSON_stringify W entry)])%list /\
       ticks m' = S (ticks m) /\
       get entry "timestamp" = Some (JStr (iso_string W (clock_at W (ticks m)))) /\
       get entry "level" = Some (JStr (toUpperCase (level_name level))) /\
       get entry "message" = Some (JStr message) /\
       (truthy data = false -> get entry "data" = None) /\
       (truthy data = true ->
          get entry "data" = Some (sanitize (json_of data)) /\
          redacted (sanitize (json_of data)) = true /\
          array_free (sanitize (json_of data)) = true)).
Proof.
  eexists. rewrite log_run. split; [reflexivity|].
  assert (E : level = Config.L_error -> shouldLog (Config.LOG_LEVEL (defaultConfig W)) level = true)
    by (intros ->; apply shouldLog_error).
  destruct (shouldLog _ level); cbn [logged config fetched consumed console ticks];
    repeat match goal with |- _ /\ _ => split end; try reflexivity; try discriminate;
    try exact E.
  intros _. eexists. split; [reflexivity|]. split; [reflexivity|].
  unfold logEntry. destruct (truthy data); cbn [app get assoc String.eqb Ascii.eqb Bool.eqb];
    repeat match goal with |- _ /\ _ => split end; try reflexivity; try discriminate.
  intros _. split; [reflexivity|]. split; [apply sanitize_redacted | apply sanitize_array_free].
Qed.

(** ** The configuration of a client *)

Lemma or_else_nonempty (a : option string) (b : string) : b <> "" -> or_else a b <> "".
Proof.
  intros N. unfold or_else. destruct a as [s|]; [|exact N].
  destruct s; [exact N | discriminate].
Qed.

(** A client always has a key. The environment having passed the
    schema, the key of a new client is a non-empty string, whatever custom
    configuration is given: a custom key that is a non-empty string is
    taken, and one that is missing or empty gives way to PAYNEXUS_API_KEY,
    which the schema wants non-empty; the same holds of the environment
    name, which without a custom one is sandbox or production. *)
Theorem client_config_falls_back_on_the_environment
        (W : World) (is_url : string -> bool) (e : Config.Env) (custom : option CustomConfig) :
  Config.envSchema_parse is_url e = Some (defaultConfig W) ->
  (exists k, apiKey (PaynexusClient W custom) = Some (JStr k) /\ k <> "") /\
  (forall c s, custom = Some c -> custom_apiKey c = Some s -> s <> "" ->
     apiKey (PaynexusClient W custom) = Some (JStr s)) /\
  (custom = None \/ (exists c, custom = Some c /\
                               (custom_apiKey c = None \/ custom_apiKey c = Some "")) ->
     Some (template (apiKey (PaynexusClient W custom))) = Config.env_PAYNEXUS_API_KEY e) /\
  (custom = None \/ (exists c, custom = Some c /\
                               (custom_env c = None \/ custom_env c = Some "")) ->
     env (PaynexusClient W custom) = "sandbox" \/ env (PaynexusClient W custom) = "production").
Proof.
  intros P. unfold Config.envSchema_parse in P.
  destruct (Config.env_PAYNEXUS_API_KEY e) as [key|]; [|discriminate].
  destruct (Config.env_PAYNEXUS_BASE_URL e) as [base|]; [|discriminate].
  destruct (Config.env_PAYNEXUS_ENV e) as [name|]; [|discriminate].
  destruct (Js.nonempty key) eqn:K; [|discriminate].
  destruct (is_url base); [|discriminate].
  destruct (String.eqb name "sandbox" || String.eqb name "production") eqn:N; [|discriminate].
  assert (Hk : Config.PAYNEXUS_API_KEY (defaultConfig W) = key /\
               Config.PAYNEXUS_ENV (defaultConfig W) = name).
  { cbn [andb] in P. destruct (Config.env_LOG_LEVEL e) as [l|].
    - destruct (Config.log_level_of l); [|discriminate]. injection P as <-. auto.
    - injection P as <-. auto. }
  destruct Hk as [Hk Hn]. clear P.
  assert (Kne : key <> "") by (destruct key; [discriminate | discriminate]).
  assert (Nn : name = "sandbox" \/ name = "production").
  { apply orb_prop in N as [N | N]; apply String.eqb_eq in N; auto. }
  unfold PaynexusClient. cbn [apiKey env]. rewrite Hk, Hn.
  split; [|split; [|split]].
  - eexists. split; [reflexivity|]. now apply or_else_nonempty.
  - intros c s -> -> Ns. unfold or_else. now rewrite (nonempty_true s Ns).
  - intros [-> | (c & -> & [-> | ->])]; reflexivity.
  - intros [-> | (c & -> & [-> | ->])]; exact Nn.
Qed.

(** ** The client *)

Section Client.
Variable W : World.

Lemma request_run (path : string) (options : RequestInit) (m : Machine) :
  request W path options m =
    match fetch_at W (List.length (fetched m)) (request_call (config m) path options) with
    | Rejected e => (Rejected e, fetching [request_call (config m) path options] m)
    | Fulfilled response =>
        if ok response
        then (json_body response, fetching [request_call (config m) path options] m)
        else (Rejected (JsError "Error" ("Paynexus API Error: " ++ statusText response)),
              logged W Config.L_error "API_ERROR" (Some (api_error path response))
                     (fetching [request_call (config m) path options] m))
    end.
Proof.
  unfold request, bind, read, fetch, fetching. cbn [config fetched].
  destruct (fetch_at W _ _) as [response|e]; [|reflexivity].
  destruct (ok response); cbn [negb]; [reflexivity|].
  unfold try_catch, await, api_error.
  destruct (json_body response) as [d|e]; unfold ret; rewrite error_run; reflexivity.
Qed.

Lemma request_fulfilled (path : string) (options : RequestInit) (m : Machine) :
  fetched (snd (request W path options m)) = (fetched m ++ [request_call (config m) path options])%list /\
  config (snd (request W path options m)) = config m /\
  (forall d, fst (request W path options m) = Fulfilled d <->
     exists r, fetch_at W (List.length (fetched m)) (request_call (config m) path options) = Fulfilled r /\
               ok r = true /\ json_body r = Fulfilled d).
Proof.
  rewrite request_run.
  destruct (fetch_at W _ _) as [r|e] eqn:A; [destruct (ok r) eqn:O|];
    cbn [fst snd fetching logged fetched config];
    (split; [reflexivity|]); (split; [reflexivity|]); intros d; split.
  - intros H. exists r. auto.
  - intros (r' & [= <-] & _ & H). exact H.
  - discriminate.
  - intros (r' & [= <-] & O' & _). congruence.
  - discriminate.
  - intros (r' & [=] & _).
Qed.

(** [request] makes one call and settles on the response. Whatever
    happens, exactly one [fetch] is made, there is no second attempt, and
    the configuration of the client is not changed. The promise is
    fulfilled, with the parsed body, exactly when [fetch] answered with a
    status from 200 to 299 and the body is JSON. When [fetch] itself
    fails, or the body of a 2xx answer is not JSON, it is rejected with
    that error and nothing is logged. When the status is outside 200-299
    it is rejected with an Error whose message is [Paynexus API Error: ]
    followed by the status text, and nothing of the body: the body goes,
    sanitized, with the status and the path into one line that
    [console.error] gets whatever the log level is; a body that is not
    JSON is logged as the empty object. *)
Theorem request_settles_on_the_response (path : string) (options : RequestInit) (m : Machine) :
  let call := request_call (config m) path options in
  let answer := fetch_at W (List.length (fetched m)) call in
  let result := request W path options m in
  fetched (snd result) = (fetched m ++ [call])%list /\
  config (snd result) = config m /\
  (forall d, fst result = Fulfilled d <->
     exists r, answer = Fulfilled r /\ ok r = true /\ json_body r = Fulfilled d) /\
  (forall e, answer = Rejected e -> result = (Rejected e, fetching [call] m)) /\
  (forall r e, answer = Fulfilled r -> ok r = true -> json_body r = Rejected e ->
     result = (Rejected e, fetching [call] m)) /\
  (forall r, answer = Fulfilled r -> ok r = false ->
     fst result = Rejected (JsError "Error" ("Paynexus API Error: " ++ statusText r)) /\
     exists errorData,
       console (snd result) =
         (console m ++
          [(Config.L_error,
            JSON_stringify W
              (JObj [("timestamp", JStr (iso_string W (clock_at W (ticks m))));
                     ("level", JStr "ERROR");
                     ("message", JStr "API_ERROR");
                     ("data", JObj [("status", JNum (status r));
                                    ("path", sanitize_property (JStr path));
                                    ("errorData", sanitize_property errorData)])]))])%list /\
       (forall d, json_body r = Fulfilled d -> errorData = d) /\
       (forall e, json_body r = Rejected e -> errorData = JObj [])).
Proof.
  intros call answer result. unfold result, answer, call. rewrite request_run.
  destruct (fetch_at W _ _) as [r|e] eqn:A.
  - destruct (ok r) eqn:O; cbn [fst snd fetching logged fetched config console].
    + split; [reflexivity|]. split; [reflexivity|]. split; [|split; [|split]].
      * intros d. split.
        -- intros H. exists r. auto.
        -- intros (r' & [= <-] & _ & H). exact H.
      * discriminate.
      * intros r' e' [= <-] _ ->. reflexivity.
      * intros r' [= <-]. congruence.
    + split; [reflexivity|]. split; [reflexivity|]. split; [|split; [|split]].
      * intros d. split; [discriminate|].
        intros (r' & [= <-] & O' & _). congruence.
      * discriminate.
      * intros r' e' [= <-]. congruence.
      * intros r' [= <-] _. split; [reflexivity|].
        exists (match json_body r with Fulfilled d => d | Rejected _ => JObj [] end).
        split; [reflexivity|]. split.
        -- now intros d ->.
        -- now intros e' ->.
  - cbn [fst snd fetching fetched config].
    split; [reflexivity|]. split; [reflexivity|]. split; [|split; [|split]].
    + intros d. split; [discriminate|]. intros (r' & [=] & _).
    + intros e' [= <-]. reflexivity.
    + discriminate.
    + discriminate.
Qed.

End Client.

(** *** The headers of a request *)

Lemma assoc_set_field_eq (k : string) (v : json) (fs : list (string * json)) :
  assoc k (set_field k v fs) = Some v.
Proof.
  induction fs as [|[k' v'] fs IH]; cbn [set_field assoc].
  - now rewrite String.eqb_refl.
  - destruct (String.eqb k k') eqn:E; cbn [assoc]; rewrite ?String.eqb_refl, ?E; auto.
Qed.

Lemma assoc_set_field_ne (k k' : string) (v : json) (fs : list (string * json)) :
  k <> k' -> assoc k' (set_field k v fs) = assoc k' fs.
Proof.
  intros N. induction fs as [|[k0 v0] fs IH]; cbn [set_field assoc].
  - apply not_eq_sym in N. apply String.eqb_neq in N. now rewrite N.
  - destruct (String.eqb k k0) eqn:E; cbn [assoc].
    + apply String.eqb_eq in E. subst k0.
      apply not_eq_sym in N. apply String.eqb_neq in N. now rewrite N.
    + now rewrite IH.
Qed.

Lemma assoc_None_keys (k : string) (fs : list (string * json)) :
  ~ In k (map fst fs) -> assoc k fs = None.
Proof.
  induction fs as [|[k' v'] fs IH]; cbn [assoc map fst In]; [reflexivity|].
  intros N. destruct (String.eqb k k') eqn:E.
  - apply String.eqb_eq in E. subst. tauto.
  - apply IH. tauto.
Qed.

(** [{ ...base, ...o }]: a property of [o] goes before one of [base]. *)
Lemma get_spread (base : list (string * json)) (o : json) (k : string) :
  NoDup (map fst (own_properties o)) ->
  get (spread base o) k =
    match assoc k (own_properties o) with
    | Some v => Some v
    | None => assoc k base
    end.
Proof.
  unfold spread. cbn [get]. generalize (own_properties o) as l. intros l. revert base.
  induction l as [|[k0 v0] l IH]; intros base N; cbn [fold_left assoc fst snd]; [reflexivity|].
  cbn [map fst] in N. inversion N as [|? ? Hnot Hrest]; subst.
  rewrite (IH _ Hrest). destruct (String.eqb k k0) eqn:E.
  - apply String.eqb_eq in E. subst k0.
    rewrite (assoc_None_keys k l Hnot). apply assoc_set_field_eq.
  - apply String.eqb_neq in E.
    destruct (assoc k l); [reflexivity|]. apply assoc_set_field_ne. congruence.
Qed.

(** The headers of a request are the three the client sets, unless the
    caller gives others. Without headers in the options, the call carries
    [Authorization: Bearer] followed by the text of the current key,
    [Content-Type: application/json] and [X-Paynexus-Env] with the
    environment name of the client. A header in the options is sent as
    the caller wrote it and, under the same name, takes the place of the
    client's: a caller can replace the Authorization header. *)
Theorem caller_headers_replace_the_defaults
        (cfg : PaynexusConfig) (path : string) (options : RequestInit) (k : string) :
  NoDup (map fst (own_properties (headers options))) ->
  (forall v, get (headers options) k = Some v ->
     get (call_headers (request_call cfg path options)) k = Some v) /\
  (assoc k (own_properties (headers options)) = None ->
     get (call_headers (request_call cfg path options)) k =
       get (JObj [("Authorization", JStr ("Bearer " ++ template (apiKey cfg)));
                  ("Content-Type", JStr "application/json");
                  ("X-Paynexus-Env", JStr (env cfg))]) k) /\
  (headers options = JNull ->
     call_headers (request_call cfg path options) =
       JObj [("Authorization", JStr ("Bearer " ++ template (apiKey cfg)));
             ("Content-Type", JStr "application/json");
             ("X-Paynexus-Env", JStr (env cfg))]).
Proof.
  intros N. unfold request_call. cbn [call_headers]. split; [|split].
  - intros v G. rewrite (get_spread _ _ k N).
    destruct (headers options); try discriminate. cbn [get own_properties] in *. now rewrite G.
  - intros G. now rewrite (get_spread _ _ k N), G.
  - now intros ->.
Qed.

Lemma caller_headers_replace_the_defaults_witness :
  get (call_headers
         (request_call (PaynexusClient (SdkScenario.world (fun _ => SdkScenario.replied 200 "OK" JNull)) None)
            "/v1/transactions"
            {| method := None; body := None;
               headers := JObj [("Authorization", JStr "Bearer pnx_test_other")] |}))
      "Authorization"
  = Some (JStr "Bearer pnx_test_other").
Proof.
  apply (caller_headers_replace_the_defaults _ "/v1/transactions"
           {| method := None; body := None;
              headers := JObj [("Authorization", JStr "Bearer pnx_test_other")] |}
           "Authorization").
  - repeat constructor. cbn. tauto.
  - reflexivity.
Defined.

(** *** The operations *)

Section Operations.
Variable W : World.

(** Every operation of the client is one request with the current
    key. Each of the five operations makes exactly one [fetch], to the base
    URL of the client followed by the path of the operation, with the
    three headers of the client, the Authorization header being [Bearer]
    followed by the text of the key the client holds at that moment; the
    three operations that send data use POST and the other two name no
    method. The identifier of a compliance report is put into the path as
    it is given. The operation settles as the request does, and the
    configuration is not changed. *)
Theorem operations_send_the_current_key (o : operation) (m : Machine) :
  exists call,
    fetched (snd (perform W o m)) = (fetched m ++ [call])%list /\
    call_url call = baseUrl (config m) ++ path_of o /\
    call_headers call =
      JObj [("Authorization", JStr ("Bearer " ++ template (apiKey (config m))));
            ("Content-Type", JStr "application/json");
            ("X-Paynexus-Env", JStr (env (config m)))] /\
    call_method call =
      match o with
      | FetchTransactions | RetrieveComplianceReport _ => None
      | _ => Some "POST"
      end /\
    call_body call =
      match o with
      | CreateCheckout amount currency =>
          Some (JSON_stringify W (JObj [("amount", JNum amount); ("currency", JStr currency)]))
      | ConfirmPayment sessionId => Some (JSON_stringify W (JObj [("sessionId", JStr sessionId)]))
      | TriggerComplianceScan entityId => Some (JSON_stringify W (JObj [("entityId", JStr entityId)]))
      | FetchTransactions | RetrieveComplianceReport _ => None
      end /\
    config (snd (perform W o m)) = config m /\
    (forall d, fst (perform W o m) = Fulfilled d <->
       exists r, fetch_at W (List.length (fetched m)) call = Fulfilled r /\
                 ok r = true /\ json_body r = Fulfilled d).
Proof.
  destruct o; cbn [perform path_of];
    unfold createCheckout, confirmPayment, fetchTransactions, triggerComplianceScan,
      retrieveComplianceReport;
    match goal with
    | |- context [request W ?p ?o] =>
        destruct (request_fulfilled W p o m) as (Hf & Hc & Hd);
        exists (request_call (config m) p o)
    end;
    (split; [exact Hf|]); (split; [reflexivity|]); (split; [reflexivity|]);
    (split; [reflexivity|]); (split; [reflexivity|]); (split; [exact Hc | exact Hd]).
Qed.

End Operations.

(** ** Key rotation *)

Section Rotation.
Variable W : World.

Lemma info_run (message : string) (data : option json) (m : Machine) :
  info W message data m =
    (Fulfilled tt,
     if shouldLog (Config.LOG_LEVEL (defaultConfig W)) Config.L_info
     then logged W Config.L_info message data m
     else m).
Proof. unfold info. apply log_run. Qed.

(** A log line leaves the client and the calls as they are. *)
Lemma info_frame (message : string) (data : option json) (m : Machine) :
  config (snd (info W message data m)) = config m /\
  fetched (snd (info W message data m)) = fetched m /\
  consumed (snd (info W message data m)) = consumed m.
Proof. rewrite info_run. cbn [snd]. now destruct (shouldLog _ _). Qed.

Lemma error_frame (message : string) (data : option json) (m : Machine) :
  config (snd (error W message data m)) = config m /\
  fetched (snd (error W message data m)) = fetched m /\
  consumed (snd (error W message data m)) = consumed m.
Proof. rewrite error_run. auto. Qed.

Lemma request_frame (path : string) (options : RequestInit) (m : Machine) :
  config (snd (request W path options m)) = config m /\
  fetched (snd (request W path options m)) = (fetched m ++ [request_call (config m) path options])%list /\
  consumed (snd (request W path options m)) = consumed m.
Proof.
  rewrite request_run. destruct (fetch_at W _ _) as [r|e]; [destruct (ok r)|]; auto.
Qed.

(** The failure [rotateApiKey] and [registerWebhook] log and pass on. *)
Lemma failure_logged {A : Type} (label : string) (e : exn) (m : Machine) :
  bind (error W label (Some (JObj [("error", JStr (message e))]))) (fun _ => @throw A e) m =
    (Rejected e, logged W Config.L_error label (Some (JObj [("error", JStr (message e))])) m).
Proof. unfold bind. now rewrite error_run. Qed.

Lemma is_null_false (d : json) : is_null d = false <-> d <> JNull.
Proof. destruct d; split; try discriminate; try reflexivity; congruence. Qed.

Lemma rotateApiKey_run (m : Machine) :
  rotateApiKey W m =
    match request W "/v1/auth/rotate" rotate_options
            (snd (info W "Starting API key rotation for environment"
                    (Some (JObj [("env", JStr (env (config m)))])) m)) with
    | (Fulfilled d, m2) =>
        if is_null d
        then (Rejected (JsError "TypeError" (cannot_destructure W "newKey")),
              logged W Config.L_error "ROTATION_FAILED"
                (Some (JObj [("error", JStr (cannot_destructure W "newKey"))])) m2)
        else (Fulfilled (get d "newKey"),
              snd (info W "API key rotated successfully" None (snd (set_apiKey (get d "newKey") m2))))
    | (Rejected e, m2) =>
        (Rejected e,
         logged W Config.L_error "ROTATION_FAILED" (Some (JObj [("error", JStr (message e))])) m2)
    end.
Proof.
  unfold rotateApiKey. unfold bind at 1. unfold read. unfold bind at 1.
  rewrite info_run. cbn [snd]. unfold try_catch.
  set (m1 := if shouldLog _ _ then _ else m).
  unfold bind at 1.
  destruct (request W "/v1/auth/rotate" rotate_options m1) as [[d|e] m2].
  - destruct d; cbn [destructure is_null];
      try (unfold bind, ret, set_apiKey; cbn [snd]; rewrite info_run; reflexivity).
    unfold bind at 1. unfold throw at 1. cbn [fst snd]. now rewrite failure_logged.
  - now rewrite failure_logged.
Qed.

(** The request of a rotation and the state it is made in. *)
Lemma rotation_request (m : Machine) :
  let m1 := snd (info W "Starting API key rotation for environment"
                   (Some (JObj [("env", JStr (env (config m)))])) m) in
  request_call (config m1) "/v1/auth/rotate" rotate_options
    = request_call (config m) "/v1/auth/rotate" rotate_options /\
  fetched m1 = fetched m /\ config m1 = config m.
Proof.
  intros m1. destruct (info_frame "Starting API key rotation for environment"
                         (Some (JObj [("env", JStr (env (config m)))])) m) as (Hc & Hf & _).
  fold m1 in Hc, Hf. now rewrite Hc, Hf.
Qed.

Lemma rotateApiKey_outcome (m : Machine) :
  let call := request_call (config m) "/v1/auth/rotate" rotate_options in
  fetched (snd (rotateApiKey W m)) = (fetched m ++ [call])%list /\
  (forall newKey, fst (rotateApiKey W m) = Fulfilled newKey ->
     config (snd (rotateApiKey W m)) =
       {| apiKey := newKey; baseUrl := baseUrl (config m); env := env (config m) |} /\
     exists r d, fetch_at W (List.length (fetched m)) call = Fulfilled r /\ ok r = true /\
                 json_body r = Fulfilled d /\ d <> JNull /\ newKey = get d "newKey") /\
  (forall e, fst (rotateApiKey W m) = Rejected e ->
     config (snd (rotateApiKey W m)) = config m /\
     exists m2,
       snd (rotateApiKey W m) =
         logged W Config.L_error "ROTATION_FAILED" (Some (JObj [("error", JStr (message e))])) m2) /\
  (forall r d, fetch_at W (List.length (fetched m)) call = Fulfilled r -> ok r = true ->
               json_body r = Fulfilled d -> d <> JNull ->
               fst (rotateApiKey W m) = Fulfilled (get d "newKey")).
Proof.
  intros call. rewrite rotateApiKey_run.
  destruct (rotation_request m) as (Ecall & Ef & Ec).
  set (m1 := snd (info W _ _ m)) in *.
  destruct (request_frame "/v1/auth/rotate" rotate_options m1) as (Hc & Hf & _).
  destruct (request_fulfilled W "/v1/auth/rotate" rotate_options m1) as (_ & _ & Hd).
  rewrite Ecall, Ef in *. rewrite Ec in Hc. fold call in Hf, Hd.
  destruct (request W "/v1/auth/rotate" rotate_options m1) as [[d|e] m2] eqn:R;
    cbn [fst snd] in *.
  - assert (Ok : exists r, fetch_at W (List.length (fetched m)) call = Fulfilled r /\ ok r = true /\
                           json_body r = Fulfilled d) by now apply Hd.
    destruct Ok as (r & A & O & J).
    destruct (is_null d) eqn:N; cbn [fst snd logged fetched config].
    + split; [exact Hf|]. split; [discriminate|]. split.
      * intros e [= <-]. split; [exact Hc|]. eexists. reflexivity.
      * intros r' d' A' _ J' N'. exfalso. rewrite A in A'. injection A' as <-.
        rewrite J in J'. injection J' as <-. destruct d; try discriminate. now apply N'.
    + apply is_null_false in N.
      destruct (info_frame "API key rotated successfully" None
                  (snd (set_apiKey (get d "newKey") m2))) as (Ic & If & _).
      split; [rewrite If; exact Hf|]. split; [|split; [discriminate|]].
      * intros newKey [= <-]. split.
        -- rewrite Ic. cbn [set_apiKey snd config]. now rewrite Hc.
        -- exists r, d. auto.
      * intros r' d' A' _ J' _. rewrite A in A'. injection A' as <-.
        rewrite J in J'. now injection J' as <-.
  - cbn [logged fetched config]. split; [exact Hf|]. split; [discriminate|]. split.
    + intros e' [= <-]. split; [exact Hc|]. eexists. reflexivity.
    + intros r d A O J _. exfalso.
      assert (X : Rejected e = Fulfilled d) by (apply Hd; eauto). discriminate.
Qed.

(** A rotation is all or nothing. [rotateApiKey] makes exactly one
    request, a POST to /v1/auth/rotate under the current key. It is
    fulfilled exactly when that request is answered with a status from 200
    to 299 and a JSON body that is not null; the key of the client is then
    the [newKey] of the body, which is also the result, and the base URL
    and the environment name are kept. When the request fails, or the body
    is null, the promise is rejected with the error, the configuration of
    the client is as it was, and the last line on the console is the
    ROTATION_FAILED error with the message of that error, sanitized. *)
Theorem rotation_is_all_or_nothing (m : Machine) :
  let call := request_call (config m) "/v1/auth/rotate" rotate_options in
  let result := rotateApiKey W m in
  fetched (snd result) = (fetched m ++ [call])%list /\
  call_url call = baseUrl (config m) ++ "/v1/auth/rotate" /\
  call_method call = Some "POST" /\
  get (call_headers call) "Authorization"
    = Some (JStr ("Bearer " ++ template (apiKey (config m)))) /\
  ((exists newKey, fst result = Fulfilled newKey) <->
   (exists r d, fetch_at W (List.length (fetched m)) call = Fulfilled r /\ ok r = true /\
                json_body r = Fulfilled d /\ d <> JNull)) /\
  (forall newKey, fst result = Fulfilled newKey ->
     config (snd result) =
       {| apiKey := newKey; baseUrl := baseUrl (config m); env := env (config m) |} /\
     exists r d, fetch_at W (List.length (fetched m)) call = Fulfilled r /\
                 json_body r = Fulfilled d /\ newKey = get d "newKey") /\
  (forall e, fst result = Rejected e ->
     config (snd result) = config m /\
     exists earlier timestamp,
       console (snd result) =
         (earlier ++
          [(Config.L_error,
            JSON_stringify W
              (JObj [("timestamp", JStr timestamp);
                     ("level", JStr "ERROR");
                     ("message", JStr "ROTATION_FAILED");
                     ("data", JObj [("error", sanitize_property (JStr (message e)))])]))])%list).
Proof.
  intros call result. destruct (rotateApiKey_outcome m) as (Hf & Hok & Hko & Hyes).
  fold call in Hf, Hok, Hyes. fold result in Hf, Hok, Hko, Hyes.
  split; [exact Hf|]. split; [reflexivity|]. split; [reflexivity|]. split; [reflexivity|].
  split; [|split].
  - split.
    + intros [newKey E]. destruct (Hok newKey E) as (_ & r & d & A & O & J & N & _). eauto 10.
    + intros (r & d & A & O & J & N). eauto.
  - intros newKey E. destruct (Hok newKey E) as (Hc & r & d & A & _ & J & _ & K). eauto 10.
  - intros e E. destruct (Hko e E) as (Hc & m2 & Hm). split; [exact Hc|].
    rewrite Hm. cbn [logged console]. eexists _, _. reflexivity.
Qed.

(** The key a rotation gives is the bearer of what follows. After a
    rotation that was fulfilled with [newKey], every operation of the
    client, and so every request made through it by code that shares the
    client, carries [Authorization: Bearer] followed by the text of
    [newKey]. When the body of the answer had no [newKey] property the
    rotation is fulfilled all the same, with undefined, and the header is
    [Bearer undefined]. *)
Theorem rotated_key_is_the_next_bearer (m : Machine) (newKey : option json) (o : operation) :
  fst (rotateApiKey W m) = Fulfilled newKey ->
  exists call,
    fetched (snd (perform W o (snd (rotateApiKey W m))))
      = (fetched (snd (rotateApiKey W m)) ++ [call])%list /\
    call_url call = baseUrl (config m) ++ path_of o /\
    get (call_headers call) "Authorization" = Some (JStr ("Bearer " ++ template newKey)) /\
    (newKey = None -> get (call_headers call) "Authorization" = Some (JStr "Bearer undefined")).
Proof.
  intros E. destruct (rotateApiKey_outcome m) as (_ & Hok & _ & _).
  destruct (Hok newKey E) as (Hc & _).
  set (m' := snd (rotateApiKey W m)) in *.
  assert (P : exists p options,
            perform W o m' = request W p options m' /\ headers options = JNull /\ p = path_of o).
  { destruct o; eexists _, _; (split; [reflexivity|]); split; reflexivity. }
  destruct P as (p & options & -> & Hh & ->).
  destruct (request_frame (path_of o) options m') as (_ & Hf & _).
  exists (request_call (config m') (path_of o) options). split; [exact Hf|].
  rewrite Hc. unfold request_call. cbn [call_url call_headers baseUrl apiKey]. rewrite Hh.
  split; [reflexivity|]. split; [reflexivity|]. now intros ->.
Qed.

End Rotation.

(** ** Webhook secrets and registration *)

Lemma hexdigit_lower (v : Z) : 0 <= v < 16 -> Uuid.is_lower_hex (hexdigit v) = true.
Proof.
  intros H.
  assert (C : v = 0 \/ v = 1 \/ v = 2 \/ v = 3 \/ v = 4 \/ v = 5 \/ v = 6 \/ v = 7 \/
              v = 8 \/ v = 9 \/ v = 10 \/ v = 11 \/ v = 12 \/ v = 13 \/ v = 14 \/ v = 15) by lia.
  repeat destruct C as [-> | C]; try reflexivity. now subst.
Qed.

Lemma toString_hex_lower_digits (buf : list byte) : Uuid.all_lower_hex (toString_hex buf) = true.
Proof.
  induction buf as [|b r IH]; [reflexivity|].
  destruct (byte_nibbles b) as (Hh & Hl & _).
  cbn [toString_hex Uuid.all_lower_hex].
  now rewrite (hexdigit_lower _ Hh), (hexdigit_lower _ Hl), IH.
Qed.

Lemma utf8_length (s : string) : List.length (utf8 s) = String.length s.
Proof.
  unfold utf8, list_byte_of_string. rewrite !length_map.
  induction s as [|c s IH]; cbn [list_ascii_of_string List.length String.length]; [reflexivity|].
  now rewrite IH.
Qed.

Section Webhooks.
Variable W : World.

Lemma generateSecret_run (m : Machine) :
  generateSecret W m =
    (Fulfilled (toString_hex (map (entropy W) (seq (consumed m) 32))), consuming 32 m).
Proof. reflexivity. Qed.

(** A generated secret is the next 32 random bytes in hexadecimal: 64
    digits, in lower case, from which [Buffer.from(secret, 'hex')] gives
    the bytes back. Two secrets made one after the other are made of
    different bytes of the source, the second of the 32 that follow those
    of the first. Used as the key of the HMAC, as [verifySignature] uses
    it, the secret is the 64 characters of the text, not the 32 bytes:
    exactly one block of SHA-256, so that the key is neither hashed nor
    padded. *)
Theorem generated_secret_is_64_hex_digits (m : Machine) :
  exists secret m',
    generateSecret W m = (Fulfilled secret, m') /\
    String.length secret = 64%nat /\
    Uuid.all_lower_hex secret = true /\
    Buffer_from_hex secret = map (entropy W) (seq (consumed m) 32) /\
    Sha256.hmac_key (utf8 secret) = utf8 secret /\
    config m' = config m /\ console m' = console m /\ fetched m' = fetched m /\
    exists secret' m'',
      generateSecret W m' = (Fulfilled secret', m'') /\
      Buffer_from_hex secret' = map (entropy W) (seq (consumed m + 32) 32).
Proof.
  eexists _, _. split; [apply generateSecret_run|].
  assert (L : String.length (toString_hex (map (entropy W) (seq (consumed m) 32))) = 64%nat).
  { now rewrite toString_hex_length, length_map, length_seq. }
  split; [exact L|]. split; [apply toString_hex_lower_digits|].
  split; [apply Buffer_from_hex_toString_hex|]. split.
  - unfold Sha256.hmac_key. rewrite utf8_length, L. cbn [Z.of_nat Z.ltb Z.compare Pos.compare
      Pos.compare_cont Nat.sub repeat]. apply app_nil_r.
  - repeat split. eexists _, _. split; [apply generateSecret_run|].
    apply Buffer_from_hex_toString_hex.
Qed.

Lemma bind_info {A : Type} (message : string) (data : option json) (k : unit -> M A) (m : Machine) :
  bind (info W message data) k m = k tt (snd (info W message data m)).
Proof. unfold bind. now rewrite info_run. Qed.

Lemma bind_generateSecret {A : Type} (k : string -> M A) (m : Machine) :
  bind (generateSecret W) k m =
    k (toString_hex (map (entropy W) (seq (consumed m) 32))) (consuming 32 m).
Proof. reflexivity. Qed.

Lemma registerWebhook_run (url : string) (events : list string) (m : Machine) :
  registerWebhook W url events m =
    match request W "/v1/webhooks/register"
            (post W (registration url events (toString_hex (map (entropy W) (seq (consumed m) 32)))))
            (consuming 32
               (snd (info W "Registering new webhook"
                       (Some (JObj [("url", JStr url); ("events", JArr (map JStr events))])) m))) with
    | (Fulfilled d, m2) =>
        if is_null d
        then (Rejected (JsError "TypeError" (cannot_destructure W "webhookId")),
              logged W Config.L_error "WEBHOOK_REGISTRATION_FAILED"
                (Some (JObj [("error", JStr (cannot_destructure W "webhookId"))])) m2)
        else (Fulfilled (get d "webhookId", toString_hex (map (entropy W) (seq (consumed m) 32))),
              snd (info W "Webhook registered successfully"
                     (Some (JObj (literal [("webhookId", get d "webhookId")]))) m2))
    | (Rejected e, m2) =>
        (Rejected e,
         logged W Config.L_error "WEBHOOK_REGISTRATION_FAILED"
           (Some (JObj [("error", JStr (message e))])) m2)
    end.
Proof.
  unfold registerWebhook. rewrite bind_info, bind_generateSecret.
  destruct (info_frame W "Registering new webhook"
              (Some (JObj [("url", JStr url); ("events", JArr (map JStr events))])) m)
    as (_ & _ & ->).
  unfold try_catch. unfold bind at 1.
  destruct (request W "/v1/webhooks/register" _ _) as [[d|e] m2].
  - destruct d; cbn [destructure is_null];
      try (unfold bind, ret; cbn [snd]; rewrite info_run; reflexivity).
    unfold bind at 1. unfold throw at 1. cbn [fst snd]. now rewrite failure_logged.
  - now rewrite failure_logged.
Qed.

(** A registration returns the secret it has sent. [registerWebhook]
    makes one secret and exactly one request, a POST to
    /v1/webhooks/register under the current key, whose body is the text of
    the url, the events and that secret. It is fulfilled exactly when the
    request is answered with a status from 200 to 299 and a JSON body that
    is not null; the result is then the [webhookId] of the body with the
    secret that was sent, so that a payload signed with the registered
    secret passes [verifySignature] under the returned one. Otherwise the
    promise is rejected with the error and the secret is returned to
    nobody. The configuration of the client is never changed. *)
Theorem registration_returns_the_secret_it_sent (url : string) (events : list string) (m : Machine) :
  let result := registerWebhook W url events m in
  exists secret call,
    Buffer_from_hex secret = map (entropy W) (seq (consumed m) 32) /\
    fetched (snd result) = (fetched m ++ [call])%list /\
    call_url call = baseUrl (config m) ++ "/v1/webhooks/register" /\
    call_method call = Some "POST" /\
    call_body call =
      Some (JSON_stringify W (JObj [("url", JStr url);
                                    ("events", JArr (map JStr events));
                                    ("secret", JStr secret)])) /\
    get (call_headers call) "Authorization"
      = Some (JStr ("Bearer " ++ template (apiKey (config m)))) /\
    config (snd result) = config m /\
    ((exists webhookId s, fst result = Fulfilled (webhookId, s)) <->
     (exists r d, fetch_at W (List.length (fetched m)) call = Fulfilled r /\ ok r = true /\
                  json_body r = Fulfilled d /\ d <> JNull)) /\
    (forall webhookId s, fst result = Fulfilled (webhookId, s) ->
       s = secret /\
       (exists r d, fetch_at W (List.length (fetched m)) call = Fulfilled r /\
                    json_body r = Fulfilled d /\ webhookId = get d "webhookId") /\
       forall payload, verifySignature payload (sign payload secret) s = true).
Proof.
  intros result. unfold result. rewrite registerWebhook_run.
  destruct (info_frame W "Registering new webhook"
              (Some (JObj [("url", JStr url); ("events", JArr (map JStr events))])) m)
    as (Ic & If & _).
  set (m1 := snd (info W "Registering new webhook" _ m)) in *.
  set (secret := toString_hex (map (entropy W) (seq (consumed m) 32))).
  set (options := post W (registration url events secret)).
  assert (Ec : config (consuming 32 m1) = config m) by exact Ic.
  assert (Ef : fetched (consuming 32 m1) = fetched m) by exact If.
  destruct (request_frame W "/v1/webhooks/register" options (consuming 32 m1)) as (Hc & Hf & _).
  destruct (request_fulfilled W "/v1/webhooks/register" options (consuming 32 m1)) as (_ & _ & Hd).
  rewrite Ec, Ef in *.
  set (call := request_call (config m) "/v1/webhooks/register" options) in *.
  exists secret, call.
  split; [apply Buffer_from_hex_toString_hex|].
  assert (Shape : call_url call = baseUrl (config m) ++ "/v1/webhooks/register" /\
                  call_method call = Some "POST" /\
                  call_body call =
                    Some (JSON_stringify W (JObj [("url", JStr url);
                                                  ("events", JArr (map JStr events));
                                                  ("secret", JStr secret)])) /\
                  get (call_headers call) "Authorization"
                    = Some (JStr ("Bearer " ++ template (apiKey (config m))))) by (repeat split).
  destruct Shape as (S1 & S2 & S3 & S4).
  destruct (request W "/v1/webhooks/register" options (consuming 32 m1)) as [[d|e] m2] eqn:R;
    cbn [fst snd] in *.
  - assert (Ok : exists r, fetch_at W (List.length (fetched m)) call = Fulfilled r /\ ok r = true /\
                           json_body r = Fulfilled d) by now apply Hd.
    destruct Ok as (r & A & O & J).
    destruct (is_null d) eqn:N; cbn [fst snd logged fetched config].
    + do 6 (split; [assumption|]). split; [split|].
      * intros (w & s & E). discriminate.
      * intros (r' & d' & A' & _ & J' & N'). exfalso. rewrite A in A'. injection A' as <-.
        rewrite J in J'. injection J' as <-. destruct d; try discriminate. now apply N'.
      * discriminate.
    + apply is_null_false in N.
      destruct (info_frame W "Webhook registered successfully"
                  (Some (JObj (literal [("webhookId", get d "webhookId")]))) m2) as (Jc & Jf & _).
      rewrite Jc, Jf.
      do 6 (split; [assumption|]). split; [split|].
      * intros _. eauto 10.
      * intros _. eauto.
      * intros w s [= <- <-]. split; [reflexivity|]. split; [eauto|].
        intros payload. apply verifySignature_sign.
  - cbn [logged fetched config].
    do 6 (split; [assumption|]). split; [split|].
    + intros (w & s & E). discriminate.
    + intros (r & d & A & O & J & _). exfalso.
      assert (X : Rejected e = Fulfilled d) by (apply Hd; eauto). discriminate.
    + discriminate.
Qed.

End Webhooks.

(** ** The examples *)

Lemma client_config_falls_back_on_the_environment_witness :
  let W := SdkScenario.world (fun _ => SdkScenario.replied 200 "OK" JNull) in
  let custom := Some {| custom_apiKey := Some ""; custom_baseUrl := None; custom_env := None |} in
  (exists k, apiKey (PaynexusClient W custom) = Some (JStr k) /\ k <> "") /\
  Some (template (apiKey (PaynexusClient W custom))) = Some "pnx_test_0123456789abcdef".
Proof.
  intros W custom.
  destruct (client_config_falls_back_on_the_environment W (fun _ => true) SdkScenario.environment
              custom eq_refl) as (Hk & _ & Hd & _).
  split; [exact Hk|]. apply Hd. right. eexists. split; [reflexivity|]. now right.
Defined.

(** A rotation answered with an empty object. *)
Lemma rotated_key_is_the_next_bearer_witness :
  let W := SdkScenario.world (fun _ => SdkScenario.replied 200 "OK" (JObj [])) in
  exists call,
    fetched (snd (perform W FetchTransactions (snd (rotateApiKey W (start W None)))))
      = (fetched (snd (rotateApiKey W (start W None))) ++ [call])%list /\
    get (call_headers call) "Authorization" = Some (JStr "Bearer undefined").
Proof.
  intros W.
  destruct (rotated_key_is_the_next_bearer W (start W None) None FetchTransactions eq_refl)
    as (call & Hf & _ & _ & Hu).
  exists call. split; [exact Hf | now apply Hu].
Defined.

(** The line a request writes for a 401 whose body names a key. *)
Example api_error_line :
  let W := SdkScenario.world
             (fun _ => SdkScenario.replied 401 "Unauthorized"
                         (JObj [("error", JStr "invalid key"); ("key", JStr "pnx_test_0123456789abcdef")])) in
  fst (fetchTransactions W (start W None)) = Rejected (JsError "Error" "Paynexus API Error: Unauthorized") /\
  map snd (console (snd (fetchTransactions W (start W None)))) =
    [SdkScenario.render
       (JObj [("timestamp", JStr "2026-01-01T00:00:00.000Z");
              ("level", JStr "ERROR");
              ("message", JStr "API_ERROR");
              ("data", JObj [("status", JNum 401);
                             ("path", JStr "/v1/transactions");
                             ("errorData", JObj [("error", JStr "invalid key");
                                                 ("key", JStr "***REDACTED***")])])])].
Proof. split; reflexivity. Qed.

(** ** What the console never gets *)

Section Secrecy.
Variable W : World.

Lemma request_with_entropy (bytes : nat -> byte) (path : string) (options : RequestInit) (m : Machine) :
  request (with_entropy bytes W) path options m = request W path options m.
Proof. reflexivity. Qed.

(** The console and the clock after a request, for a backend whose
    answers do not depend on what it is sent. *)
Lemma request_console (path : string) (options options' : RequestInit) (m m' : Machine) :
  (forall k c c', fetch_at W k c = fetch_at W k c') ->
  config m' = config m -> console m' = console m -> ticks m' = ticks m ->
  List.length (fetched m') = List.length (fetched m) ->
  fst (request W path options' m') = fst (request W path options m) /\
  config (snd (request W path options' m')) = config (snd (request W path options m)) /\
  console (snd (request W path options' m')) = console (snd (request W path options m)) /\
  ticks (snd (request W path options' m')) = ticks (snd (request W path options m)).
Proof.
  intros S Ec Eo Et El. rewrite !request_run. rewrite El.
  rewrite (S _ (request_call (config m') path options') (request_call (config m) path options)).
  destruct (fetch_at W _ _) as [r|e]; [destruct (ok r)|];
    cbn [fst snd fetching logged config console ticks]; rewrite ?Ec, ?Eo, ?Et; auto.
Qed.

(** The console after a registration, whatever bytes the secret is made of. *)
Lemma registration_console
        (bytes : nat -> byte) (url : string) (events : list string) (m : Machine) :
  (forall k c c', fetch_at W k c = fetch_at W k c') ->
  console (snd (registerWebhook (with_entropy bytes W) url events m))
    = console (snd (registerWebhook W url events m)) /\
  config (snd (registerWebhook (with_entropy bytes W) url events m))
    = config (snd (registerWebhook W url events m)) /\
  (forall e, fst (registerWebhook (with_entropy bytes W) url events m) = Rejected e <->
             fst (registerWebhook W url events m) = Rejected e) /\
  (forall webhookId,
     (exists s, fst (registerWebhook (with_entropy bytes W) url events m) = Fulfilled (webhookId, s)) <->
     (exists s, fst (registerWebhook W url events m) = Fulfilled (webhookId, s))).
Proof.
  intros S. rewrite !registerWebhook_run.
  change (info (with_entropy bytes W)) with (info W).
  change (entropy (with_entropy bytes W)) with bytes.
  change (cannot_destructure (with_entropy bytes W)) with (cannot_destructure W).
  change (logged (with_entropy bytes W)) with (logged W).
  generalize (toString_hex (map bytes (seq (consumed m) 32))) as secret'.
  generalize (toString_hex (map (entropy W) (seq (consumed m) 32))) as secret.
  intros secret secret'.
  set (m1 := consuming 32 (snd (info W "Registering new webhook" _ m))).
  rewrite request_with_entropy.
  destruct (request_console "/v1/webhooks/register"
              (post W (registration url events secret))
              (post (with_entropy bytes W) (registration url events secret'))
              m1 m1 S eq_refl eq_refl eq_refl eq_refl) as (Hr & Hc & Ho & Ht).
  destruct (request W "/v1/webhooks/register"
              (post (with_entropy bytes W) _) m1) as [o' m2'].
  destruct (request W "/v1/webhooks/register" (post W _) m1) as [o m2].
  cbn [fst snd] in *. subst o'.
  destruct o as [d|e]; [destruct (is_null d)|];
    cbn [fst snd logged console config]; rewrite ?info_run; cbn [snd];
    try destruct (shouldLog _ _); cbn [logged console config];
    rewrite ?Ho, ?Ht, ?Hc;
    (split; [reflexivity|]); (split; [reflexivity|]); split; intros x; split;
    try discriminate; try (intros [s E]; discriminate E); try (intros H; exact H);
    intros [s E]; assert (X : get d "webhookId" = x) by congruence;
    rewrite X; eexists; reflexivity.
Qed.

Lemma request_console_any_key (path : string) (options : RequestInit) (m m' : Machine) :
  (forall k c c', fetch_at W k c = fetch_at W k c') ->
  console m' = console m -> ticks m' = ticks m ->
  List.length (fetched m') = List.length (fetched m) ->
  fst (request W path options m') = fst (request W path options m) /\
  console (snd (request W path options m')) = console (snd (request W path options m)).
Proof.
  intros S Eo Et El. rewrite !request_run. rewrite El.
  rewrite (S _ (request_call (config m') path options) (request_call (config m) path options)).
  destruct (fetch_at W _ _) as [r|e]; [destruct (ok r)|];
    cbn [fst snd fetching logged config console ticks]; rewrite ?Eo, ?Et; auto.
Qed.

(** The console after an operation, whatever key the client holds. *)
Lemma operations_console (o : operation) (m : Machine) (key : option json) :
  (forall k c c', fetch_at W k c = fetch_at W k c') ->
  fst (perform W o (snd (set_apiKey key m))) = fst (perform W o m) /\
  console (snd (perform W o (snd (set_apiKey key m)))) = console (snd (perform W o m)).
Proof.
  intros S.
  destruct o; cbn [perform];
    unfold createCheckout, confirmPayment, fetchTransactions, triggerComplianceScan,
      retrieveComplianceReport;
    now apply request_console_any_key.
Qed.

(** The package writes neither the key of the client nor the secret
    of a webhook to the console. With a backend whose answers do not
    depend on what it is sent, an operation of the client settles the same
    way and leaves the same lines on the console whatever key the client
    holds: the key goes into the Authorization header and nowhere else.
    And the lines on the console after a registration are the same
    whatever bytes the secret is made of, and so are the configuration and
    the outcome, the secret in the result apart. What the backend sends
    back is logged as any answer is. *)
Theorem secrets_stay_off_the_console
        (o : operation) (key : option json)
        (bytes : nat -> byte) (url : string) (events : list string) (m : Machine) :
  (forall k c c', fetch_at W k c = fetch_at W k c') ->
  (fst (perform W o (snd (set_apiKey key m))) = fst (perform W o m) /\
   console (snd (perform W o (snd (set_apiKey key m)))) = console (snd (perform W o m))) /\
  (console (snd (registerWebhook (with_entropy bytes W) url events m))
     = console (snd (registerWebhook W url events m)) /\
   config (snd (registerWebhook (with_entropy bytes W) url events m))
     = config (snd (registerWebhook W url events m)) /\
   (forall e, fst (registerWebhook (with_entropy bytes W) url events m) = Rejected e <->
              fst (registerWebhook W url events m) = Rejected e) /\
   (forall webhookId,
      (exists s, fst (registerWebhook (with_entropy bytes W) url events m) = Fulfilled (webhookId, s)) <->
      (exists s, fst (registerWebhook W url events m) = Fulfilled (webhookId, s)))).
Proof.
  intros S. split; [now apply operations_console | now apply registration_console].
Qed.

End Secrecy.

Lemma secrets_stay_off_the_console_witness :
  let W := SdkScenario.world (fun _ => SdkScenario.replied 403 "Forbidden" (JObj [])) in
  console (snd (perform W (ConfirmPayment "cs_1")
                  (snd (set_apiKey (Some (JStr "pnx_live_other")) (start W None)))))
    = console (snd (perform W (ConfirmPayment "cs_1") (start W None))) /\
  console (snd (registerWebhook (with_entropy (fun _ => x00) W)
                  "https://my-app.com/webhooks/paynexus" ["payment.success"] (start W None)))
    = console (snd (registerWebhook W "https://my-app.com/webhooks/paynexus" ["payment.success"]
                      (start W None))).
Proof.
  intros W.
  destruct (secrets_stay_off_the_console W (ConfirmPayment "cs_1") (Some (JStr "pnx_live_other"))
              (fun _ => x00) "https://my-app.com/webhooks/paynexus" ["payment.success"]
              (start W None)) as ((_ & Ho) & (Hr & _)).
  - reflexivity.
  - split; [exact Ho | exact Hr].
Defined.
